(** * Book-review platform: rating aggregation and review interactions

    A shallow embedding of the back end's review core:
    - [backend/models/Review.js]  (schema, pre-save hook, markHelpful, toggleLike)
    - [backend/models/Book.js]    (updateAverageRating)
    - [backend/routes/reviews.js] (POST / PUT / DELETE / helpful / like handlers)
    - [backend/routes/books.js]   (the three handlers that write books)
    and, for the further properties at the end,
    - [backend/models/Book.js]    (the [ratingStars] virtual)
    - [backend/routes/reviews.js], [backend/routes/books.js],
      [backend/routes/users.js]   (the GET handlers that list reviews, show
                                   a book and compute a user's statistics)
    - [frontend/src/store/slices/reviewsSlice.ts] (the reducers)

    Modelling conventions.
    - A JavaScript Number is an exact rational ([Q], compared with [==]);
      counters that only ever move by one are integers ([Z]).
    - An ObjectId is a natural number ([N]); a Date is a timestamp ([N]).
    - A collection is the list of its documents in insertion (natural) order.
    - Handlers run in a small state-and-exception monad over the document
      store; every store write may throw, driven by a schedule of faults, and
      every handler leaves a log of the effects it performed.
    - The handlers are modelled from the point where the route's own function
      starts: authentication and the express validators have already run.
    - The store answers every read; [sort] keeps documents that compare equal
      in their natural order.
    - A request is a call of one of the eight handlers that write; a run is a
      sequence of such requests, served one after the other. *)

From Stdlib Require Import ZArith QArith Qround Lia Ascii String.
From Stdlib Require Import Lqa Permutation Sorted.
From stdpp Require Import base list strings gmap.

Local Open Scope Z_scope.

Abbreviation ObjectId := N.
Abbreviation Date := N.

(** ** JavaScript primitives *)

(** [Math.round]: nearest integer, ties towards plus infinity. *)
Definition Math_round (x : Q) : Z := Qfloor (x + (1 # 2)).

(** [Array.prototype.indexOf]: first index holding [x], or [-1]. *)
Fixpoint indexOf (l : list ObjectId) (x : ObjectId) : Z :=
  match l with
  | [] => -1
  | y :: l' =>
      if N.eqb y x then 0
      else let i := indexOf l' x in if i =? -1 then -1 else i + 1
  end.

(** [Array.prototype.includes]. *)
Definition includes (l : list ObjectId) (x : ObjectId) : bool :=
  existsb (N.eqb x) l.

(** [Array.prototype.push] of one element. *)
Definition push (l : list ObjectId) (x : ObjectId) : list ObjectId := l ++ [x].

(** [Array.prototype.splice (start, deleteCount)] with no inserted items. *)
Definition splice (l : list ObjectId) (start deleteCount : nat) : list ObjectId :=
  take start l ++ drop (start + deleteCount) l.

(** [String.prototype.trim], on ASCII white space. *)
Definition is_space (a : ascii) : bool :=
  let n := nat_of_ascii a in
  ((9 <=? n)%nat && (n <=? 13)%nat) || (n =? 32)%nat.

Fixpoint trimStart (s : string) : string :=
  match s with
  | EmptyString => EmptyString
  | String a s' => if is_space a then trimStart s' else s
  end.

Definition trim (s : string) : string :=
  String.rev (trimStart (String.rev (trimStart s))).

(** [a || b] on a string that may be undefined: the empty string is falsy. *)
Definition or_default (o : option string) (d : string) : string :=
  match o with
  | Some s => if String.eqb s "" then d else s
  | None => d
  end.

(** [===] on optional numbers. *)
Definition optQ_eqb (a b : option Q) : bool :=
  match a, b with
  | Some x, Some y => Qeq_bool x y
  | None, None => true
  | _, _ => false
  end.

(** ** Documents *)

(** The [{ count, users }] sub-document of [helpful] and of [likes]. *)
Record Votes := mkVotes { count : Z; users : list ObjectId }.

Module ReviewDoc.
Record t := mk {
  _id : ObjectId;
  user : ObjectId;
  book : ObjectId;
  rating : Q;
  title : string;
  content : string;
  spoilerAlert : bool;
  helpful : Votes;
  likes : Votes;
  isVerified : bool;
  isActive : bool;
  tags : list string;
  readingStatus : string;
  readDate : option Date;
  format : string;
  purchaseSource : option string;
  price : option Q;
  currency : string;
  createdAt : Date;
  updatedAt : Date
}.

Definition set_helpful (r : t) (v : Votes) : t :=
  mk (_id r) (user r) (book r) (rating r) (title r) (content r)
     (spoilerAlert r) v (likes r) (isVerified r) (isActive r) (tags r)
     (readingStatus r) (readDate r) (format r) (purchaseSource r) (price r)
     (currency r) (createdAt r) (updatedAt r).

Definition set_likes (r : t) (v : Votes) : t :=
  mk (_id r) (user r) (book r) (rating r) (title r) (content r)
     (spoilerAlert r) (helpful r) v (isVerified r) (isActive r) (tags r)
     (readingStatus r) (readDate r) (format r) (purchaseSource r) (price r)
     (currency r) (createdAt r) (updatedAt r).

Definition set_isActive (r : t) (b : bool) : t :=
  mk (_id r) (user r) (book r) (rating r) (title r) (content r)
     (spoilerAlert r) (helpful r) (likes r) (isVerified r) b (tags r)
     (readingStatus r) (readDate r) (format r) (purchaseSource r) (price r)
     (currency r) (createdAt r) (updatedAt r).

Definition set_updatedAt (r : t) (d : Date) : t :=
  mk (_id r) (user r) (book r) (rating r) (title r) (content r)
     (spoilerAlert r) (helpful r) (likes r) (isVerified r) (isActive r)
     (tags r) (readingStatus r) (readDate r) (format r) (purchaseSource r)
     (price r) (currency r) (createdAt r) d.
End ReviewDoc.

Module BookDoc.
Record t := mk {
  _id : ObjectId;
  title : string;
  author : string;
  averageRating : Q;
  totalRatings : Z;
  totalReviews : Z;
  isActive : bool
}.

Definition set_ratings (b : t) (avg : Q) (total : Z) : t :=
  mk (_id b) (title b) (author b) avg total (totalReviews b) (isActive b).

Definition set_isActive (b : t) (a : bool) : t :=
  mk (_id b) (title b) (author b) (averageRating b) (totalRatings b)
     (totalReviews b) a.
End BookDoc.

(** The User model is not part of the sources at hand; these are the fields
    the review routes read or write ([req.user._id], [req.user.role],
    [reviewsCount]). *)
Module UserDoc.
Record t := mk {
  _id : ObjectId;
  role : string;
  isActive : bool;
  reviewsCount : Z
}.

Definition inc_reviewsCount (d : Z) (u : t) : t :=
  mk (_id u) (role u) (isActive u) (reviewsCount u + d).
End UserDoc.

(** ** The document store and the handler monad *)

Record Store := mkStore {
  Reviews : list ReviewDoc.t;
  Books : list BookDoc.t;
  Users : list UserDoc.t
}.

Inductive Event :=
| ReviewSaved (id : ObjectId)
| ReviewSaveFailed (id : ObjectId)
| AggregatorInvoked (bookId : ObjectId)
| BookSaved (id : ObjectId)
| BookSaveFailed (id : ObjectId)
| UserCounted (id : ObjectId) (delta : Z)
| UserCountFailed (id : ObjectId)
| ConsoleError (msg : string).

Inductive Error := ValidationError | DuplicateKey | WriteError.

Inductive Result (A : Type) :=
| Ok (a : A)
| Throw (e : Error).
Arguments Ok {A} a.
Arguments Throw {A} e.

(** [faults]: whether the next store writes throw ([true]) or go through;
    past the end of the schedule every write goes through.
    [clock]: what [new Date()] returns during the request. *)
Record World := mkWorld {
  db : Store;
  log : list Event;
  faults : list bool;
  clock : Date
}.

Definition M (A : Type) : Type := World -> Result A * World.

Definition ret {A} (a : A) : M A := fun w => (Ok a, w).

Definition bind {A B} (m : M A) (k : A -> M B) : M B :=
  fun w => match m w with
           | (Ok a, w') => k a w'
           | (Throw e, w') => (Throw e, w')
           end.

Definition throw {A} (e : Error) : M A := fun w => (Throw e, w).

(** [try { m } catch (error) { h error }] *)
Definition try_catch {A} (m : M A) (h : Error -> M A) : M A :=
  fun w => match m w with
           | (Ok a, w') => (Ok a, w')
           | (Throw e, w') => h e w'
           end.

Notation "x <- m ;; k" := (bind m (fun x => k))
  (at level 100, m at next level, right associativity).
Notation "m ;;; k" := (bind m (fun _ => k))
  (at level 100, right associativity).

Definition get_db : M Store := fun w => (Ok (db w), w).

Definition put_db (s : Store) : M unit :=
  fun w => (Ok tt, mkWorld s (log w) (faults w) (clock w)).

Definition emit (e : Event) : M unit :=
  fun w => (Ok tt, mkWorld (db w) (log w ++ [e]) (faults w) (clock w)).

Definition now : M Date := fun w => (Ok (clock w), w).

Definition next_fault : M bool :=
  fun w => match faults w with
           | [] => (Ok false, w)
           | f :: fs => (Ok f, mkWorld (db w) (log w) fs (clock w))
           end.

(** One write to the store: it either throws and leaves the store as it
    was, or applies [f]. *)
Definition write (f : Store -> Store) (done failed : Event) : M unit :=
  bad <- next_fault ;;
  if (bad : bool) then emit failed ;;; throw WriteError
  else s <- get_db ;; put_db (f s) ;;; emit done.

(** ** models/Book.js *)

(** One group of the [$group] stage. *)
Record Stats := mkStats { averageRating : Q; totalRatings : Z }.

Definition sumQ (l : list Q) : Q := fold_right Qplus 0%Q l.

(** [{ $group: { _id: null, averageRating: { $avg: '$rating' },
                 totalRatings: { $sum: 1 } } }]: no group for no document. *)
Definition group_stats (ratings : list Q) : list Stats :=
  match ratings with
  | [] => []
  | _ => [ mkStats (sumQ ratings / inject_Z (Z.of_nat (length ratings)))%Q
                   (Z.of_nat (length ratings)) ]
  end.

(** [{ $match: { book: this._id } }] *)
Definition match_book (bookId : ObjectId) (rs : list ReviewDoc.t) : list ReviewDoc.t :=
  List.filter (fun r => N.eqb (ReviewDoc.book r) bookId) rs.

(** [Review.aggregate([...])] as [updateAverageRating] calls it. *)
Definition aggregate (rs : list ReviewDoc.t) (bookId : ObjectId) : list Stats :=
  group_stats (map ReviewDoc.rating (match_book bookId rs)).

(** The two assignments of [updateAverageRating], lines 180 to 186. *)
Definition rated (this : BookDoc.t) (stats : list Stats) : BookDoc.t :=
  match stats with
  | st :: _ =>
      BookDoc.set_ratings this
        (inject_Z (Math_round (averageRating st * 10)) / 10)%Q
        (totalRatings st)
  | [] => BookDoc.set_ratings this 0%Q 0
  end.

Module Book.
Import BookDoc.

Definition findById (id : ObjectId) : M (option t) :=
  s <- get_db ;; ret (List.find (fun b => N.eqb (_id b) id) (Books s)).

(** Schema validators: [averageRating: { min: 0, max: 5 }]. *)
Definition valid_averageRating (q : Q) : bool := Qle_bool 0 q && Qle_bool q 5.

Definition same_fields (a b : t) : bool :=
  String.eqb (title a) (title b) && String.eqb (author a) (author b)
  && Qeq_bool (BookDoc.averageRating a) (BookDoc.averageRating b)
  && (BookDoc.totalRatings a =? BookDoc.totalRatings b)
  && (totalReviews a =? totalReviews b)
  && Bool.eqb (isActive a) (isActive b).

(** Validation runs on the paths assigned since the document was loaded
    ([orig]); a new document ([None]) is validated whole. *)
Definition validate (orig : option t) (doc : t) : bool :=
  match orig with
  | None => valid_averageRating (BookDoc.averageRating doc)
  | Some o =>
      Qeq_bool (BookDoc.averageRating o) (BookDoc.averageRating doc)
      || valid_averageRating (BookDoc.averageRating doc)
  end.

(** The update that [save] sends: the modified paths only. *)
Definition merge (orig doc stored : t) : t :=
  mk (_id stored)
     (if String.eqb (title orig) (title doc) then title stored else title doc)
     (if String.eqb (author orig) (author doc) then author stored else author doc)
     (if Qeq_bool (BookDoc.averageRating orig) (BookDoc.averageRating doc)
      then BookDoc.averageRating stored else BookDoc.averageRating doc)
     (if BookDoc.totalRatings orig =? BookDoc.totalRatings doc
      then BookDoc.totalRatings stored else BookDoc.totalRatings doc)
     (if totalReviews orig =? totalReviews doc
      then totalReviews stored else totalReviews doc)
     (if Bool.eqb (isActive orig) (isActive doc)
      then isActive stored else isActive doc).

Fixpoint update_first (id : ObjectId) (f : t -> t) (l : list t) : list t :=
  match l with
  | [] => []
  | b :: l' => if N.eqb (_id b) id then f b :: l' else b :: update_first id f l'
  end.

Definition store_update (id : ObjectId) (f : t -> t) (s : Store) : Store :=
  mkStore (Reviews s) (update_first id f (Books s)) (Users s).

Definition store_insert (doc : t) (s : Store) : Store :=
  mkStore (Reviews s) (Books s ++ [doc]) (Users s).

(** [doc.save()]. The ISBN pre-save hook only acts when [isbn] was
    assigned, which no modelled handler does. A document with nothing
    modified sends no update, so no fault can hit it. [BookSaved] marks
    that [save] resolved, [BookSaveFailed] that it rejected. *)
Definition save (orig : option t) (doc : t) : M unit :=
  if negb (validate orig doc)
  then emit (BookSaveFailed (_id doc)) ;;; throw ValidationError
  else match orig with
       | None =>
           s <- get_db ;;
           if existsb (fun b => N.eqb (_id b) (_id doc)) (Books s)
           then emit (BookSaveFailed (_id doc)) ;;; throw DuplicateKey
           else write (store_insert doc)
                      (BookSaved (_id doc)) (BookSaveFailed (_id doc))
       | Some o =>
           if same_fields o doc then emit (BookSaved (_id doc))
           else write (store_update (_id doc) (merge o doc))
                      (BookSaved (_id doc)) (BookSaveFailed (_id doc))
       end.

(** [bookSchema.methods.updateAverageRating] *)
Definition updateAverageRating (this : t) : M unit :=
  emit (AggregatorInvoked (_id this)) ;;;
  s <- get_db ;;
  let stats := aggregate (Reviews s) (_id this) in
  save (Some this) (rated this stats).
End Book.

(** ** The User model, as the review routes use it *)

Module User.
Import UserDoc.

Fixpoint update_first (id : ObjectId) (f : t -> t) (l : list t) : list t :=
  match l with
  | [] => []
  | u :: l' => if N.eqb (_id u) id then f u :: l' else u :: update_first id f l'
  end.

Definition store_update (id : ObjectId) (f : t -> t) (s : Store) : Store :=
  mkStore (Reviews s) (Books s) (update_first id f (Users s)).

Definition findById (id : ObjectId) : M (option t) :=
  s <- get_db ;; ret (List.find (fun u => N.eqb (_id u) id) (Users s)).

(** [User.findByIdAndUpdate(id, { $inc: { reviewsCount: d } })]: an update
    operator applied by the store, with no schema validation; nothing
    happens when no user has that id. *)
Definition findByIdAndUpdate_inc (id : ObjectId) (d : Z) : M unit :=
  write (store_update id (inc_reviewsCount d))
        (UserCounted id d) (UserCountFailed id).
End User.

(** ** models/Review.js *)

Module Review.
Import ReviewDoc.

Definition findById (id : ObjectId) : M (option t) :=
  s <- get_db ;; ret (List.find (fun r => N.eqb (_id r) id) (Reviews s)).

(** [Review.findOne({ user, book })]: no condition on [isActive]. *)
Definition findOne (userId bookId : ObjectId) : M (option t) :=
  s <- get_db ;;
  ret (List.find (fun r => N.eqb (user r) userId && N.eqb (book r) bookId)
                 (Reviews s)).

(** *** Schema validators *)

Definition one_of (l : list string) (s : string) : bool := existsb (String.eqb s) l.

Definition valid_rating (q : Q) : bool := Qle_bool 1 q && Qle_bool q 5.
Definition valid_title (s : string) : bool :=
  negb (String.eqb s "") && (String.length s <=? 200)%nat.
Definition valid_content (s : string) : bool :=
  negb (String.eqb s "") && (String.length s <=? 5000)%nat.
Definition valid_tags (l : list string) : bool :=
  forallb (fun s => (String.length s <=? 50)%nat) l.
Definition valid_readingStatus : string -> bool :=
  one_of ["Want to Read"; "Currently Reading"; "Read"; "DNF"]%string.
Definition valid_format : string -> bool :=
  one_of ["Hardcover"; "Paperback"; "E-book"; "Audiobook"; "Other"]%string.
Definition valid_purchaseSource (o : option string) : bool :=
  match o with Some s => (String.length s <=? 100)%nat | None => true end.
Definition valid_price (o : option Q) : bool :=
  match o with Some p => Qle_bool 0 p | None => true end.
Definition valid_currency : string -> bool :=
  one_of ["USD"; "EUR"; "GBP"; "CAD"; "AUD"; "JPY"; "INR"]%string.

Definition votes_eqb (a b : Votes) : bool :=
  (count a =? count b) && bool_decide (users a = users b).

(** [this.isModified('rating')], [orig] being the document as loaded. *)
Definition isModified_rating (orig doc : t) : bool :=
  negb (Qeq_bool (rating orig) (rating doc)).

(** No path differs from the document as loaded (the time stamps are the
    store's own). *)
Definition same_fields (a b : t) : bool :=
  N.eqb (user a) (user b) && N.eqb (book a) (book b)
  && Qeq_bool (rating a) (rating b)
  && String.eqb (title a) (title b) && String.eqb (content a) (content b)
  && Bool.eqb (spoilerAlert a) (spoilerAlert b)
  && votes_eqb (helpful a) (helpful b) && votes_eqb (likes a) (likes b)
  && Bool.eqb (isVerified a) (isVerified b) && Bool.eqb (isActive a) (isActive b)
  && bool_decide (tags a = tags b)
  && String.eqb (readingStatus a) (readingStatus b)
  && bool_decide (readDate a = readDate b)
  && String.eqb (format a) (format b)
  && bool_decide (purchaseSource a = purchaseSource b)
  && optQ_eqb (price a) (price b)
  && String.eqb (currency a) (currency b).

Definition validate_all (doc : t) : bool :=
  valid_rating (rating doc) && valid_title (title doc)
  && valid_content (content doc) && valid_tags (tags doc)
  && valid_readingStatus (readingStatus doc) && valid_format (format doc)
  && valid_purchaseSource (purchaseSource doc) && valid_price (price doc)
  && valid_currency (currency doc).

(** Validation of an existing document runs on the paths assigned since
    it was loaded. *)
Definition validate_modified (o doc : t) : bool :=
  (Qeq_bool (rating o) (rating doc) || valid_rating (rating doc))
  && (String.eqb (title o) (title doc) || valid_title (title doc))
  && (String.eqb (content o) (content doc) || valid_content (content doc))
  && (bool_decide (tags o = tags doc) || valid_tags (tags doc))
  && (String.eqb (readingStatus o) (readingStatus doc)
      || valid_readingStatus (readingStatus doc))
  && (String.eqb (format o) (format doc) || valid_format (format doc))
  && (bool_decide (purchaseSource o = purchaseSource doc)
      || valid_purchaseSource (purchaseSource doc))
  && (optQ_eqb (price o) (price doc) || valid_price (price doc))
  && (String.eqb (currency o) (currency doc) || valid_currency (currency doc)).

Definition validate (orig : option t) (doc : t) : bool :=
  match orig with
  | None => validate_all doc
  | Some o => validate_modified o doc
  end.

(** *** Store operations behind [save] *)

Fixpoint update_first (id : ObjectId) (doc : t) (l : list t) : list t :=
  match l with
  | [] => []
  | r :: l' => if N.eqb (_id r) id then doc :: l' else r :: update_first id doc l'
  end.

Definition store_update (doc : t) (s : Store) : Store :=
  mkStore (update_first (_id doc) doc (Reviews s)) (Books s) (Users s).

Definition store_insert (doc : t) (s : Store) : Store :=
  mkStore (Reviews s ++ [doc]) (Books s) (Users s).

(** The unique indexes: [_id], and [{ user: 1, book: 1 }, { unique: true }]. *)
Definition index_clash (doc : t) (rs : list t) : bool :=
  existsb (fun r => N.eqb (_id r) (_id doc)
                    || (N.eqb (user r) (user doc) && N.eqb (book r) (book doc))) rs.

(** [reviewSchema.pre('save')]: the aggregation is attempted before the
    review itself is written, and whatever it throws is logged and dropped. *)
Definition pre_save (orig : option t) (doc : t) : M unit :=
  if match orig with None => true | Some o => isModified_rating o doc end
  then
    try_catch
      (b <- Book.findById (book doc) ;;
       match b with
       | Some b => Book.updateAverageRating b
       | None => ret tt
       end)
      (fun _ => emit (ConsoleError "Error updating book rating:"))
  else ret tt.

(** [doc.save()]: validation, the pre-save hook, the time stamps, the write.
    [orig] is the document as loaded, [None] for [new Review(...)]. It
    returns the document as it is in memory afterwards. *)
Definition save (orig : option t) (doc : t) : M t :=
  if negb (validate orig doc)
  then emit (ReviewSaveFailed (_id doc)) ;;; throw ValidationError
  else
    pre_save orig doc ;;;
    match orig with
    | None =>
        s <- get_db ;;
        if index_clash doc (Reviews s)
        then emit (ReviewSaveFailed (_id doc)) ;;; throw DuplicateKey
        else write (store_insert doc)
                   (ReviewSaved (_id doc)) (ReviewSaveFailed (_id doc)) ;;;
             ret doc
    | Some o =>
        if same_fields o doc then emit (ReviewSaved (_id doc)) ;;; ret doc
        else
          d <- now ;;
          let doc' := set_updatedAt doc d in
          write (store_update doc')
                (ReviewSaved (_id doc)) (ReviewSaveFailed (_id doc)) ;;;
          ret doc'
    end.

(** [reviewSchema.methods.markHelpful] *)
Definition markHelpful (this : t) (userId : ObjectId) : M t :=
  let userIndex := indexOf (users (helpful this)) userId in
  let this' :=
    if userIndex =? -1
    then set_helpful this (mkVotes (count (helpful this) + 1)
                                   (push (users (helpful this)) userId))
    else set_helpful this (mkVotes (count (helpful this) - 1)
                                   (splice (users (helpful this)) (Z.to_nat userIndex) 1))
  in save (Some this) this'.

(** [reviewSchema.methods.toggleLike] *)
Definition toggleLike (this : t) (userId : ObjectId) : M t :=
  let userIndex := indexOf (users (likes this)) userId in
  let this' :=
    if userIndex =? -1
    then set_likes this (mkVotes (count (likes this) + 1)
                                 (push (users (likes this)) userId))
    else set_likes this (mkVotes (count (likes this) - 1)
                                 (splice (users (likes this)) (Z.to_nat userIndex) 1))
  in save (Some this) this'.

(** [reviewSchema.methods.isHelpfulByUser] and [isLikedByUser] *)
Definition isHelpfulByUser (this : t) (userId : ObjectId) : bool :=
  includes (users (helpful this)) userId.

Definition isLikedByUser (this : t) (userId : ObjectId) : bool :=
  includes (users (likes this)) userId.

End Review.


(** ** routes/reviews.js *)

Inductive Payload :=
| NoPayload
| ReviewPayload (review : ReviewDoc.t)
| HelpfulPayload (helpfulCount : Z) (isHelpful : bool)
| LikePayload (likeCount : Z) (isLiked : bool).

Record Response := mkResponse {
  status : Z;
  message : string;
  payload : Payload
}.

(** [req.body] of POST /api/reviews; [oid] is the ObjectId that
    [new Review(...)] draws for the document. *)
Record CreateBody := mkCreateBody {
  c_bookId : ObjectId;
  c_rating : Q;
  c_title : string;
  c_content : string;
  c_spoilerAlert : option bool;
  c_readingStatus : option string;
  c_format : option string;
  c_price : option Q;
  c_currency : option string
}.

(** [req.body] of PUT /api/reviews/:id: [None] is a key that is absent
    ([undefined]). The last four keys are paths of the schema that a client
    may send although [allowedFields] does not list them. *)
Record UpdateBody := mkUpdateBody {
  u_rating : option Q;
  u_title : option string;
  u_content : option string;
  u_spoilerAlert : option bool;
  u_readingStatus : option string;
  u_format : option string;
  u_price : option Q;
  u_currency : option string;
  u_readDate : option Date;
  u_isVerified : option bool;
  u_isActive : option bool;
  u_tags : option (list string);
  u_purchaseSource : option string
}.

Module reviews.
Import ReviewDoc.

Definition respond (st : Z) (msg : string) : M Response :=
  ret (mkResponse st msg NoPayload).

(** [new Review({ ... })] of the POST handler, with the schema's defaults
    and its [trim] setters. *)
Definition new_Review (oid : ObjectId) (userId : ObjectId) (b : CreateBody)
    (d : Date) : t :=
  mk oid userId (c_bookId b) (c_rating b)
     (trim (c_title b)) (trim (c_content b))
     (match c_spoilerAlert b with Some v => v | None => false end)
     (mkVotes 0 []) (mkVotes 0 [])
     false true []
     (or_default (c_readingStatus b) "Read")
     (match c_readingStatus b with
      | Some s => if String.eqb s "Read" then Some d else None
      | None => None
      end)
     (or_default (c_format b) "Paperback")
     None (c_price b)
     (or_default (c_currency b) "USD")
     d d.

(** POST /api/reviews *)
Definition post (requester : UserDoc.t) (oid : ObjectId) (body : CreateBody)
    : M Response :=
  try_catch
    (book <- Book.findById (c_bookId body) ;;
     match book with
     | None => respond 404 "Book not found"
     | Some book =>
         if negb (BookDoc.isActive book) then respond 404 "Book not found"
         else
           existingReview <- Review.findOne (UserDoc._id requester) (c_bookId body) ;;
           match existingReview with
           | Some _ => respond 400 "You have already reviewed this book"
           | None =>
               d <- now ;;
               review <- Review.save None
                           (new_Review oid (UserDoc._id requester) body d) ;;
               Book.updateAverageRating book ;;;
               User.findByIdAndUpdate_inc (UserDoc._id requester) 1 ;;;
               ret (mkResponse 201 "Review created successfully"
                               (ReviewPayload review))
           end
     end)
    (fun _ =>
       emit (ConsoleError "Create review error:") ;;;
       respond 500 "Server error while creating review").

(** The ownership check of PUT and DELETE. *)
Definition denied (review : t) (requester : UserDoc.t) : bool :=
  negb (N.eqb (user review) (UserDoc._id requester))
  && negb (String.eqb (UserDoc.role requester) "admin").

Definition assign {A} (o : option A) (old : A) : A :=
  match o with Some v => v | None => old end.

(** The [allowedFields.forEach] loop of PUT: a key that is present is
    assigned through the schema's setters. *)
Definition assign_allowed (body : UpdateBody) (r : t) : t :=
  mk (_id r) (user r) (book r)
     (assign (u_rating body) (rating r))
     (assign (option_map trim (u_title body)) (title r))
     (assign (option_map trim (u_content body)) (content r))
     (assign (u_spoilerAlert body) (spoilerAlert r))
     (helpful r) (likes r) (isVerified r) (isActive r) (tags r)
     (assign (u_readingStatus body) (readingStatus r))
     (match u_readDate body with Some d => Some d | None => readDate r end)
     (assign (u_format body) (format r))
     (purchaseSource r)
     (match u_price body with Some p => Some p | None => price r end)
     (assign (u_currency body) (currency r))
     (createdAt r) (updatedAt r).

(** PUT /api/reviews/:id *)
Definition put (requester : UserDoc.t) (id : ObjectId) (body : UpdateBody)
    : M Response :=
  try_catch
    (review <- Review.findById id ;;
     match review with
     | None => respond 404 "Review not found"
     | Some review =>
         if negb (isActive review) then respond 404 "Review not found"
         else if denied review requester then respond 403 "Access denied"
         else
           saved <- Review.save (Some review) (assign_allowed body review) ;;
           match u_rating body with
           | Some _ =>
               book <- Book.findById (book saved) ;;
               match book with
               | Some book => Book.updateAverageRating book
               | None => ret tt
               end
           | None => ret tt
           end ;;;
           ret (mkResponse 200 "Review updated successfully"
                           (ReviewPayload saved))
     end)
    (fun _ =>
       emit (ConsoleError "Update review error:") ;;;
       respond 500 "Server error while updating review").

(** DELETE /api/reviews/:id *)
Definition delete (requester : UserDoc.t) (id : ObjectId) : M Response :=
  try_catch
    (review <- Review.findById id ;;
     match review with
     | None => respond 404 "Review not found"
     | Some review =>
         if negb (isActive review) then respond 404 "Review not found"
         else if denied review requester then respond 403 "Access denied"
         else
           saved <- Review.save (Some review) (set_isActive review false) ;;
           book <- Book.findById (book saved) ;;
           match book with
           | Some book => Book.updateAverageRating book
           | None => ret tt
           end ;;;
           User.findByIdAndUpdate_inc (user saved) (-1) ;;;
           respond 200 "Review deleted successfully"
     end)
    (fun _ =>
       emit (ConsoleError "Delete review error:") ;;;
       respond 500 "Server error while deleting review").

(** POST /api/reviews/:id/helpful *)
Definition post_helpful (requester : UserDoc.t) (id : ObjectId) : M Response :=
  try_catch
    (review <- Review.findById id ;;
     match review with
     | None => respond 404 "Review not found"
     | Some review =>
         if negb (isActive review) then respond 404 "Review not found"
         else
           review <- Review.markHelpful review (UserDoc._id requester) ;;
           ret (mkResponse 200 "Review helpful status updated"
                  (HelpfulPayload (count (helpful review))
                     (Review.isHelpfulByUser review (UserDoc._id requester))))
     end)
    (fun _ =>
       emit (ConsoleError "Mark helpful error:") ;;;
       respond 500 "Server error while updating helpful status").

(** POST /api/reviews/:id/like *)
Definition post_like (requester : UserDoc.t) (id : ObjectId) : M Response :=
  try_catch
    (review <- Review.findById id ;;
     match review with
     | None => respond 404 "Review not found"
     | Some review =>
         if negb (isActive review) then respond 404 "Review not found"
         else
           review <- Review.toggleLike review (UserDoc._id requester) ;;
           ret (mkResponse 200 "Review like status updated"
                  (LikePayload (count (likes review))
                     (Review.isLikedByUser review (UserDoc._id requester))))
     end)
    (fun _ =>
       emit (ConsoleError "Toggle like error:") ;;;
       respond 500 "Server error while updating like status").

End reviews.


(** ** routes/books.js: the handlers that write the Book collection *)

(** [req.body] of POST and PUT /api/books, restricted to the modelled
    paths; both handlers copy every key the client sends. *)
Record BookBody := mkBookBody {
  k_title : option string;
  k_author : option string;
  k_averageRating : option Q;
  k_totalRatings : option Z;
  k_totalReviews : option Z;
  k_isActive : option bool
}.

Module books.
Import BookDoc.

Definition respond (st : Z) (msg : string) : M Response :=
  ret (mkResponse st msg NoPayload).

Definition default {A} (o : option A) (d : A) : A :=
  match o with Some v => v | None => d end.

(** POST /api/books: [new Book({ ...req.body, createdBy })] and [save]. *)
Definition post (oid : ObjectId) (body : BookBody) : M Response :=
  try_catch
    (Book.save None
       (mk oid (trim (default (k_title body) ""))
           (trim (default (k_author body) ""))
           (default (k_averageRating body) 0%Q)
           (default (k_totalRatings body) 0)
           (default (k_totalReviews body) 0)
           (default (k_isActive body) true)) ;;;
     respond 201 "Book created successfully")
    (fun _ =>
       emit (ConsoleError "Create book error:") ;;;
       respond 500 "Server error while creating book").

(** PUT /api/books/:id: the [Object.keys(req.body).forEach] loop. *)
Definition put (id : ObjectId) (body : BookBody) : M Response :=
  try_catch
    (book <- Book.findById id ;;
     match book with
     | None => respond 404 "Book not found"
     | Some book =>
         Book.save (Some book)
           (mk (_id book)
               (default (option_map trim (k_title body)) (title book))
               (default (option_map trim (k_author body)) (author book))
               (default (k_averageRating body) (BookDoc.averageRating book))
               (default (k_totalRatings body) (BookDoc.totalRatings book))
               (default (k_totalReviews body) (totalReviews book))
               (default (k_isActive body) (isActive book))) ;;;
         respond 200 "Book updated successfully"
     end)
    (fun _ =>
       emit (ConsoleError "Update book error:") ;;;
       respond 500 "Server error while updating book").

(** DELETE /api/books/:id: soft delete. *)
Definition delete (id : ObjectId) : M Response :=
  try_catch
    (book <- Book.findById id ;;
     match book with
     | None => respond 404 "Book not found"
     | Some book =>
         Book.save (Some book) (set_isActive book false) ;;;
         respond 200 "Book deleted successfully"
     end)
    (fun _ =>
       emit (ConsoleError "Delete book error:") ;;;
       respond 500 "Server error while deleting book").

End books.

(** ** Requests and runs *)

(** One request to a handler that writes the store, with the requester the
    authentication middleware resolved, the faults its writes will meet and
    the time at which it runs. *)
Inductive Call :=
| PostReview (requester : UserDoc.t) (oid : ObjectId) (body : CreateBody)
| PutReview (requester : UserDoc.t) (id : ObjectId) (body : UpdateBody)
| DeleteReview (requester : UserDoc.t) (id : ObjectId)
| PostHelpful (requester : UserDoc.t) (id : ObjectId)
| PostLike (requester : UserDoc.t) (id : ObjectId)
| PostBook (oid : ObjectId) (body : BookBody)
| PutBook (id : ObjectId) (body : BookBody)
| DeleteBook (id : ObjectId).

Record Request := mkRequest {
  call : Call;
  req_faults : list bool;
  req_time : Date
}.

Definition handler (c : Call) : M Response :=
  match c with
  | PostReview u oid b => reviews.post u oid b
  | PutReview u id b => reviews.put u id b
  | DeleteReview u id => reviews.delete u id
  | PostHelpful u id => reviews.post_helpful u id
  | PostLike u id => reviews.post_like u id
  | PostBook oid b => books.post oid b
  | PutBook id b => books.put id b
  | DeleteBook id => books.delete id
  end.

(** What a handler answers on a store, and the store it leaves. Handlers
    catch whatever is thrown, so the [Throw] case never shows. *)
Definition serve (r : Request) (s : Store) : Response * Store * list Event :=
  match handler (call r) (mkWorld s [] (req_faults r) (req_time r)) with
  | (Ok resp, w) => (resp, db w, log w)
  | (Throw _, w) => (mkResponse 500 "" NoPayload, db w, log w)
  end.

Definition response (r : Request) (s : Store) : Response := (serve r s).1.1.
Definition after (r : Request) (s : Store) : Store := (serve r s).1.2.
Definition effects (r : Request) (s : Store) : list Event := (serve r s).2.

(** The store after a sequence of requests, one after the other. *)
Definition run (rs : list Request) (s : Store) : Store :=
  fold_left (fun s r => after r s) rs s.

(** A request with no fault. *)
Definition request (c : Call) (t : Date) : Request := mkRequest c [] t.


(** ** models/Book.js: the [ratingStars] virtual *)

(** [Math.floor] and [Math.ceil]. *)
Definition Math_floor (x : Q) : Z := Qfloor x.
Definition Math_ceil (x : Q) : Z := Qceiling x.

(** [x % 1]: the remainder has the sign of [x]. *)
Definition rem1 (x : Q) : Q :=
  (x - inject_Z (if Qle_bool 0 x then Qfloor x else Qceiling x))%Q.

Module ratingStars.
Record t := mk { full : Z; half : Z; empty : Z }.

(** [bookSchema.virtual('ratingStars').get] *)
Definition get (this : BookDoc.t) : t :=
  let fullStars := Math_floor (BookDoc.averageRating this) in
  let hasHalfStar := Qle_bool (1 # 2) (rem1 (BookDoc.averageRating this)) in
  let emptyStars := 5 - fullStars - (if hasHalfStar then 1 else 0) in
  mk fullStars (if hasHalfStar then 1 else 0) emptyStars.
End ratingStars.

(** ** Queries: [find], [sort], [skip], [limit] *)

(** The value a document holds at a path, as far as sorting goes. Scalar
    paths of the review schema are covered; an array, a sub-document or a
    path the schema does not have counts as missing. *)
Inductive SortValue :=
| Missing
| Num (q : Q)
| Str (s : string)
| Flag (b : bool).

Definition of_N (n : N) : SortValue := Num (inject_Z (Z.of_N n)).

Definition of_option {A} (f : A -> SortValue) (o : option A) : SortValue :=
  match o with Some a => f a | None => Missing end.

Definition review_paths : list (string * (ReviewDoc.t -> SortValue)) :=
  [ ("_id", fun r => of_N (ReviewDoc._id r));
    ("user", fun r => of_N (ReviewDoc.user r));
    ("book", fun r => of_N (ReviewDoc.book r));
    ("rating", fun r => Num (ReviewDoc.rating r));
    ("title", fun r => Str (ReviewDoc.title r));
    ("content", fun r => Str (ReviewDoc.content r));
    ("spoilerAlert", fun r => Flag (ReviewDoc.spoilerAlert r));
    ("helpful.count", fun r => Num (inject_Z (count (ReviewDoc.helpful r))));
    ("likes.count", fun r => Num (inject_Z (count (ReviewDoc.likes r))));
    ("isVerified", fun r => Flag (ReviewDoc.isVerified r));
    ("isActive", fun r => Flag (ReviewDoc.isActive r));
    ("readingStatus", fun r => Str (ReviewDoc.readingStatus r));
    ("readDate", fun r => of_option of_N (ReviewDoc.readDate r));
    ("format", fun r => Str (ReviewDoc.format r));
    ("purchaseSource", fun r => of_option Str (ReviewDoc.purchaseSource r));
    ("price", fun r => of_option Num (ReviewDoc.price r));
    ("currency", fun r => Str (ReviewDoc.currency r));
    ("createdAt", fun r => of_N (ReviewDoc.createdAt r));
    ("updatedAt", fun r => of_N (ReviewDoc.updatedAt r)) ]%string.

Fixpoint path_getter (path : string)
    (l : list (string * (ReviewDoc.t -> SortValue))) : ReviewDoc.t -> SortValue :=
  match l with
  | [] => fun _ => Missing
  | (p, f) :: l' => if String.eqb p path then f else path_getter path l'
  end.

(** The store's order between values: missing first, then numbers, then
    strings, then booleans. *)
Definition value_leb (a b : SortValue) : bool :=
  match a, b with
  | Missing, _ => true
  | Num _, Missing => false
  | Num x, Num y => Qle_bool x y
  | Num _, _ => true
  | Str _, (Missing | Num _) => false
  | Str x, Str y => String.leb x y
  | Str _, Flag _ => true
  | Flag x, Flag y => implb x y
  | Flag _, _ => false
  end.

(** The [sort] object of the listing routes: [{ [sortBy]: 1 }] or
    [{ [sortBy]: -1 }]. *)
Record Sort := mkSort { sort_path : string; sort_dir : Z }.

Definition comes_first (o : Sort) (a b : ReviewDoc.t) : bool :=
  let va := path_getter (sort_path o) review_paths a in
  let vb := path_getter (sort_path o) review_paths b in
  if sort_dir o =? 1 then value_leb va vb else value_leb vb va.

Fixpoint insert_sorted (o : Sort) (x : ReviewDoc.t) (l : list ReviewDoc.t)
    : list ReviewDoc.t :=
  match l with
  | [] => [x]
  | y :: l' => if comes_first o x y then x :: y :: l' else y :: insert_sorted o x l'
  end.

(** [.sort(sort)]: documents that compare equal keep their natural order. *)
Definition sort_by (o : Sort) (l : list ReviewDoc.t) : list ReviewDoc.t :=
  fold_right (insert_sorted o) [] l.

(** [.skip(n)] and [.limit(n)], for the values [validatePagination] lets
    through (a page of at least 1, a limit of at least 1). *)
Definition skip {A} (n : Z) (l : list A) : list A := drop (Z.to_nat n) l.
Definition limit {A} (n : Z) (l : list A) : list A := take (Z.to_nat n) l.

(** The filter of the review listings: [isActive: true] and the optional
    conditions. *)
Record ReviewFilter := mkReviewFilter {
  f_book : option ObjectId;
  f_user : option ObjectId;
  f_rating : option Z
}.

Definition matches (f : ReviewFilter) (r : ReviewDoc.t) : bool :=
  ReviewDoc.isActive r
  && match f_book f with Some b => N.eqb (ReviewDoc.book r) b | None => true end
  && match f_user f with Some u => N.eqb (ReviewDoc.user r) u | None => true end
  && match f_rating f with
     | Some n => Qeq_bool (ReviewDoc.rating r) (inject_Z n)
     | None => true
     end.

Record Pagination := mkPagination {
  currentPage : Z;
  totalPages : Z;
  totalReviews : Z;
  hasNextPage : bool;
  hasPrevPage : bool;
  page_limit : Z
}.

Record Listing := mkListing {
  l_status : Z;
  l_message : string;
  l_reviews : list ReviewDoc.t;
  l_pagination : option Pagination
}.

(** The query string of the listing routes, parsed: [None] is a parameter
    that was not sent. *)
Record ListQuery := mkListQuery {
  q_page : option Z;
  q_limit : option Z;
  q_bookId : option ObjectId;
  q_userId : option ObjectId;
  q_rating : option Z;
  q_sortBy : option string;
  q_sortOrder : option string
}.

Definition or_else {A} (o : option A) (d : A) : A :=
  match o with Some a => a | None => d end.

(** The part the four listing routes share, from [// Build sort object] to
    [res.json]. *)
Definition list_page (q : ListQuery) (f : ReviewFilter) : M Listing :=
  let page := or_else (q_page q) 1 in
  let lim := or_else (q_limit q) 10 in
  let sortBy := or_else (q_sortBy q) "createdAt"%string in
  let sortOrder := or_else (q_sortOrder q) "desc"%string in
  let sort := mkSort sortBy (if String.eqb sortOrder "desc" then -1 else 1) in
  let skipped := (page - 1) * lim in
  s <- get_db ;;
  let reviews := limit lim (skip skipped (sort_by sort
                   (List.filter (matches f) (Reviews s)))) in
  let total := Z.of_nat (length (List.filter (matches f) (Reviews s))) in
  let totalPages := Math_ceil (inject_Z total / inject_Z lim) in
  ret (mkListing 200 "" reviews
         (Some (mkPagination page totalPages total
                  (page <? totalPages) (1 <? page) lim))).

Definition no_listing (st : Z) (msg : string) : M Listing :=
  ret (mkListing st msg [] None).

Module reviews_get.

(** GET /api/reviews *)
Definition get (q : ListQuery) : M Listing :=
  try_catch
    (list_page q (mkReviewFilter (q_bookId q) (q_userId q) (q_rating q)))
    (fun _ =>
       emit (ConsoleError "Get reviews error:") ;;;
       no_listing 500 "Server error while fetching reviews").

(** GET /api/reviews/:id *)
Definition get_by_id (id : ObjectId) : M Response :=
  try_catch
    (review <- Review.findById id ;;
     match review with
     | None => reviews.respond 404 "Review not found"
     | Some review =>
         if negb (ReviewDoc.isActive review)
         then reviews.respond 404 "Review not found"
         else ret (mkResponse 200 "" (ReviewPayload review))
     end)
    (fun _ =>
       emit (ConsoleError "Get review error:") ;;;
       reviews.respond 500 "Server error while fetching review").


End reviews_get.

Record BookView := mkBookView {
  v_status : Z;
  v_message : string;
  v_book : option BookDoc.t;
  v_userReview : option ReviewDoc.t;
  v_recentReviews : list ReviewDoc.t
}.

Module books_get.

(** GET /api/books/:id; [requester] is what [optionalAuth] resolved. *)
Definition get_by_id (requester : option UserDoc.t) (id : ObjectId) : M BookView :=
  try_catch
    (book <- Book.findById id ;;
     match book with
     | None => ret (mkBookView 404 "Book not found" None None [])
     | Some book =>
         if negb (BookDoc.isActive book)
         then ret (mkBookView 404 "Book not found" None None [])
         else
           userReview <- match requester with
                         | Some u => Review.findOne (UserDoc._id u) id
                         | None => ret None
                         end ;;
           s <- get_db ;;
           let recentReviews :=
             limit 5 (sort_by (mkSort "createdAt" (-1))
                        (List.filter (matches (mkReviewFilter (Some id) None None))
                                     (Reviews s))) in
           ret (mkBookView 200 "" (Some book) userReview recentReviews)
     end)
    (fun _ =>
       emit (ConsoleError "Get book error:") ;;;
       ret (mkBookView 500 "Server error while fetching book" None None [])).

(** GET /api/books/:id/reviews *)
Definition get_reviews (id : ObjectId) (q : ListQuery) : M Listing :=
  try_catch
    (book <- Book.findById id ;;
     match book with
     | None => no_listing 404 "Book not found"
     | Some book =>
         if negb (BookDoc.isActive book) then no_listing 404 "Book not found"
         else list_page q (mkReviewFilter (Some id) None None)
     end)
    (fun _ =>
       emit (ConsoleError "Get book reviews error:") ;;;
       no_listing 500 "Server error while fetching reviews").

End books_get.

(** ** routes/users.js: the review statistics of GET /api/users/:id/stats *)

Module users_get.






End users_get.


(** ** frontend/src/store/slices/reviewsSlice.ts *)

(** The client's copy of the reviews. Identifiers are the strings of the
    JSON payloads; [Rest] stands for the fields of a review that no reducer
    reads or writes. *)
Module reviewsSlice.

Record Votes := mkVotes { count : Z; users : list string }.

Record Review (Rest : Type) := mkReview {
  _id : string;
  helpful : Votes;
  likes : Votes;
  rest : Rest
}.
Arguments mkReview {Rest} _ _ _ _.
Arguments _id {Rest} _.
Arguments helpful {Rest} _.
Arguments likes {Rest} _.
Arguments rest {Rest} _.

Record ReviewFilters := mkReviewFilters {
  bookId : option string;
  userId : option string;
  rating : option Q;
  sortBy : option string;
  sortOrder : option string
}.

Record State (Rest : Type) := mkState {
  reviews : list (Review Rest);
  currentReview : option (Review Rest);
  filters : ReviewFilters;
  pagination : option Pagination;
  isLoading : bool;
  error : option string
}.
Arguments mkState {Rest} _ _ _ _ _ _.
Arguments reviews {Rest} _.
Arguments currentReview {Rest} _.
Arguments filters {Rest} _.
Arguments pagination {Rest} _.
Arguments isLoading {Rest} _.
Arguments error {Rest} _.

Definition no_filters : ReviewFilters := mkReviewFilters None None None None None.

Definition initialState {Rest} : State Rest :=
  mkState [] None no_filters None false None.

(** The actions the slice has a case for; any other action ([Other]), among
    them the pending and rejected actions of [likeReview] and [markHelpful],
    leaves the state as it is. *)
Inductive Action (Rest : Type) :=
| clearError
| setFilters (payload : ReviewFilters)
| clearFilters
| clearCurrentReview
| addReview (payload : Review Rest)
| updateReviewInList (payload : Review Rest)
| removeReview (payload : string)
| fetchReviews_pending
| fetchReviews_fulfilled (reviews : list (Review Rest)) (pagination : Pagination)
| fetchReviews_rejected (payload : string)
| fetchReview_pending
| fetchReview_fulfilled (payload : Review Rest)
| fetchReview_rejected (payload : string)
| createReview_pending
| createReview_fulfilled (payload : Review Rest)
| createReview_rejected (payload : string)
| updateReview_pending
| updateReview_fulfilled (payload : Review Rest)
| updateReview_rejected (payload : string)
| deleteReview_pending
| deleteReview_fulfilled (payload : string)
| deleteReview_rejected (payload : string)
| likeReview_fulfilled (id : string) (likeCount : Z) (isLiked : bool)
| markHelpful_fulfilled (id : string) (helpfulCount : Z) (isHelpful : bool)
| Other.
Arguments clearError {Rest}.
Arguments setFilters {Rest} _.
Arguments clearFilters {Rest}.
Arguments clearCurrentReview {Rest}.
Arguments addReview {Rest} _.
Arguments updateReviewInList {Rest} _.
Arguments removeReview {Rest} _.
Arguments fetchReviews_pending {Rest}.
Arguments fetchReviews_fulfilled {Rest} _ _.
Arguments fetchReviews_rejected {Rest} _.
Arguments fetchReview_pending {Rest}.
Arguments fetchReview_fulfilled {Rest} _.
Arguments fetchReview_rejected {Rest} _.
Arguments createReview_pending {Rest}.
Arguments createReview_fulfilled {Rest} _.
Arguments createReview_rejected {Rest} _.
Arguments updateReview_pending {Rest}.
Arguments updateReview_fulfilled {Rest} _.
Arguments updateReview_rejected {Rest} _.
Arguments deleteReview_pending {Rest}.
Arguments deleteReview_fulfilled {Rest} _.
Arguments deleteReview_rejected {Rest} _.
Arguments likeReview_fulfilled {Rest} _ _ _.
Arguments markHelpful_fulfilled {Rest} _ _ _.
Arguments Other {Rest}.

Section Reducers.
Context {Rest : Type}.

(** [findIndex] then [state.reviews[index] = payload]: the first review
    with the payload's id is replaced. *)
Fixpoint replace_first (payload : Review Rest) (l : list (Review Rest))
    : list (Review Rest) :=
  match l with
  | [] => []
  | r :: l' =>
      if String.eqb (_id r) (_id payload) then payload :: l'
      else r :: replace_first payload l'
  end.

(** [find] then a mutation of what it returned: the first review with
    that id is changed. *)
Fixpoint change_first (id : string) (f : Review Rest -> Review Rest)
    (l : list (Review Rest)) : list (Review Rest) :=
  match l with
  | [] => []
  | r :: l' =>
      if String.eqb (_id r) id then f r :: l' else r :: change_first id f l'
  end.

(** [filter(review => review._id !== id)] *)
Definition without (id : string) (l : list (Review Rest)) : list (Review Rest) :=
  List.filter (fun r => negb (String.eqb (_id r) id)) l.

Definition current_if (id : string) (f : Review Rest -> option (Review Rest))
    (c : option (Review Rest)) : option (Review Rest) :=
  match c with
  | Some r => if String.eqb (_id r) id then f r else Some r
  | None => None
  end.

(** The vote ledger after a toggle answered: the server's count, and the
    placeholder ['current-user'] pushed or filtered out. *)
Definition voted (n : Z) (on : bool) (v : Votes) : Votes :=
  mkVotes n
    (if on then users v ++ ["current-user"%string]
     else List.filter (fun u => negb (String.eqb u "current-user")) (users v)).

Definition set_likes (n : Z) (on : bool) (r : Review Rest) : Review Rest :=
  mkReview (_id r) (helpful r) (voted n on (likes r)) (rest r).

Definition set_helpful (n : Z) (on : bool) (r : Review Rest) : Review Rest :=
  mkReview (_id r) (voted n on (helpful r)) (likes r) (rest r).

Definition loading (st : State Rest) : State Rest :=
  mkState (reviews st) (currentReview st) (filters st) (pagination st) true None.

Definition failed (msg : string) (st : State Rest) : State Rest :=
  mkState (reviews st) (currentReview st) (filters st) (pagination st)
          false (Some msg).

Definition reducer (state : State Rest) (action : Action Rest) : State Rest :=
  match action with
  | clearError =>
      mkState (reviews state) (currentReview state) (filters state)
              (pagination state) (isLoading state) None
  | setFilters payload =>
      mkState (reviews state) (currentReview state) payload
              (pagination state) (isLoading state) (error state)
  | clearFilters =>
      mkState (reviews state) (currentReview state) no_filters
              (pagination state) (isLoading state) (error state)
  | clearCurrentReview =>
      mkState (reviews state) None (filters state)
              (pagination state) (isLoading state) (error state)
  | addReview payload =>
      mkState (payload :: reviews state) (currentReview state) (filters state)
              (pagination state) (isLoading state) (error state)
  | updateReviewInList payload =>
      mkState (replace_first payload (reviews state))
              (current_if (_id payload) (fun _ => Some payload) (currentReview state))
              (filters state) (pagination state) (isLoading state) (error state)
  | removeReview payload =>
      mkState (without payload (reviews state))
              (current_if payload (fun _ => None) (currentReview state))
              (filters state) (pagination state) (isLoading state) (error state)
  | fetchReviews_pending | fetchReview_pending | createReview_pending
  | updateReview_pending | deleteReview_pending => loading state
  | fetchReviews_rejected msg | fetchReview_rejected msg
  | createReview_rejected msg | updateReview_rejected msg
  | deleteReview_rejected msg => failed msg state
  | fetchReviews_fulfilled rs pg =>
      mkState rs (currentReview state) (filters state) (Some pg) false None
  | fetchReview_fulfilled payload =>
      mkState (reviews state) (Some payload) (filters state)
              (pagination state) false None
  | createReview_fulfilled payload =>
      mkState (payload :: reviews state) (currentReview state) (filters state)
              (pagination state) false None
  | updateReview_fulfilled payload =>
      mkState (replace_first payload (reviews state))
              (current_if (_id payload) (fun _ => Some payload) (currentReview state))
              (filters state) (pagination state) false None
  | deleteReview_fulfilled payload =>
      mkState (without payload (reviews state))
              (current_if payload (fun _ => None) (currentReview state))
              (filters state) (pagination state) false None
  | likeReview_fulfilled id likeCount isLiked =>
      mkState (change_first id (set_likes likeCount isLiked) (reviews state))
              (current_if id (fun r => Some (set_likes likeCount isLiked r))
                          (currentReview state))
              (filters state) (pagination state) (isLoading state) (error state)
  | markHelpful_fulfilled id helpfulCount isHelpful =>
      mkState (change_first id (set_helpful helpfulCount isHelpful) (reviews state))
              (current_if id (fun r => Some (set_helpful helpfulCount isHelpful r))
                          (currentReview state))
              (filters state) (pagination state) (isLoading state) (error state)
  | Other => state
  end.

(** A sequence of dispatched actions. *)
Definition dispatch_all (state : State Rest) (actions : list (Action Rest))
    : State Rest :=
  fold_left reducer actions state.

End Reducers.
End reviewsSlice.


(** * Properties *)

(** ** Vocabulary of the statements *)

(** The voter set of a [{ count, users }] sub-document. *)
Definition voters (v : Votes) : gset ObjectId := list_to_set (users v).

(** The array holds each voter once and the counter is the set's size. *)
Definition ledger_ok (v : Votes) : Prop :=
  NoDup (users v) /\ count v = Z.of_nat (size (voters v)).

(** What [markHelpful] and [toggleLike] do to their sub-document. *)
Definition toggled (v : Votes) (userId : ObjectId) : Votes :=
  if indexOf (users v) userId =? -1
  then mkVotes (count v + 1) (push (users v) userId)
  else mkVotes (count v - 1) (splice (users v) (Z.to_nat (indexOf (users v) userId)) 1).

Definition review_by_id (id : ObjectId) (s : Store) : option ReviewDoc.t :=
  List.find (fun r => N.eqb (ReviewDoc._id r) id) (Reviews s).

Definition book_by_id (id : ObjectId) (s : Store) : option BookDoc.t :=
  List.find (fun b => N.eqb (BookDoc._id b) id) (Books s).


(** Events other than the resolution of a review's [save]. *)
Definition not_ReviewSaved (e : Event) : bool :=
  match e with ReviewSaved _ => false | _ => true end.

Definition is_BookSaveFailed (e : Event) : bool :=
  match e with BookSaveFailed _ => true | _ => false end.

Definition is_AggregatorInvoked (bookId : ObjectId) (e : Event) : bool :=
  match e with AggregatorInvoked b => N.eqb b bookId | _ => false end.

(** The events logged after the first [ReviewSaved]. *)
Fixpoint after_save (evs : list Event) : list Event :=
  match evs with
  | [] => []
  | ReviewSaved _ :: rest => rest
  | _ :: rest => after_save rest
  end.

(** The aggregator's [save] rejected once the review had been saved. *)
Definition aggregation_failed_after_save (evs : list Event) : bool :=
  existsb is_BookSaveFailed (after_save evs).

(** The aggregator ran on [bookId] once the review had been saved. *)
Definition aggregated_after_save (bookId : ObjectId) (evs : list Event) : bool :=
  existsb (is_AggregatorInvoked bookId) (after_save evs).

Definition is_review_mutation (c : Call) : bool :=
  match c with
  | PostReview _ _ _ | PutReview _ _ _ | DeleteReview _ _ => true
  | _ => false
  end.

(** Some review row, active or not, carries the pair (user, book). *)
Definition has_review (userId bookId : ObjectId) (s : Store) : Prop :=
  exists r, In r (Reviews s)
            /\ ReviewDoc.user r = userId /\ ReviewDoc.book r = bookId.

(** The number of review rows for the pair. *)
Definition rows_for (userId bookId : ObjectId) (s : Store) : nat :=
  length (List.filter
            (fun r => N.eqb (ReviewDoc.user r) userId && N.eqb (ReviewDoc.book r) bookId)
            (Reviews s)).

(** Every stored rating passed the schema's [min: 1, max: 5]. *)
Definition ratings_valid (s : Store) : bool :=
  forallb (fun r => Review.valid_rating (ReviewDoc.rating r)) (Reviews s).

(** The counter and the voter set moved together, by one user. *)
Definition toggled_together (before after : Votes) (userId : ObjectId) : Prop :=
  (userId ∉ voters before ->
   voters after = {[userId]} ∪ voters before /\ count after = count before + 1)
  /\ (userId ∈ voters before ->
      voters after = voters before ∖ {[userId]} /\ count after = count before - 1).

(** What one request can do to the Review collection at most: nothing, one
    validated insertion that clashes with no index, or one validated
    replacement of a stored review by a document with the same identity,
    author and book whose vote ledgers are the old ones or a toggle of
    them. *)
Inductive footprint (s : Store) : list ReviewDoc.t -> Prop :=
| fp_same : footprint s (Reviews s)
| fp_insert (doc : ReviewDoc.t) :
    Review.validate_all doc = true ->
    Review.index_clash doc (Reviews s) = false ->
    ReviewDoc.helpful doc = mkVotes 0 [] ->
    ReviewDoc.likes doc = mkVotes 0 [] ->
    footprint s (Reviews s ++ [doc])
| fp_update (id : ObjectId) (o doc : ReviewDoc.t) :
    review_by_id id s = Some o ->
    ReviewDoc._id doc = id ->
    ReviewDoc.user doc = ReviewDoc.user o ->
    ReviewDoc.book doc = ReviewDoc.book o ->
    Review.validate_modified o doc = true ->
    (ReviewDoc.helpful doc = ReviewDoc.helpful o
     \/ exists u, ReviewDoc.helpful doc = toggled (ReviewDoc.helpful o) u) ->
    (ReviewDoc.likes doc = ReviewDoc.likes o
     \/ exists u, ReviewDoc.likes doc = toggled (ReviewDoc.likes o) u) ->
    footprint s (Review.update_first id doc (Reviews s)).

(** What a read-only route answers on a store. *)
Definition answer {A} (m : M A) (s : Store) : option A :=
  match m (mkWorld s [] [] 0%N) with
  | (Ok a, _) => Some a
  | (Throw _, _) => None
  end.

(** The filter, the sort and the page of GET /api/reviews for a query. *)
Definition filter_of (q : ListQuery) : ReviewFilter :=
  mkReviewFilter (q_bookId q) (q_userId q) (q_rating q).

Definition sort_of (q : ListQuery) : Sort :=
  mkSort (or_else (q_sortBy q) "createdAt"%string)
         (if String.eqb (or_else (q_sortOrder q) "desc"%string) "desc" then -1 else 1).

Definition at_page (q : ListQuery) (p : Z) : ListQuery :=
  mkListQuery (Some p) (q_limit q) (q_bookId q) (q_userId q) (q_rating q)
              (q_sortBy q) (q_sortOrder q).

(** The reviews GET /api/reviews shows for a query. *)
Definition listed (q : ListQuery) (s : Store) : list ReviewDoc.t :=
  match answer (reviews_get.get q) s with
  | Some l => l_reviews l
  | None => []
  end.


(** The four ways a route rewrites a stored review [o] at time [t]: the
    assignments of PUT, the soft delete, and the two toggles. *)
Inductive revised (t : Date) (o : ReviewDoc.t) : ReviewDoc.t -> Prop :=
| revised_put (body : UpdateBody) :
    Review.validate_modified o (reviews.assign_allowed body o) = true ->
    revised t o (ReviewDoc.set_updatedAt (reviews.assign_allowed body o) t)
| revised_delete :
    revised t o (ReviewDoc.set_updatedAt (ReviewDoc.set_isActive o false) t)
| revised_helpful (u : ObjectId) :
    revised t o (ReviewDoc.set_updatedAt
                   (ReviewDoc.set_helpful o (toggled (ReviewDoc.helpful o) u)) t)
| revised_like (u : ObjectId) :
    revised t o (ReviewDoc.set_updatedAt
                   (ReviewDoc.set_likes o (toggled (ReviewDoc.likes o) u)) t).

(** What one request served at time [t] does to the Review collection:
    nothing, the insertion of one new review, or the rewriting of one
    active review. *)
Inductive change (s : Store) (t : Date) : list ReviewDoc.t -> Prop :=
| change_none : change s t (Reviews s)
| change_insert (oid userId : ObjectId) (body : CreateBody) :
    Review.validate_all (reviews.new_Review oid userId body t) = true ->
    Review.index_clash (reviews.new_Review oid userId body t) (Reviews s) = false ->
    change s t (Reviews s ++ [reviews.new_Review oid userId body t])
| change_update (id : ObjectId) (o doc : ReviewDoc.t) :
    review_by_id id s = Some o ->
    ReviewDoc.isActive o = true ->
    revised t o doc ->
    change s t (Review.update_first id doc (Reviews s)).

(** No two reviews share an id, and no two share a (user, book) pair. *)
Definition unique_reviews (l : list ReviewDoc.t) : Prop :=
  NoDup (map ReviewDoc._id l)
  /\ NoDup (map (fun r => (ReviewDoc.user r, ReviewDoc.book r)) l).

(** Every review has both ledgers in order. *)
Definition ledgers_ok (l : list ReviewDoc.t) : Prop :=
  forall r, In r l ->
    ledger_ok (ReviewDoc.helpful r) /\ ledger_ok (ReviewDoc.likes r).


(** [o'] is what became of the review [o]: the same row, by the same
    author on the same book, created at the same time, with the fields no
    route assigns as they were, and not brought back if it was deleted. *)
Definition same_row (o o' : ReviewDoc.t) : Prop :=
  ReviewDoc._id o' = ReviewDoc._id o
  /\ ReviewDoc.user o' = ReviewDoc.user o
  /\ ReviewDoc.book o' = ReviewDoc.book o
  /\ ReviewDoc.createdAt o' = ReviewDoc.createdAt o
  /\ ReviewDoc.isVerified o' = ReviewDoc.isVerified o
  /\ ReviewDoc.tags o' = ReviewDoc.tags o
  /\ ReviewDoc.purchaseSource o' = ReviewDoc.purchaseSource o
  /\ (ReviewDoc.isActive o' = true -> ReviewDoc.isActive o = true).

(** The query of GET /api/reviews that asks for the reviews of one book, or
    of one user, with the page, the limit and the sort of [q]. *)
Definition for_book (id : ObjectId) (q : ListQuery) : ListQuery :=
  mkListQuery (q_page q) (q_limit q) (Some id) None None (q_sortBy q) (q_sortOrder q).



(** A body of PUT /api/books/:id that sends no title and no author: any of
    the three statistics and [isActive]. *)
Definition sends (avg : option Q) (ratings reviews : option Z) (act : option bool)
    : BookBody :=
  mkBookBody None None avg ratings reviews act.


(** In the client's store, [r'] is [r] after the answer of a toggle was
    applied to the ledger [ledger] ([other] being the other ledger): the
    count is the server's [n], the placeholder user is listed exactly if the
    server said so, the other users are listed as before, and an answer
    that says so adds one entry whether or not the placeholder was there. *)
Definition shows_vote {Rest}
    (ledger other : reviewsSlice.Review Rest -> reviewsSlice.Votes)
    (n : Z) (on : bool) (r r' : reviewsSlice.Review Rest) : Prop :=
  reviewsSlice._id r' = reviewsSlice._id r
  /\ reviewsSlice.rest r' = reviewsSlice.rest r
  /\ other r' = other r
  /\ reviewsSlice.count (ledger r') = n
  /\ (In "current-user"%string (reviewsSlice.users (ledger r')) <-> on = true)
  /\ (forall u, u <> "current-user"%string ->
        (In u (reviewsSlice.users (ledger r'))
         <-> In u (reviewsSlice.users (ledger r))))
  /\ (on = true ->
      length (reviewsSlice.users (ledger r'))
      = S (length (reviewsSlice.users (ledger r)))).

(** The client's state [st'] is [st] with that answer applied to the
    review [id], in the list and in [currentReview], and nothing else
    changed. *)
Definition vote_shown {Rest}
    (ledger other : reviewsSlice.Review Rest -> reviewsSlice.Votes)
    (id : string) (n : Z) (on : bool) (st st' : reviewsSlice.State Rest) : Prop :=
  Forall2 (fun r r' => if String.eqb (reviewsSlice._id r) id
                       then shows_vote ledger other n on r r' else r' = r)
          (reviewsSlice.reviews st) (reviewsSlice.reviews st')
  /\ match reviewsSlice.currentReview st, reviewsSlice.currentReview st' with
     | Some c, Some c' =>
         if String.eqb (reviewsSlice._id c) id
         then shows_vote ledger other n on c c' else c' = c
     | None, None => True
     | _, _ => False
     end
  /\ reviewsSlice.filters st' = reviewsSlice.filters st
  /\ reviewsSlice.pagination st' = reviewsSlice.pagination st
  /\ reviewsSlice.isLoading st' = reviewsSlice.isLoading st
  /\ reviewsSlice.error st' = reviewsSlice.error st.

(** Whatever the world, the computation [m] takes the store to one that
    is related to it by [R]. *)
Definition keeps (R : Store -> Store -> Prop) {A} (m : M A) : Prop :=
  forall w, R (db w) (db (m w).2).

(** What a review route may do to a book: nothing to its identity, title,
    author, [totalReviews] and [isActive]; an [averageRating] that changed
    is within the schema's bounds, a [totalRatings] that changed is not
    negative. *)
Definition book_kept (b b' : BookDoc.t) : Prop :=
  BookDoc._id b' = BookDoc._id b
  /\ BookDoc.title b' = BookDoc.title b
  /\ BookDoc.author b' = BookDoc.author b
  /\ BookDoc.totalReviews b' = BookDoc.totalReviews b
  /\ BookDoc.isActive b' = BookDoc.isActive b
  /\ (BookDoc.averageRating b' = BookDoc.averageRating b
      \/ (0 <= BookDoc.averageRating b' <= 5)%Q)
  /\ (BookDoc.totalRatings b' = BookDoc.totalRatings b
      \/ 0 <= BookDoc.totalRatings b').

(** What a review route may do to a user: nothing but to [reviewsCount]. *)
Definition user_kept (u u' : UserDoc.t) : Prop :=
  UserDoc._id u' = UserDoc._id u
  /\ UserDoc.role u' = UserDoc.role u
  /\ UserDoc.isActive u' = UserDoc.isActive u.

(** The books and the users of [s'] are those of [s], one for one. *)
Definition catalogue_kept (s s' : Store) : Prop :=
  Forall2 book_kept (Books s) (Books s') /\ Forall2 user_kept (Users s) (Users s').

(** Every stored [averageRating] is within the schema's bounds. *)
Definition averages_in_range (s : Store) : Prop :=
  forall b, In b (Books s) -> (0 <= BookDoc.averageRating b <= 5)%Q.

Definition range_kept (s s' : Store) : Prop :=
  averages_in_range s -> averages_in_range s'.

(** The requests to the review routes. *)
Definition is_review_call (c : Call) : bool :=
  match c with
  | PostBook _ _ | PutBook _ _ | DeleteBook _ => false
  | _ => true
  end.

(** The user whose [reviewsCount] a request moves, and by how much, given
    the status it was answered with: the requester of a create answered
    201, the author of the review of a delete answered 200, nobody
    otherwise. *)
Definition counted (c : Call) (st : Z) (s : Store) : option (ObjectId * Z) :=
  match c with
  | PostReview u _ _ => if st =? 201 then Some (UserDoc._id u, 1) else None
  | DeleteReview _ id =>
      if st =? 200
      then option_map (fun o => (ReviewDoc.user o, -1)) (review_by_id id s)
      else None
  | _ => None
  end.




(** ** A small library, for the worked cases *)

Definition alice : UserDoc.t := UserDoc.mk 1 "user" true 0.
Definition carol : UserDoc.t := UserDoc.mk 2 "user" true 0.
Definition root : UserDoc.t := UserDoc.mk 3 "admin" true 0.

Definition gatsby : BookDoc.t :=
  BookDoc.mk 10 "The Great Gatsby" "F. Scott Fitzgerald" 0 0 0 true.

Definition library : Store := mkStore [] [gatsby] [alice; carol; root].

Definition opinion (r : Q) : CreateBody :=
  mkCreateBody 10 r "Worth reading" "A story that stays with you."
               None None None None None.

Definition nothing_sent : UpdateBody :=
  mkUpdateBody None None None None None None None None None None None None None.

Definition rate (r : Q) : UpdateBody :=
  mkUpdateBody (Some r) None None None None None None None None
               None None None None.

Definition verify_only : UpdateBody :=
  mkUpdateBody None None None None None None None None None
               (Some true) None None None.

Definition alice_reviews : Request := request (PostReview alice 100 (opinion 4)) 1.
Definition carol_reviews : Request := request (PostReview carol 101 (opinion 2)) 2.
Definition alice_rates_5 : Request := request (PutReview alice 100 (rate 5)) 3.
Definition alice_deletes : Request := request (DeleteReview alice 100) 4.
Definition carol_votes : Request := request (PostHelpful carol 100) 5.

(** Alice's review, withdrawn by herself. *)
Definition withdrawn : Store := run [alice_reviews; alice_deletes] library.

(** Alice's review, and the book taken off the catalogue afterwards. *)
Definition delisted : Store :=
  run [alice_reviews; request (DeleteBook 10) 2] library.

(** Alice's review with one helpful vote, by Carol. *)
Definition voted : Store := run [alice_reviews; carol_votes] library.

Definition voted_review : ReviewDoc.t :=
  Eval vm_compute in
    match review_by_id 100 voted with
    | Some r => r
    | None => reviews.new_Review 0 0 (opinion 1) 0
    end.

Definition withdrawn_book : BookDoc.t :=
  Eval vm_compute in
    match book_by_id 10 withdrawn with
    | Some b => b
    | None => gatsby
    end.

Definition voted_book : BookDoc.t :=
  Eval vm_compute in
    match book_by_id 10 voted with
    | Some b => b
    | None => gatsby
    end.

(** A client that shows two reviews, the first of them opened. *)
Definition seen (id : string) (n : Z) (us : list string) : reviewsSlice.Review unit :=
  reviewsSlice.mkReview id (reviewsSlice.mkVotes 0 []) (reviewsSlice.mkVotes n us) tt.

Definition shown : reviewsSlice.State unit :=
  reviewsSlice.mkState [seen "r1" 1 ["u2"%string]; seen "r2" 0 []]
    (Some (seen "r1" 1 ["u2"%string])) reviewsSlice.no_filters None false None.



(** ** Arrays of ObjectIds *)

Lemma indexOf_lower (l : list ObjectId) (x : ObjectId) : -1 <= indexOf l x.
Proof.
  induction l as [|y l IH]; simpl; [lia|].
  destruct (N.eqb y x); [lia|].
  destruct (Z.eqb_spec (indexOf l x) (-1)); lia.
Qed.

Lemma indexOf_absent (l : list ObjectId) (x : ObjectId) :
  indexOf l x = -1 <-> x ∉ l.
Proof.
  induction l as [|y l IH]; simpl.
  - split; [intros _; apply not_elem_of_nil | done].
  - rewrite not_elem_of_cons. pose proof (indexOf_lower l x).
    destruct (N.eqb_spec y x) as [->|Hne].
    + split; [lia | intros [? _]; done].
    + destruct (Z.eqb_spec (indexOf l x) (-1)) as [E|E].
      * split; [intros _; split; [congruence | by apply IH] | done].
      * split; [lia | intros [_ Hx]; apply IH in Hx; lia].
Qed.

(** A hit of [indexOf] splits the array at the first occurrence. *)
Lemma indexOf_found (l : list ObjectId) (x : ObjectId) :
  indexOf l x <> -1 ->
  exists l1 l2, l = l1 ++ x :: l2 /\ (x ∉ l1)
                /\ Z.to_nat (indexOf l x) = length l1.
Proof.
  induction l as [|y l IH]; simpl; [lia|].
  destruct (N.eqb_spec y x) as [->|Hne].
  - intros _. exists [], l. repeat split; [apply not_elem_of_nil].
  - pose proof (indexOf_lower l x).
    destruct (Z.eqb_spec (indexOf l x) (-1)) as [E|E]; [lia|]. intros _.
    destruct (IH E) as (l1 & l2 & -> & Hx & Hlen).
    exists (y :: l1), l2. repeat split.
    + rewrite not_elem_of_cons; split; [congruence | done].
    + simpl. lia.
Qed.

Lemma splice_one (l1 l2 : list ObjectId) (x : ObjectId) :
  splice (l1 ++ x :: l2) (length l1) 1 = l1 ++ l2.
Proof.
  unfold splice. rewrite take_app_length.
  replace (length l1 + 1)%nat with (length l1 + length [x])%nat by (simpl; lia).
  change (l1 ++ x :: l2) with (l1 ++ [x] ++ l2).
  rewrite drop_app_add, drop_app_length. done.
Qed.

Lemma includes_elem_of (l : list ObjectId) (x : ObjectId) :
  includes l x = true <-> x ∈ l.
Proof.
  unfold includes. rewrite existsb_exists. split.
  - intros (y & Hy & E). apply N.eqb_eq in E as ->. by apply list_elem_of_In.
  - intros Hx. exists x. split; [by apply list_elem_of_In | apply N.eqb_refl].
Qed.

(** ** The interaction ledger *)

(** A toggle of a user who is not in the set adds them and counts one up,
    a toggle of a user who is in it removes them and counts one down. *)
Lemma toggled_voters (v : Votes) (u : ObjectId) :
  NoDup (users v) ->
  NoDup (users (toggled v u))
  /\ (u ∉ voters v ->
      voters (toggled v u) = {[u]} ∪ voters v /\ count (toggled v u) = count v + 1)
  /\ (u ∈ voters v ->
      voters (toggled v u) = voters v ∖ {[u]} /\ count (toggled v u) = count v - 1).
Proof.
  intros Hnd. unfold toggled, voters.
  destruct (Z.eqb_spec (indexOf (users v) u) (-1)) as [E|E]; simpl.
  - apply indexOf_absent in E. unfold push. split; [|split].
    + apply NoDup_app. repeat split; [done | | apply NoDup_singleton].
      intros y Hy Hy'. apply list_elem_of_singleton in Hy' as ->. done.
    + intros _. split; [|done]. rewrite list_to_set_app_L. set_solver.
    + intros Hu. apply elem_of_list_to_set in Hu. done.
  - destruct (indexOf_found _ _ E) as (l1 & l2 & Hl & Hx & Hlen).
    rewrite Hlen, Hl, splice_one. rewrite Hl in Hnd.
    apply NoDup_app in Hnd as (Hnd1 & Hdisj & Hnd2).
    apply NoDup_cons in Hnd2 as [Hx2 Hnd2].
    split; [|split].
    + apply NoDup_app. repeat split; [done | | done].
      intros y Hy Hy'. apply (Hdisj y Hy). by right.
    + intros Hu. exfalso. apply Hu. rewrite elem_of_list_to_set. set_solver.
    + intros _. split; [|done]. apply set_eq. intros y. set_solver.
Qed.

Lemma toggled_ledger_ok (v : Votes) (u : ObjectId) :
  ledger_ok v -> ledger_ok (toggled v u).
Proof.
  intros [Hnd Hc]. destruct (toggled_voters v u Hnd) as (Hnd' & Hadd & Hdel).
  split; [done|]. destruct (decide (u ∈ voters v)) as [Hin|Hout].
  - destruct (Hdel Hin) as [-> ->]. rewrite Hc.
    rewrite size_difference by set_solver. rewrite size_singleton.
    assert (size (voters v) <> 0%nat).
    { apply size_non_empty_iff. set_solver. }
    lia.
  - destruct (Hadd Hout) as [-> ->]. rewrite Hc.
    rewrite size_union by set_solver. rewrite size_singleton. lia.
Qed.

(** ** Running the monad *)

Ltac monad :=
  unfold write, next_fault, now, emit, put_db, get_db, try_catch, throw,
    bind, ret in *;
  cbn [db log faults clock fst snd] in *.

Lemma write_eq (f : Store -> Store) (ok bad : Event) (w : World) :
  write f ok bad w =
  if hd false (faults w)
  then (Throw WriteError,
        mkWorld (db w) (log w ++ [bad]) (tl (faults w)) (clock w))
  else (Ok tt, mkWorld (f (db w)) (log w ++ [ok]) (tl (faults w)) (clock w)).
Proof. monad. destruct w as [s l [|[] fs] c]; reflexivity. Qed.

Lemma after_save_quiet (pre rest : list Event) :
  forallb not_ReviewSaved pre = true ->
  after_save (pre ++ rest) = after_save rest.
Proof.
  induction pre as [|e pre IH]; simpl; [done|].
  intros H. apply andb_prop in H as [He Hpre].
  destruct e; try done; by apply IH.
Qed.

(** The aggregator touches neither reviews nor users; it either resolves
    or rejects, and the log says which. *)
Lemma updateAverageRating_outcome (b : BookDoc.t) (w : World) :
  exists res w', Book.updateAverageRating b w = (res, w')
    /\ Reviews (db w') = Reviews (db w) /\ Users (db w') = Users (db w)
    /\ clock w' = clock w
    /\ (faults w = [] -> faults w' = [])
    /\ (faults w = [] ->
        Book.validate (Some b)
          (rated b (aggregate (Reviews (db w)) (BookDoc._id b))) = true ->
        res = Ok tt)
    /\ match res with
       | Ok _ => log w' = log w ++ [AggregatorInvoked (BookDoc._id b);
                                    BookSaved (BookDoc._id b)]
       | Throw _ => log w' = log w ++ [AggregatorInvoked (BookDoc._id b);
                                       BookSaveFailed (BookDoc._id b)]
                    /\ db w' = db w
       end.
Proof.
  unfold Book.updateAverageRating. unfold bind, emit, get_db.
  cbn [db log faults clock].
  set (doc := rated b _).
  assert (BookDoc._id doc = BookDoc._id b) as Hid.
  { unfold doc, rated. by destruct (aggregate _ _). }
  clearbody doc. unfold Book.save.
  destruct (Book.validate (Some b) doc); cbn [negb].
  - destruct (Book.same_fields b doc).
    + monad. rewrite Hid. eexists _, _. split; [reflexivity|]. cbn.
      rewrite <- app_assoc. done.
    + rewrite write_eq. cbn [db log faults clock]. rewrite Hid.
      destruct (hd false (faults w)) eqn:Hf; eexists _, _;
        (split; [reflexivity|]); cbn; rewrite <- app_assoc;
        repeat split; try done; try (intros ->; done).
      intros E. rewrite E in Hf. done.
  - monad. rewrite Hid. eexists _, _. split; [reflexivity|]. cbn.
    rewrite <- app_assoc. done.
Qed.

(** The pre-save hook never throws, whatever becomes of its aggregation;
    it leaves reviews and users alone and logs no review save. *)
Lemma pre_save_outcome (orig : option ReviewDoc.t) (doc : ReviewDoc.t) (w : World) :
  exists w' pre, Review.pre_save orig doc w = (Ok tt, w')
    /\ Reviews (db w') = Reviews (db w) /\ Users (db w') = Users (db w)
    /\ clock w' = clock w
    /\ (faults w = [] -> faults w' = [])
    /\ log w' = log w ++ pre
    /\ forallb not_ReviewSaved pre = true
    /\ (match orig with
        | Some o => Review.isModified_rating o doc = false
        | None => False
        end -> pre = [] /\ w' = w).
Proof.
  unfold Review.pre_save.
  destruct (match orig with None => true | Some o => Review.isModified_rating o doc end)
    eqn:Hfire.
  - unfold try_catch, bind at 1, Book.findById, bind at 1, get_db, ret at 1.
    cbn [db]. destruct (List.find _ (Books (db w))) as [b|].
    + destruct (updateAverageRating_outcome b w)
        as (res & w' & -> & HR & HU & Hc & Hf & _ & Hlog).
      destruct res as [[]|e].
      * exists w', [AggregatorInvoked (BookDoc._id b); BookSaved (BookDoc._id b)].
        repeat split; try done; destruct orig; congruence || done.
      * destruct Hlog as [Hlog Hdb]. monad.
        eexists _, [AggregatorInvoked (BookDoc._id b); BookSaveFailed (BookDoc._id b);
                    ConsoleError _].
        split; [reflexivity|]. cbn. rewrite Hlog, <- app_assoc.
        repeat split; try done; destruct orig; congruence || done.
    + monad. exists w, []. rewrite app_nil_r. repeat split; done.
  - monad. exists w, []. rewrite app_nil_r. repeat split; done.
Qed.

Ltac save_case :=
  repeat split; intros; subst; cbn [db log faults clock] in *;
  repeat match goal with
    | Hs : ?c -> _ = [] /\ _ = _, Hm : ?c |- _ =>
        destruct (Hs Hm) as [? ?]; clear Hs; subst
    | Hf : faults ?w = [] -> faults ?w1 = [], E : faults ?w = [] |- _ =>
        pose proof (Hf E); clear Hf
    end;
  try match goal with
    | E : faults ?w = [], F : hd false (faults ?w) = true |- _ =>
        rewrite E in F; discriminate
    | E : faults ?w = [] |- tail (faults ?w) = [] => by rewrite E
    | E : None = None -> true = false |- _ => discriminate (E eq_refl)
    end;
  try congruence; try done; eauto.

(** What [save] does for a review: the outcome, the log and the store. *)
Lemma save_outcome (orig : option ReviewDoc.t) (doc : ReviewDoc.t) (w : World) :
  exists res w' pre, Review.save orig doc w = (res, w')
    /\ Users (db w') = Users (db w) /\ clock w' = clock w
    /\ (faults w = [] -> faults w' = [])
    /\ forallb not_ReviewSaved pre = true
    /\ (match orig with
        | Some o => Review.isModified_rating o doc = false
        | None => False
        end -> pre = [] /\ Books (db w') = Books (db w))
    /\ (faults w = [] -> Review.validate orig doc = true ->
        (orig = None -> Review.index_clash doc (Reviews (db w)) = false) ->
        exists d, res = Ok d)
    /\ match res with
       | Ok d =>
           log w' = log w ++ pre ++ [ReviewSaved (ReviewDoc._id doc)]
           /\ Review.validate orig doc = true
           /\ match orig with
              | None => d = doc /\ Reviews (db w') = Reviews (db w) ++ [doc]
                        /\ Review.index_clash doc (Reviews (db w)) = false
              | Some o =>
                  (Review.same_fields o doc = true /\ d = doc
                   /\ Reviews (db w') = Reviews (db w))
                  \/ (Review.same_fields o doc = false
                      /\ d = ReviewDoc.set_updatedAt doc (clock w)
                      /\ Reviews (db w')
                         = Review.update_first (ReviewDoc._id doc) d (Reviews (db w)))
              end
       | Throw _ =>
           log w' = log w ++ pre ++ [ReviewSaveFailed (ReviewDoc._id doc)]
           /\ Reviews (db w') = Reviews (db w)
       end.
Proof.
  unfold Review.save. destruct (Review.validate orig doc) eqn:Hval; cbn [negb].
  2:{ monad. eexists _, _, []. split; [reflexivity|]. cbn.
      repeat split; done. }
  unfold bind at 1.
  destruct (pre_save_outcome orig doc w)
    as (w1 & pre & -> & HR & HU & Hc & Hf & Hlog & Hq & Hsame).
  destruct orig as [o|].
  - destruct (Review.same_fields o doc) eqn:Hsf.
    + monad. eexists _, _, pre. split; [reflexivity|]. cbn.
      rewrite Hlog, <- app_assoc. save_case.
    + unfold bind at 1, now. cbn [clock]. unfold bind at 1. rewrite write_eq.
      cbn [db log faults clock].
      destruct (hd false (faults w1)) eqn:Hfault.
      * eexists _, _, pre. split; [reflexivity|]. cbn.
        rewrite Hlog, <- app_assoc. save_case.
      * monad. eexists _, _, pre. split; [reflexivity|]. cbn.
        rewrite Hlog, <- app_assoc, Hc, HR. save_case.
  - unfold bind at 1, get_db. cbn [db]. rewrite HR.
    destruct (Review.index_clash doc (Reviews (db w))) eqn:Hclash.
    + monad. eexists _, _, pre. split; [reflexivity|]. cbn.
      rewrite Hlog, <- app_assoc. save_case.
    + unfold bind at 1. rewrite write_eq. cbn [db log faults clock].
      destruct (hd false (faults w1)) eqn:Hfault.
      * eexists _, _, pre. split; [reflexivity|]. cbn.
        rewrite Hlog, <- app_assoc. save_case.
      * monad. eexists _, _, pre. split; [reflexivity|]. cbn.
        rewrite Hlog, <- app_assoc, HR. save_case.
Qed.

(** ** Collections *)

Lemma find_review_some (id : ObjectId) (l : list ReviewDoc.t) (r : ReviewDoc.t) :
  List.find (fun r => N.eqb (ReviewDoc._id r) id) l = Some r ->
  ReviewDoc._id r = id /\ In r l.
Proof.
  intros H. apply find_some in H as [Hin E]. apply N.eqb_eq in E. done.
Qed.

Lemma find_update_first (id : ObjectId) (d r : ReviewDoc.t) (l : list ReviewDoc.t) :
  List.find (fun r => N.eqb (ReviewDoc._id r) id) l = Some r ->
  ReviewDoc._id d = id ->
  List.find (fun r => N.eqb (ReviewDoc._id r) id) (Review.update_first id d l)
  = Some d.
Proof.
  intros Hf Hd. induction l as [|y l IH]; simpl in *; [done|].
  destruct (N.eqb (ReviewDoc._id y) id) eqn:E; simpl.
  - by rewrite Hd, N.eqb_refl.
  - rewrite E. by apply IH.
Qed.

Lemma find_update_first_other (id id' : ObjectId) (d : ReviewDoc.t)
    (l : list ReviewDoc.t) :
  ReviewDoc._id d = id -> id' <> id ->
  List.find (fun r => N.eqb (ReviewDoc._id r) id') (Review.update_first id d l)
  = List.find (fun r => N.eqb (ReviewDoc._id r) id') l.
Proof.
  intros Hd Hne. induction l as [|y l IH]; simpl; [done|].
  destruct (N.eqb_spec (ReviewDoc._id y) id) as [E|E]; simpl.
  - rewrite Hd, E. by destruct (N.eqb_spec id id').
  - by rewrite IH.
Qed.

Lemma length_update_first (id : ObjectId) (d : ReviewDoc.t) (l : list ReviewDoc.t) :
  length (Review.update_first id d l) = length l.
Proof.
  induction l as [|y l IH]; simpl; [done|].
  destruct (N.eqb (ReviewDoc._id y) id); simpl; congruence.
Qed.

(** Replacing a review by a document with the same author and book keeps
    every (user, book) pair that had a row. *)
Lemma has_review_update_first (u b id : ObjectId) (d r : ReviewDoc.t)
    (l : list ReviewDoc.t) :
  List.find (fun r => N.eqb (ReviewDoc._id r) id) l = Some r ->
  ReviewDoc.user d = ReviewDoc.user r -> ReviewDoc.book d = ReviewDoc.book r ->
  (exists x, In x l /\ ReviewDoc.user x = u /\ ReviewDoc.book x = b) ->
  exists x, In x (Review.update_first id d l)
            /\ ReviewDoc.user x = u /\ ReviewDoc.book x = b.
Proof.
  intros Hf Hu Hb. induction l as [|y l IH]; simpl in *; [done|].
  destruct (N.eqb (ReviewDoc._id y) id).
  - injection Hf as ->. intros (x & [->|Hx] & E1 & E2).
    + exists d. split; [by left|]. split; congruence.
    + exists x. split; [by right|done].
  - intros (x & [->|Hx] & E1 & E2).
    + exists x. split; [by left|done].
    + destruct (IH Hf) as (z & Hz & ?); [by exists x|].
      exists z. split; [by right|done].
Qed.

Lemma store_eta (s : Store) : mkStore (Reviews s) (Books s) (Users s) = s.
Proof. by destruct s. Qed.

(** ** Saving a toggled review *)

Lemma votes_eqb_refl (v : Votes) : Review.votes_eqb v v = true.
Proof.
  unfold Review.votes_eqb. rewrite Z.eqb_refl, bool_decide_eq_true_2; done.
Qed.

Lemma optQ_eqb_refl (o : option Q) : optQ_eqb o o = true.
Proof. destruct o; simpl; [apply Qeq_bool_refl | done]. Qed.

Lemma validate_modified_votes (r : ReviewDoc.t) (h l : Votes) :
  Review.validate_modified r (ReviewDoc.set_likes (ReviewDoc.set_helpful r h) l) = true.
Proof.
  unfold Review.validate_modified. simpl.
  rewrite Qeq_bool_refl, !String.eqb_refl, optQ_eqb_refl.
  rewrite !bool_decide_eq_true_2 by done. done.
Qed.

Lemma toggled_count (v : Votes) (u : ObjectId) : count (toggled v u) <> count v.
Proof. unfold toggled. destruct (_ =? _); simpl; lia. Qed.

Lemma same_fields_votes (a b : ReviewDoc.t) :
  Review.same_fields a b = true ->
  count (ReviewDoc.helpful a) = count (ReviewDoc.helpful b)
  /\ count (ReviewDoc.likes a) = count (ReviewDoc.likes b)
  /\ ReviewDoc.isActive a = ReviewDoc.isActive b.
Proof.
  unfold Review.same_fields, Review.votes_eqb. rewrite !andb_true_iff.
  intros H. destruct_and!.
  repeat match goal with H : (_ =? _) = true |- _ => apply Z.eqb_eq in H end.
  repeat split; try done. by apply Bool.eqb_prop.
Qed.

(** [save] of a loaded review whose rating was not assigned and which did
    change: one write, no aggregation. *)
Lemma save_plain (o doc : ReviewDoc.t) (w : World) :
  Review.validate_modified o doc = true ->
  Qeq_bool (ReviewDoc.rating o) (ReviewDoc.rating doc) = true ->
  Review.same_fields o doc = false ->
  Review.save (Some o) doc w =
  if hd false (faults w)
  then (Throw WriteError,
        mkWorld (db w) (log w ++ [ReviewSaveFailed (ReviewDoc._id doc)])
                (tl (faults w)) (clock w))
  else (Ok (ReviewDoc.set_updatedAt doc (clock w)),
        mkWorld (Review.store_update (ReviewDoc.set_updatedAt doc (clock w)) (db w))
                (log w ++ [ReviewSaved (ReviewDoc._id doc)])
                (tl (faults w)) (clock w)).
Proof.
  intros Hval Hr Hsf. unfold Review.save, Review.pre_save, Review.validate,
    Review.isModified_rating.
  rewrite Hval, Hr, Hsf. cbn [negb].
  unfold bind at 1, ret at 1. unfold bind at 1, now. cbn [clock].
  unfold bind at 1. rewrite write_eq.
  destruct (hd false (faults w)); reflexivity.
Qed.

Lemma markHelpful_eq (this : ReviewDoc.t) (u : ObjectId) :
  Review.markHelpful this u
  = Review.save (Some this)
      (ReviewDoc.set_helpful this (toggled (ReviewDoc.helpful this) u)).
Proof. unfold Review.markHelpful, toggled. by destruct (_ =? _). Qed.

Lemma toggleLike_eq (this : ReviewDoc.t) (u : ObjectId) :
  Review.toggleLike this u
  = Review.save (Some this)
      (ReviewDoc.set_likes this (toggled (ReviewDoc.likes this) u)).
Proof. unfold Review.toggleLike, toggled. by destruct (_ =? _). Qed.

Lemma markHelpful_run (this : ReviewDoc.t) (u : ObjectId) (w : World) :
  let doc := ReviewDoc.set_helpful this (toggled (ReviewDoc.helpful this) u) in
  Review.markHelpful this u w =
  if hd false (faults w)
  then (Throw WriteError,
        mkWorld (db w) (log w ++ [ReviewSaveFailed (ReviewDoc._id this)])
                (tl (faults w)) (clock w))
  else (Ok (ReviewDoc.set_updatedAt doc (clock w)),
        mkWorld (Review.store_update (ReviewDoc.set_updatedAt doc (clock w)) (db w))
                (log w ++ [ReviewSaved (ReviewDoc._id this)])
                (tl (faults w)) (clock w)).
Proof.
  intros doc. rewrite markHelpful_eq. fold doc. rewrite save_plain; [done|..].
  - apply (validate_modified_votes this _ (ReviewDoc.likes this)).
  - apply Qeq_bool_refl.
  - apply not_true_is_false. intros H. apply same_fields_votes in H as (H & _).
    simpl in H. symmetry in H. by apply toggled_count in H.
Qed.

Lemma toggleLike_run (this : ReviewDoc.t) (u : ObjectId) (w : World) :
  let doc := ReviewDoc.set_likes this (toggled (ReviewDoc.likes this) u) in
  Review.toggleLike this u w =
  if hd false (faults w)
  then (Throw WriteError,
        mkWorld (db w) (log w ++ [ReviewSaveFailed (ReviewDoc._id this)])
                (tl (faults w)) (clock w))
  else (Ok (ReviewDoc.set_updatedAt doc (clock w)),
        mkWorld (Review.store_update (ReviewDoc.set_updatedAt doc (clock w)) (db w))
                (log w ++ [ReviewSaved (ReviewDoc._id this)])
                (tl (faults w)) (clock w)).
Proof.
  intros doc. rewrite toggleLike_eq. fold doc. rewrite save_plain; [done|..].
  - apply (validate_modified_votes this (ReviewDoc.helpful this)).
  - apply Qeq_bool_refl.
  - apply not_true_is_false. intros H. apply same_fields_votes in H as (_ & H & _).
    simpl in H. symmetry in H. by apply toggled_count in H.
Qed.

Ltac handlers :=
  unfold response, after, effects, serve, request, handler,
    reviews.post, reviews.put, reviews.delete, reviews.post_helpful,
    reviews.post_like, books.post, books.put, books.delete,
    reviews.respond, books.respond,
    Review.findById, Review.findOne, Book.findById, User.findById in *;
  unfold try_catch, bind, get_db, ret, emit in *;
  cbn [db log faults clock call req_faults req_time fst snd
       status message payload] in *.

(** What the two toggle routes answer and store, for a review that exists. *)
Lemma post_helpful_run (s : Store) (requester : UserDoc.t) (id : ObjectId)
    (review : ReviewDoc.t) (fs : list bool) (t : Date) :
  review_by_id id s = Some review ->
  let u := UserDoc._id requester in
  let v := toggled (ReviewDoc.helpful review) u in
  let doc := ReviewDoc.set_updatedAt (ReviewDoc.set_helpful review v) t in
  serve (mkRequest (PostHelpful requester id) fs t) s =
  if negb (ReviewDoc.isActive review)
  then (mkResponse 404 "Review not found" NoPayload, s, [])
  else if hd false fs
  then (mkResponse 500 "Server error while updating helpful status" NoPayload, s,
        [ReviewSaveFailed id; ConsoleError "Mark helpful error:"])
  else (mkResponse 200 "Review helpful status updated"
          (HelpfulPayload (count v) (includes (users v) u)),
        Review.store_update doc s, [ReviewSaved id]).
Proof.
  intros Hfind u v doc. unfold review_by_id in Hfind.
  destruct (find_review_some _ _ _ Hfind) as [Hid _].
  handlers. rewrite Hfind.
  destruct (ReviewDoc.isActive review); cbn [negb]; [|done].
  rewrite markHelpful_run. cbn [faults db log clock]. rewrite Hid.
  destruct (hd false fs); reflexivity.
Qed.

Lemma post_like_run (s : Store) (requester : UserDoc.t) (id : ObjectId)
    (review : ReviewDoc.t) (fs : list bool) (t : Date) :
  review_by_id id s = Some review ->
  let u := UserDoc._id requester in
  let v := toggled (ReviewDoc.likes review) u in
  let doc := ReviewDoc.set_updatedAt (ReviewDoc.set_likes review v) t in
  serve (mkRequest (PostLike requester id) fs t) s =
  if negb (ReviewDoc.isActive review)
  then (mkResponse 404 "Review not found" NoPayload, s, [])
  else if hd false fs
  then (mkResponse 500 "Server error while updating like status" NoPayload, s,
        [ReviewSaveFailed id; ConsoleError "Toggle like error:"])
  else (mkResponse 200 "Review like status updated"
          (LikePayload (count v) (includes (users v) u)),
        Review.store_update doc s, [ReviewSaved id]).
Proof.
  intros Hfind u v doc. unfold review_by_id in Hfind.
  destruct (find_review_some _ _ _ Hfind) as [Hid _].
  handlers. rewrite Hfind.
  destruct (ReviewDoc.isActive review); cbn [negb]; [|done].
  rewrite toggleLike_run. cbn [faults db log clock]. rewrite Hid.
  destruct (hd false fs); reflexivity.
Qed.

Lemma toggled_together_spec (v : Votes) (u : ObjectId) :
  NoDup (users v) -> toggled_together v (toggled v u) u.
Proof. intros H. destruct (toggled_voters v u H) as (_ & ? & ?). by split. Qed.

Lemma review_by_id_store_update (id : ObjectId) (review doc : ReviewDoc.t) (s : Store) :
  review_by_id id s = Some review -> ReviewDoc._id doc = ReviewDoc._id review ->
  review_by_id id (Review.store_update doc s) = Some doc.
Proof.
  unfold review_by_id, Review.store_update. intros Hf Hid. cbn [Reviews].
  destruct (find_review_some _ _ _ Hf) as [E _]. rewrite Hid, E.
  eapply find_update_first; [done | congruence].
Qed.

(** C2. After every call of the helpful or the like toggle, whether it
    completed or not, the stored review's [helpful.count] is the size of its
    helpful voter set and its [likes.count] the size of its likes voter set,
    given both held before. A call that completes (status 200) moves the
    counter and the membership of the caller together, by one; any other
    call leaves the review as it was. *)
Theorem toggle_keeps_count_equal_to_voters
    (s : Store) (requester : UserDoc.t) (id : ObjectId) (review : ReviewDoc.t)
    (fs : list bool) (t : Date) :
  review_by_id id s = Some review ->
  ledger_ok (ReviewDoc.helpful review) ->
  ledger_ok (ReviewDoc.likes review) ->
  let u := UserDoc._id requester in
  let h := mkRequest (PostHelpful requester id) fs t in
  let l := mkRequest (PostLike requester id) fs t in
  (exists r, review_by_id id (after h s) = Some r
     /\ ledger_ok (ReviewDoc.helpful r) /\ ledger_ok (ReviewDoc.likes r)
     /\ ReviewDoc.likes r = ReviewDoc.likes review
     /\ (status (response h s) = 200 ->
         toggled_together (ReviewDoc.helpful review) (ReviewDoc.helpful r) u)
     /\ (status (response h s) <> 200 -> r = review))
  /\ (exists r, review_by_id id (after l s) = Some r
     /\ ledger_ok (ReviewDoc.helpful r) /\ ledger_ok (ReviewDoc.likes r)
     /\ ReviewDoc.helpful r = ReviewDoc.helpful review
     /\ (status (response l s) = 200 ->
         toggled_together (ReviewDoc.likes review) (ReviewDoc.likes r) u)
     /\ (status (response l s) <> 200 -> r = review)).
Proof.
  intros Hfind Hh Hl u h l. unfold response, after, h, l.
  rewrite (post_helpful_run s requester id review fs t Hfind).
  rewrite (post_like_run s requester id review fs t Hfind).
  pose proof (toggled_ledger_ok _ u Hh) as Hh'.
  pose proof (toggled_ledger_ok _ u Hl) as Hl'.
  pose proof (toggled_together_spec _ u (proj1 Hh)) as Hth.
  pose proof (toggled_together_spec _ u (proj1 Hl)) as Htl.
  split.
  - destruct (ReviewDoc.isActive review); cbn [negb fst snd status];
      [destruct (hd false fs); cbn [fst snd status]|].
    + exists review. repeat apply conj; try done; try apply Hh; try apply Hl; try apply Hh'; try apply Hl'.
    + eexists. split; [eapply review_by_id_store_update; [exact Hfind | done]|]. cbn.
      repeat apply conj; try done; try apply Hh; try apply Hl; try apply Hh'; try apply Hl'.
    + exists review. repeat apply conj; try done; try apply Hh; try apply Hl; try apply Hh'; try apply Hl'.
  - destruct (ReviewDoc.isActive review); cbn [negb fst snd status];
      [destruct (hd false fs); cbn [fst snd status]|].
    + exists review. repeat apply conj; try done; try apply Hh; try apply Hl; try apply Hh'; try apply Hl'.
    + eexists. split; [eapply review_by_id_store_update; [exact Hfind | done]|]. cbn.
      repeat apply conj; try done; try apply Hh; try apply Hl; try apply Hh'; try apply Hl'.
    + exists review. repeat apply conj; try done; try apply Hh; try apply Hl; try apply Hh'; try apply Hl'.
Qed.

Lemma toggle_keeps_count_equal_to_voters_witness :
  exists r, review_by_id 100 (after (request (PostHelpful carol 100) 6) voted) = Some r
    /\ ledger_ok (ReviewDoc.helpful r) /\ ledger_ok (ReviewDoc.likes r).
Proof.
  destruct (toggle_keeps_count_equal_to_voters voted carol 100 voted_review [] 6)
    as [(r & H1 & H2 & H3 & _) _].
  - vm_compute. reflexivity.
  - split; [repeat constructor; set_solver | vm_compute; reflexivity].
  - split; [constructor | vm_compute; reflexivity].
  - exists r. split; [exact H1 | split; [exact H2 | exact H3]].
Defined.

Lemma toggled_twice (v : Votes) (u : ObjectId) :
  NoDup (users v) ->
  count (toggled (toggled v u) u) = count v
  /\ voters (toggled (toggled v u) u) = voters v
  /\ toggled_together v (toggled v u) u
  /\ toggled_together (toggled v u) (toggled (toggled v u) u) u.
Proof.
  intros Hnd. destruct (toggled_voters v u Hnd) as (Hnd' & Hadd & Hdel).
  destruct (toggled_voters _ u Hnd') as (_ & Hadd' & Hdel').
  assert (toggled_together v (toggled v u) u) as T1 by (by split).
  assert (toggled_together (toggled v u) (toggled (toggled v u) u) u) as T2
    by (by split).
  destruct (decide (u ∈ voters v)) as [Hin|Hout].
  - destruct (Hdel Hin) as [E1 E2].
    assert (u ∉ voters (toggled v u)) as Hout' by (rewrite E1; set_solver).
    destruct (Hadd' Hout') as [E3 E4].
    repeat split; try done; try apply T1; try apply T2; [lia|].
    rewrite E3, E1. apply set_eq. intros y.
    destruct (decide (y = u)) as [->|]; set_solver.
  - destruct (Hadd Hout) as [E1 E2].
    assert (u ∈ voters (toggled v u)) as Hin' by (rewrite E1; set_solver).
    destruct (Hdel' Hin') as [E3 E4].
    repeat split; try done; try apply T1; try apply T2; [lia|].
    rewrite E3, E1. set_solver.
Qed.

(** C4. Two helpful toggles (respectively two like toggles) by the same
    user on an active review, one right after the other and both completing,
    bring the stored counter and the voter set back to what they were: the
    first call moves the counter and the user's membership by one, the second
    moves them back. The voter array lists each user once, as it does in
    every review the routes produce. *)
Theorem toggle_twice_restores
    (s : Store) (requester : UserDoc.t) (id : ObjectId) (review : ReviewDoc.t)
    (t1 t2 : Date) :
  review_by_id id s = Some review ->
  ReviewDoc.isActive review = true ->
  NoDup (users (ReviewDoc.helpful review)) ->
  NoDup (users (ReviewDoc.likes review)) ->
  let u := UserDoc._id requester in
  let h1 := request (PostHelpful requester id) t1 in
  let h2 := request (PostHelpful requester id) t2 in
  let l1 := request (PostLike requester id) t1 in
  let l2 := request (PostLike requester id) t2 in
  (exists r1 r2,
      review_by_id id (run [h1] s) = Some r1
      /\ review_by_id id (run [h1; h2] s) = Some r2
      /\ status (response h1 s) = 200
      /\ status (response h2 (run [h1] s)) = 200
      /\ toggled_together (ReviewDoc.helpful review) (ReviewDoc.helpful r1) u
      /\ toggled_together (ReviewDoc.helpful r1) (ReviewDoc.helpful r2) u
      /\ count (ReviewDoc.helpful r2) = count (ReviewDoc.helpful review)
      /\ voters (ReviewDoc.helpful r2) = voters (ReviewDoc.helpful review)
      /\ ReviewDoc.likes r2 = ReviewDoc.likes review)
  /\ (exists r1 r2,
      review_by_id id (run [l1] s) = Some r1
      /\ review_by_id id (run [l1; l2] s) = Some r2
      /\ status (response l1 s) = 200
      /\ status (response l2 (run [l1] s)) = 200
      /\ toggled_together (ReviewDoc.likes review) (ReviewDoc.likes r1) u
      /\ toggled_together (ReviewDoc.likes r1) (ReviewDoc.likes r2) u
      /\ count (ReviewDoc.likes r2) = count (ReviewDoc.likes review)
      /\ voters (ReviewDoc.likes r2) = voters (ReviewDoc.likes review)
      /\ ReviewDoc.helpful r2 = ReviewDoc.helpful review).
Proof.
  intros Hfind Hact Hh Hl u h1 h2 l1 l2.
  destruct (toggled_twice _ u Hh) as (Hc & Hv & T1 & T2).
  destruct (toggled_twice _ u Hl) as (Hc' & Hv' & T1' & T2').
  split.
  - set (d1 := ReviewDoc.set_updatedAt
                 (ReviewDoc.set_helpful review (toggled (ReviewDoc.helpful review) u)) t1).
    assert (serve h1 s = (mkResponse 200 "Review helpful status updated"
              (HelpfulPayload (count (ReviewDoc.helpful d1))
                 (includes (users (ReviewDoc.helpful d1)) u)),
              Review.store_update d1 s, [ReviewSaved id])) as E1.
    { unfold h1, request. rewrite (post_helpful_run _ _ _ _ _ _ Hfind).
      rewrite Hact. done. }
    assert (review_by_id id (Review.store_update d1 s) = Some d1) as Hfind1.
    { eapply review_by_id_store_update; [exact Hfind | done]. }
    set (d2 := ReviewDoc.set_updatedAt
                 (ReviewDoc.set_helpful d1 (toggled (ReviewDoc.helpful d1) u)) t2).
    assert (serve h2 (Review.store_update d1 s)
            = (mkResponse 200 "Review helpful status updated"
                 (HelpfulPayload (count (ReviewDoc.helpful d2))
                    (includes (users (ReviewDoc.helpful d2)) u)),
               Review.store_update d2 (Review.store_update d1 s),
               [ReviewSaved id])) as E2.
    { unfold h2, request. rewrite (post_helpful_run _ _ _ _ _ _ Hfind1).
      unfold d1 at 1. cbn [ReviewDoc.isActive ReviewDoc.set_updatedAt
                            ReviewDoc.set_helpful]. rewrite Hact. done. }
    exists d1, d2. unfold run, after, response. cbn [fold_left].
    rewrite E1. cbn [fst snd]. rewrite E2. cbn [fst snd status].
    repeat apply conj; try done; try apply T1; try apply T2.
    eapply review_by_id_store_update; [exact Hfind1 | done].
  - set (d1 := ReviewDoc.set_updatedAt
                 (ReviewDoc.set_likes review (toggled (ReviewDoc.likes review) u)) t1).
    assert (serve l1 s = (mkResponse 200 "Review like status updated"
              (LikePayload (count (ReviewDoc.likes d1))
                 (includes (users (ReviewDoc.likes d1)) u)),
              Review.store_update d1 s, [ReviewSaved id])) as E1.
    { unfold l1, request. rewrite (post_like_run _ _ _ _ _ _ Hfind).
      rewrite Hact. done. }
    assert (review_by_id id (Review.store_update d1 s) = Some d1) as Hfind1.
    { eapply review_by_id_store_update; [exact Hfind | done]. }
    set (d2 := ReviewDoc.set_updatedAt
                 (ReviewDoc.set_likes d1 (toggled (ReviewDoc.likes d1) u)) t2).
    assert (serve l2 (Review.store_update d1 s)
            = (mkResponse 200 "Review like status updated"
                 (LikePayload (count (ReviewDoc.likes d2))
                    (includes (users (ReviewDoc.likes d2)) u)),
               Review.store_update d2 (Review.store_update d1 s),
               [ReviewSaved id])) as E2.
    { unfold l2, request. rewrite (post_like_run _ _ _ _ _ _ Hfind1).
      unfold d1 at 1. cbn [ReviewDoc.isActive ReviewDoc.set_updatedAt
                            ReviewDoc.set_likes]. rewrite Hact. done. }
    exists d1, d2. unfold run, after, response. cbn [fold_left].
    rewrite E1. cbn [fst snd]. rewrite E2. cbn [fst snd status].
    repeat apply conj; try done; try apply T1'; try apply T2'.
    eapply review_by_id_store_update; [exact Hfind1 | done].
Qed.

Lemma toggle_twice_restores_witness :
  exists r2,
    review_by_id 100
      (run [request (PostHelpful carol 100) 6; request (PostHelpful carol 100) 7]
           voted) = Some r2
    /\ count (ReviewDoc.helpful r2) = 1
    /\ voters (ReviewDoc.helpful r2) = voters (ReviewDoc.helpful voted_review).
Proof.
  destruct (toggle_twice_restores voted carol 100 voted_review 6 7)
    as [(r1 & r2 & _ & H2 & _ & _ & _ & _ & H7 & H8 & _) _].
  - vm_compute. reflexivity.
  - reflexivity.
  - repeat constructor. set_solver.
  - constructor.
  - exists r2. split; [exact H2 | split; [exact H7 | exact H8]].
Defined.


(** ** Authorization *)

Lemma denied_spec (review : ReviewDoc.t) (requester : UserDoc.t) :
  reviews.denied review requester = true <->
  ReviewDoc.user review <> UserDoc._id requester
  /\ UserDoc.role requester <> "admin"%string.
Proof.
  unfold reviews.denied. rewrite andb_true_iff, !negb_true_iff.
  rewrite N.eqb_neq, String.eqb_neq. done.
Qed.

(** C6, as amended. A requester who is neither the review's author nor an
    administrator can neither update nor delete it: on an active review both
    calls answer 403 (Forbidden), on a soft-deleted one 404 (NotFound), and
    in either case the whole store is left as it was and nothing is
    attempted, whatever the request carries. *)
Theorem forbidden_leaves_review_untouched
    (s : Store) (requester : UserDoc.t) (id : ObjectId) (review : ReviewDoc.t)
    (body : UpdateBody) (fs : list bool) (t : Date) :
  review_by_id id s = Some review ->
  ReviewDoc.user review <> UserDoc._id requester ->
  UserDoc.role requester <> "admin"%string ->
  let upd := mkRequest (PutReview requester id body) fs t in
  let del := mkRequest (DeleteReview requester id) fs t in
  status (response upd s) = (if ReviewDoc.isActive review then 403 else 404)
  /\ status (response del s) = (if ReviewDoc.isActive review then 403 else 404)
  /\ after upd s = s /\ after del s = s
  /\ effects upd s = [] /\ effects del s = [].
Proof.
  intros Hfind Hu Hr upd del.
  assert (reviews.denied review requester = true) as Hd by (by apply denied_spec).
  unfold upd, del, review_by_id in *. handlers. rewrite Hfind.
  destruct (ReviewDoc.isActive review); cbn [negb]; rewrite ?Hd; done.
Qed.

Lemma forbidden_leaves_review_untouched_witness :
  status (response (request (PutReview carol 100 (rate 1)) 9) voted) = 403
  /\ status (response (request (DeleteReview carol 100) 9) voted) = 403
  /\ after (request (PutReview carol 100 (rate 1)) 9) voted = voted
  /\ after (request (DeleteReview carol 100) 9) voted = voted.
Proof.
  destruct (forbidden_leaves_review_untouched voted carol 100 voted_review
              (rate 1) [] 9) as (H1 & H2 & H3 & H4 & _).
  - vm_compute. reflexivity.
  - vm_compute. discriminate.
  - vm_compute. discriminate.
  - repeat split; assumption.
Defined.

(** C6 as stated fails on a soft-deleted review: Carol, who is neither its
    author nor an administrator, is answered 404 and not 403. *)
Lemma forbidden_counterexample :
  option_map ReviewDoc.user (review_by_id 100 withdrawn) = Some 1%N
  /\ UserDoc._id carol = 2%N /\ UserDoc.role carol = "user"%string
  /\ status (response (request (PutReview carol 100 (rate 1)) 9) withdrawn) = 404
  /\ status (response (request (DeleteReview carol 100) 9) withdrawn) = 404
  /\ status (response (request (DeleteReview carol 100) 9) withdrawn) <> 403.
Proof. vm_compute. repeat split; discriminate. Qed.

(** ** One review per user and book *)

Lemma findOne_finds (u b : ObjectId) (s : Store) :
  has_review u b s ->
  exists r, List.find (fun r => N.eqb (ReviewDoc.user r) u && N.eqb (ReviewDoc.book r) b)
                      (Reviews s) = Some r.
Proof.
  intros (r & Hin & Hu & Hb).
  destruct (List.find _ (Reviews s)) as [x|] eqn:E; [by exists x|].
  eapply find_none in E; [|exact Hin]. simpl in E.
  rewrite Hu, Hb, !N.eqb_refl in E. done.
Qed.

(** A create for a pair that has a row: the book is looked up first, then
    the duplicate check refuses; nothing is written. *)
Lemma create_refused_when_reviewed
    (s : Store) (requester : UserDoc.t) (oid : ObjectId) (body : CreateBody)
    (fs : list bool) (t : Date) :
  has_review (UserDoc._id requester) (c_bookId body) s ->
  let req := mkRequest (PostReview requester oid body) fs t in
  status (response req s)
  = match book_by_id (c_bookId body) s with
    | Some b => if BookDoc.isActive b then 400 else 404
    | None => 404
    end
  /\ after req s = s
  /\ effects req s = [].
Proof.
  intros Hhas req. destruct (findOne_finds _ _ _ Hhas) as [r Hr].
  unfold req, book_by_id. handlers.
  destruct (List.find _ (Books s)) as [b|]; [|done].
  destruct (BookDoc.isActive b); cbn [negb]; [|done].
  cbn [db]. rewrite Hr. done.
Qed.

(** C3, as amended. When a review for the pair (user, book) exists, active
    or not, a further create by that user for that book is refused and
    writes nothing: with 400 (DuplicateReview) when the book is in the
    catalogue and active, with 404 (BookNotFound) when the book is missing
    or soft-deleted, the book being looked up first. *)
Theorem duplicate_review_rejected
    (s : Store) (requester : UserDoc.t) (oid : ObjectId) (body : CreateBody)
    (fs : list bool) (t : Date) :
  has_review (UserDoc._id requester) (c_bookId body) s ->
  let req := mkRequest (PostReview requester oid body) fs t in
  status (response req s)
  = match book_by_id (c_bookId body) s with
    | Some b => if BookDoc.isActive b then 400 else 404
    | None => 404
    end
  /\ after req s = s
  /\ effects req s = []
  /\ rows_for (UserDoc._id requester) (c_bookId body) (after req s)
     = rows_for (UserDoc._id requester) (c_bookId body) s.
Proof.
  intros Hhas req.
  destruct (create_refused_when_reviewed s requester oid body fs t Hhas)
    as (H1 & H2 & H3).
  fold req in H1, H2, H3. rewrite H2. done.
Qed.

Lemma duplicate_review_rejected_witness :
  status (response (request (PostReview alice 102 (opinion 3)) 9) withdrawn) = 400
  /\ after (request (PostReview alice 102 (opinion 3)) 9) withdrawn = withdrawn.
Proof.
  destruct (duplicate_review_rejected withdrawn alice 102 (opinion 3) [] 9)
    as (H1 & H2 & _).
  - eexists. vm_compute. split; [left; reflexivity | split; reflexivity].
  - split; assumption.
Defined.

(** C3 as stated fails when the book has been soft-deleted: Alice's second
    review of it is answered 404 (Book not found), not 400. The row of her
    first review is there. *)
Lemma duplicate_review_counterexample :
  option_map ReviewDoc.user (review_by_id 100 delisted) = Some (UserDoc._id alice)
  /\ option_map ReviewDoc.book (review_by_id 100 delisted) = Some 10%N
  /\ status (response (request (PostReview alice 102 (opinion 3)) 9) delisted) = 404
  /\ message (response (request (PostReview alice 102 (opinion 3)) 9) delisted)
     = "Book not found"%string
  /\ status (response (request (PostReview alice 102 (opinion 3)) 9) delisted) <> 400.
Proof. vm_compute. repeat split; discriminate. Qed.

(** ** What a request can do to the Review collection *)

Ltac reduce := cbn [negb db log faults clock fst snd status message payload
                    Reviews Books Users User.store_update Book.store_update
                    Book.store_insert Review.store_update Review.store_insert]
                 in *.

Ltac back_to_save :=
  repeat match goal with
    | H : Reviews (db _) = _ |- _ => rewrite H; clear H
    end.

Ltac agg_step :=
  match goal with
  | |- context [Book.updateAverageRating ?b ?w] =>
      let res := fresh "res" in
      let w' := fresh "w" in
      destruct (updateAverageRating_outcome b w)
        as (res & w' & -> & ?HR & ?HU & ?Hc & ?Hf & ?Hok & ?Hlog);
      destruct res as [[]|?]; reduce
  end.

Ltac inc_step :=
  match goal with
  | |- context [User.findByIdAndUpdate_inc ?u ?d ?w] =>
      unfold User.findByIdAndUpdate_inc; rewrite write_eq;
      destruct (hd false (faults w)); reduce
  end.

Ltac save_step :=
  match goal with
  | |- context [Review.save ?o ?d ?w] =>
      let res := fresh "res" in
      let w' := fresh "w" in
      let pre := fresh "pre" in
      destruct (save_outcome o d w)
        as (res & w' & pre & -> & ?HU & ?Hc & ?Hf & ?Hq & ?Hm & ?Hok & ?Hres);
      destruct res as [?|?]; reduce
  end.

Lemma assign_allowed_identity (body : UpdateBody) (r : ReviewDoc.t) :
  ReviewDoc._id (reviews.assign_allowed body r) = ReviewDoc._id r
  /\ ReviewDoc.user (reviews.assign_allowed body r) = ReviewDoc.user r
  /\ ReviewDoc.book (reviews.assign_allowed body r) = ReviewDoc.book r
  /\ ReviewDoc.helpful (reviews.assign_allowed body r) = ReviewDoc.helpful r
  /\ ReviewDoc.likes (reviews.assign_allowed body r) = ReviewDoc.likes r.
Proof. done. Qed.

(** A resolved [save] of a loaded review, seen from the collection. *)
Lemma saved_footprint (s : Store) (id : ObjectId) (o doc a : ReviewDoc.t)
    (t : Date) (l : list ReviewDoc.t) :
  review_by_id id s = Some o ->
  ReviewDoc._id doc = ReviewDoc._id o ->
  ReviewDoc.user doc = ReviewDoc.user o ->
  ReviewDoc.book doc = ReviewDoc.book o ->
  Review.validate_modified o doc = true ->
  (ReviewDoc.helpful doc = ReviewDoc.helpful o
   \/ exists u, ReviewDoc.helpful doc = toggled (ReviewDoc.helpful o) u) ->
  (ReviewDoc.likes doc = ReviewDoc.likes o
   \/ exists u, ReviewDoc.likes doc = toggled (ReviewDoc.likes o) u) ->
  (Review.same_fields o doc = true /\ a = doc /\ l = Reviews s
   \/ Review.same_fields o doc = false
      /\ a = ReviewDoc.set_updatedAt doc t
      /\ l = Review.update_first (ReviewDoc._id doc) a (Reviews s)) ->
  footprint s l.
Proof.
  intros Hfind Hid Hu Hb Hval Hh Hl [(_ & _ & ->)|(_ & -> & ->)];
    [apply fp_same|].
  destruct (find_review_some _ _ _ Hfind) as [E _].
  rewrite Hid, E.
  apply (fp_update s id o (ReviewDoc.set_updatedAt doc t)); try done.
  cbn. congruence.
Qed.

Lemma footprint_put (requester : UserDoc.t) (id : ObjectId) (body : UpdateBody)
    (fs : list bool) (t : Date) (s : Store) :
  footprint s (Reviews (after (mkRequest (PutReview requester id body) fs t) s)).
Proof.
  handlers.
  destruct (List.find _ (Reviews s)) as [review|] eqn:Hfind; reduce;
    [|apply fp_same].
  destruct (ReviewDoc.isActive review); reduce; [|apply fp_same].
  destruct (reviews.denied review requester); reduce; [apply fp_same|].
  pose proof (Review.save (Some review)) as _.
  destruct (Review.validate_modified review (reviews.assign_allowed body review))
    eqn:Hval.
  2:{ unfold Review.save, Review.validate. rewrite Hval. monad. apply fp_same. }
  save_step.
  - destruct Hres as (_ & _ & Hres).
    assert (footprint s (Reviews (db w))) as Hfp.
    { exact (saved_footprint s id review (reviews.assign_allowed body review)
               a t _ Hfind eq_refl eq_refl eq_refl
               Hval (or_introl eq_refl) (or_introl eq_refl) Hres). }
    destruct (u_rating body); reduce; [|done].
    destruct (List.find _ (Books (db w))); reduce; [|done].
    agg_step; by back_to_save.
  - destruct Hres as [_ ->]. apply fp_same.
Qed.

Lemma footprint_delete (requester : UserDoc.t) (id : ObjectId)
    (fs : list bool) (t : Date) (s : Store) :
  footprint s (Reviews (after (mkRequest (DeleteReview requester id) fs t) s)).
Proof.
  handlers.
  destruct (List.find _ (Reviews s)) as [review|] eqn:Hfind; reduce;
    [|apply fp_same].
  destruct (ReviewDoc.isActive review); reduce; [|apply fp_same].
  destruct (reviews.denied review requester); reduce; [apply fp_same|].
  save_step.
  - destruct Hres as (_ & _ & Hres).
    assert (footprint s (Reviews (db w))) as Hfp.
    { refine (saved_footprint s id review (ReviewDoc.set_isActive review false)
                a t _ Hfind eq_refl eq_refl eq_refl
                _ (or_introl eq_refl) (or_introl eq_refl) Hres).
      apply (validate_modified_votes review (ReviewDoc.helpful review)
               (ReviewDoc.likes review)). }
    destruct (List.find _ (Books (db w))); reduce.
    + agg_step; try inc_step; by back_to_save.
    + inc_step; done.
  - destruct Hres as [_ ->]. apply fp_same.
Qed.

Lemma footprint_post (requester : UserDoc.t) (oid : ObjectId) (body : CreateBody)
    (fs : list bool) (t : Date) (s : Store) :
  footprint s (Reviews (after (mkRequest (PostReview requester oid body) fs t) s)).
Proof.
  handlers.
  destruct (List.find _ (Books s)) as [b|]; reduce; [|apply fp_same].
  destruct (BookDoc.isActive b); reduce; [|apply fp_same].
  destruct (List.find _ (Reviews s)); reduce; [apply fp_same|].
  unfold now. reduce. save_step.
  - destruct Hres as (_ & Hval & -> & Hins & Hclash).
    assert (footprint s (Reviews (db w))) as Hfp.
    { rewrite Hins. by apply fp_insert. }
    clear Hins. agg_step; try inc_step; by back_to_save.
  - destruct Hres as [_ ->]. apply fp_same.
Qed.

Lemma footprint_toggle (requester : UserDoc.t) (id : ObjectId)
    (fs : list bool) (t : Date) (s : Store) :
  footprint s (Reviews (after (mkRequest (PostHelpful requester id) fs t) s))
  /\ footprint s (Reviews (after (mkRequest (PostLike requester id) fs t) s)).
Proof.
  destruct (review_by_id id s) as [review|] eqn:Hfind.
  - unfold after.
    rewrite (post_helpful_run _ requester _ _ fs t Hfind).
    rewrite (post_like_run _ requester _ _ fs t Hfind).
    destruct (find_review_some _ _ _ Hfind) as [Hid _].
    destruct (ReviewDoc.isActive review); reduce;
      [destruct (hd false fs); reduce|]; try (split; apply fp_same).
    split.
    + cbn [ReviewDoc._id ReviewDoc.set_updatedAt ReviewDoc.set_helpful].
      rewrite Hid. apply (fp_update s id review); try done.
      * exact (validate_modified_votes review
                 (toggled (ReviewDoc.helpful review) (UserDoc._id requester))
                 (ReviewDoc.likes review)).
      * right. by eexists.
      * by left.
    + cbn [ReviewDoc._id ReviewDoc.set_updatedAt ReviewDoc.set_likes].
      rewrite Hid. apply (fp_update s id review); try done.
      * exact (validate_modified_votes review (ReviewDoc.helpful review)
                 (toggled (ReviewDoc.likes review) (UserDoc._id requester))).
      * by left.
      * right. by eexists.
  - unfold review_by_id in Hfind. split; handlers; rewrite Hfind; apply fp_same.
Qed.

Lemma Book_save_reviews (orig : option BookDoc.t) (doc : BookDoc.t) (w : World) :
  Reviews (db (Book.save orig doc w).2) = Reviews (db w).
Proof.
  unfold Book.save. destruct (negb (Book.validate orig doc)); [by monad|].
  destruct orig as [o|].
  - destruct (Book.same_fields o doc); [by monad|].
    rewrite write_eq. by destruct (hd false (faults w)).
  - unfold bind, get_db. reduce. destruct (existsb _ _); [by monad|].
    rewrite write_eq. by destruct (hd false (faults w)).
Qed.

Lemma footprint_books (c : Call) (fs : list bool) (t : Date) (s : Store) :
  is_review_mutation c = false ->
  (forall u id, c <> PostHelpful u id) -> (forall u id, c <> PostLike u id) ->
  Reviews (after (mkRequest c fs t) s) = Reviews s.
Proof.
  intros Hm Hh Hl. destruct c as [| | |u id|u id|oid body|id body|id];
    try discriminate Hm; try (by destruct (Hh u id));
    try (by destruct (Hl u id)); clear Hm Hh Hl.
  - handlers.
    match goal with |- context [Book.save ?o ?d ?w] =>
      pose proof (Book_save_reviews o d w) as H;
      destruct (Book.save o d w) as [[[]|e] w'] end; by reduce.
  - handlers. destruct (List.find _ (Books s)); reduce; [|done].
    match goal with |- context [Book.save ?o ?d ?w] =>
      pose proof (Book_save_reviews o d w) as H;
      destruct (Book.save o d w) as [[[]|e] w'] end; by reduce.
  - handlers. destruct (List.find _ (Books s)); reduce; [|done].
    match goal with |- context [Book.save ?o ?d ?w] =>
      pose proof (Book_save_reviews o d w) as H;
      destruct (Book.save o d w) as [[[]|e] w'] end; by reduce.
Qed.

(** Every request stays within the footprint. *)
Lemma footprint_after (r : Request) (s : Store) :
  footprint s (Reviews (after r s)).
Proof.
  destruct r as [c fs t]. destruct c as [u o b|u i b|u i|u i|u i|o b|i b|i].
  - exact (footprint_post u o b fs t s).
  - exact (footprint_put u i b fs t s).
  - exact (footprint_delete u i fs t s).
  - exact (proj1 (footprint_toggle u i fs t s)).
  - exact (proj2 (footprint_toggle u i fs t s)).
  - rewrite (footprint_books (PostBook o b) fs t s); [apply fp_same | done..].
  - rewrite (footprint_books (PutBook i b) fs t s); [apply fp_same | done..].
  - rewrite (footprint_books (DeleteBook i) fs t s); [apply fp_same | done..].
Qed.

Lemma has_review_footprint (u b : ObjectId) (s : Store) (l : list ReviewDoc.t) :
  footprint s l -> has_review u b s ->
  exists r, In r l /\ ReviewDoc.user r = u /\ ReviewDoc.book r = b.
Proof.
  intros Hfp Hhas. destruct Hfp as [|doc|id o doc Hfind Hid Hu Hb].
  - exact Hhas.
  - destruct Hhas as (r & Hin & ?). exists r. split; [|done].
    apply in_or_app. by left.
  - by apply (has_review_update_first u b id doc o).
Qed.

(** No request removes the row of a (user, book) pair. *)
Lemma has_review_after (u b : ObjectId) (r : Request) (s : Store) :
  has_review u b s -> has_review u b (after r s).
Proof. apply has_review_footprint, footprint_after. Qed.

Lemma has_review_run (u b : ObjectId) (rs : list Request) (s : Store) :
  has_review u b s -> has_review u b (run rs s).
Proof.
  revert s. induction rs as [|r rs IH]; intros s H; [done|].
  apply IH. by apply has_review_after.
Qed.

(** A create that answers 201 has put the row in the collection. *)
Lemma created_has_review (requester : UserDoc.t) (oid : ObjectId)
    (body : CreateBody) (fs : list bool) (t : Date) (s : Store) :
  status (response (mkRequest (PostReview requester oid body) fs t) s) = 201 ->
  has_review (UserDoc._id requester) (c_bookId body)
             (after (mkRequest (PostReview requester oid body) fs t) s).
Proof.
  unfold has_review. handlers.
  destruct (List.find _ (Books s)) as [b|]; reduce; [|done].
  destruct (BookDoc.isActive b); reduce; [|done].
  destruct (List.find _ (Reviews s)); reduce; [done|].
  unfold now. reduce. save_step; [|done].
  destruct Hres as (_ & Hval & -> & Hins & Hclash).
  agg_step; [|done]. inc_step; [done|]. intros _.
  rewrite HR, Hins. eexists. split; [apply in_or_app; right; by left|done].
Qed.

(** C10. Once a user's create for a book has succeeded (201), no later
    create by that user for that book succeeds, whatever requests are served
    in between (updates, soft deletes by the author or an administrator,
    toggles, catalogue changes, with or without store failures): the row is
    never removed and the duplicate check does not look at [isActive]. *)
Theorem no_second_review_ever
    (s : Store) (first again : Request) (later : list Request)
    (requester requester' : UserDoc.t) (oid oid' : ObjectId)
    (body body' : CreateBody) :
  call first = PostReview requester oid body ->
  status (response first s) = 201 ->
  call again = PostReview requester' oid' body' ->
  UserDoc._id requester' = UserDoc._id requester ->
  c_bookId body' = c_bookId body ->
  status (response again (run later (after first s))) <> 201
  /\ after again (run later (after first s)) = run later (after first s).
Proof.
  intros Hfirst H201 Hagain Hu Hb.
  destruct first as [c1 fs1 t1], again as [c2 fs2 t2]. simpl in *. subst.
  apply created_has_review in H201.
  apply (has_review_run _ _ later) in H201.
  rewrite <- Hu, <- Hb in H201.
  destruct (create_refused_when_reviewed _ requester' oid' body' fs2 t2 H201)
    as (Hst & Hafter & _).
  split; [|done]. rewrite Hst.
  destruct (book_by_id _ _) as [b|]; [destruct (BookDoc.isActive b)|]; done.
Qed.

Lemma no_second_review_ever_witness :
  status (response (request (PostReview alice 102 (opinion 5)) 9)
            (run [alice_rates_5; alice_deletes] (after alice_reviews library)))
  <> 201.
Proof.
  refine (proj1 (no_second_review_ever library alice_reviews
            (request (PostReview alice 102 (opinion 5)) 9)
            [alice_rates_5; alice_deletes] alice alice 100 102
            (opinion 4) (opinion 5) eq_refl _ eq_refl eq_refl eq_refl)).
  vm_compute. reflexivity.
Defined.

(** * Further properties of the code *)

(** ** Rating stars *)

Lemma Qle_bool_false (x y : Q) : Qle_bool x y = false -> (y < x)%Q.
Proof.
  intros H. apply Qnot_le_lt. intros Hle. apply Qle_bool_iff in Hle. congruence.
Qed.

Lemma rem1_nonneg (x : Q) :
  (0 <= x)%Q -> (rem1 x == x - inject_Z (Qfloor x))%Q.
Proof.
  intros H. unfold rem1. apply Qle_bool_iff in H. rewrite H. reflexivity.
Qed.

(** X1. For a book whose average rating lies in [0,5], the star display has
    between 0 and 5 full stars, at most one half star and no negative number
    of empty stars, the three add up to 5, and the stars shown (a half star
    counting one half) are the rating rounded down to the nearest half. *)
Theorem ratingStars_partition (this : BookDoc.t) :
  (0 <= BookDoc.averageRating this)%Q ->
  (BookDoc.averageRating this <= 5)%Q ->
  let st := ratingStars.get this in
  0 <= ratingStars.full st <= 5
  /\ (ratingStars.half st = 0 \/ ratingStars.half st = 1)
  /\ 0 <= ratingStars.empty st
  /\ ratingStars.full st + ratingStars.half st + ratingStars.empty st = 5
  /\ (inject_Z (ratingStars.full st) + inject_Z (ratingStars.half st) * (1 # 2)
      <= BookDoc.averageRating this)%Q
  /\ (BookDoc.averageRating this
      < inject_Z (ratingStars.full st) + inject_Z (ratingStars.half st) * (1 # 2)
        + (1 # 2))%Q.
Proof.
  intros H0 H5. unfold ratingStars.get, Math_floor. cbn.
  set (a := BookDoc.averageRating this) in *. clearbody a.
  pose proof (Qfloor_le a) as Hlo. pose proof (Qlt_floor a) as Hhi.
  pose proof (rem1_nonneg a H0) as Hrem.
  assert (0 <= Qfloor a) as Hf0.
  { change 0 with (Qfloor 0). by apply Qfloor_resp_le. }
  assert (Qfloor a <= 5) as Hf5.
  { change 5 with (Qfloor 5). by apply Qfloor_resp_le. }
  rewrite inject_Z_plus in Hhi. change (inject_Z 1) with 1%Q in Hhi.
  destruct (Qle_bool (1 # 2) (rem1 a)) eqn:Hh.
  - apply Qle_bool_iff in Hh. rewrite Hrem in Hh.
    assert (Qfloor a <= 4) as Hf4.
    { destruct (Z.eq_dec (Qfloor a) 5) as [E|E]; [|lia].
      rewrite E in Hh. change (inject_Z 5) with 5%Q in Hh. lra. }
    change (inject_Z 1) with 1%Q.
    split; [lia|]. split; [by right|]. split; [lia|]. split; [lia|].
    remember (inject_Z (Qfloor a)) as f. clear Heqf Hrem. split; lra.
  - apply Qle_bool_false in Hh. rewrite Hrem in Hh.
    change (inject_Z 0) with 0%Q.
    split; [lia|]. split; [by left|]. split; [lia|]. split; [lia|].
    remember (inject_Z (Qfloor a)) as f. clear Heqf Hrem. split; lra.
Qed.

Lemma ratingStars_partition_witness :
  let st := ratingStars.get
              (BookDoc.mk 10 "The Great Gatsby" "F. Scott Fitzgerald" 4.5 2 0 true) in
  ratingStars.full st + ratingStars.half st + ratingStars.empty st = 5.
Proof.
  apply (ratingStars_partition
           (BookDoc.mk 10 "The Great Gatsby" "F. Scott Fitzgerald" 4.5 2 0 true));
    discriminate.
Defined.

(** ** Listings: filter, sort, skip, limit *)

Lemma Math_ceil_div (a b : Z) :
  0 < b -> Math_ceil (inject_Z a / inject_Z b) = - ((- a) / b).
Proof.
  intros Hb. unfold Math_ceil, Qceiling.
  assert (- (inject_Z a / inject_Z b) == (- a) # (Z.to_pos b))%Q as E.
  { unfold Qeq, Qdiv, Qmult, Qinv, Qopp, inject_Z. destruct b as [|p|p]; try lia.
    cbn. lia. }
  rewrite E. unfold Qfloor. rewrite Z2Pos.id by lia. done.
Qed.

(** [Math.ceil(total / limit)] is the least number of pages that holds
    [total] items. *)
Lemma total_pages_bounds (total lim : Z) :
  0 < lim ->
  let pages := Math_ceil (inject_Z total / inject_Z lim) in
  (pages - 1) * lim < total <= pages * lim.
Proof.
  intros Hl pages. unfold pages. rewrite Math_ceil_div by done.
  pose proof (Z.div_mod (- total) lim ltac:(lia)) as Hdm.
  pose proof (Z.mod_pos_bound (- total) lim Hl) as Hm.
  nia.
Qed.

Lemma insert_sorted_perm (o : Sort) (x : ReviewDoc.t) (l : list ReviewDoc.t) :
  Permutation (insert_sorted o x l) (x :: l).
Proof.
  induction l as [|y l IH]; simpl; [done|].
  destruct (comes_first o x y); [done|].
  rewrite IH. apply perm_swap.
Qed.

(** Sorting rearranges; it neither drops nor repeats a document. *)
Lemma sort_by_perm (o : Sort) (l : list ReviewDoc.t) :
  Permutation (sort_by o l) l.
Proof.
  induction l as [|x l IH]; simpl; [done|].
  rewrite insert_sorted_perm. by constructor.
Qed.

Lemma page_slices_concat {A} (lim n : nat) (l : list A) :
  (0 < lim)%nat -> (length l <= n * lim)%nat ->
  concat (map (fun i => take lim (drop (i * lim) l)) (seq 0 n)) = l.
Proof.
  intros Hl. revert l. induction n as [|n IH]; intros l Hn.
  - destruct l; [done | simpl in Hn; lia].
  - cbn [seq map concat]. rewrite <- seq_shift, map_map.
    rewrite Nat.mul_0_l, drop_0.
    transitivity (take lim l ++ drop lim l); [|apply take_drop].
    f_equal. rewrite <- (IH (drop lim l)).
    + apply f_equal, map_ext. intros i. by rewrite drop_drop.
    + rewrite length_drop. lia.
Qed.

Lemma list_page_run (q : ListQuery) (f : ReviewFilter) (w : World) :
  let page := or_else (q_page q) 1 in
  let lim := or_else (q_limit q) 10 in
  let found := List.filter (matches f) (Reviews (db w)) in
  let total := Z.of_nat (length found) in
  list_page q f w
  = (Ok (mkListing 200 ""
           (limit lim (skip ((page - 1) * lim) (sort_by (sort_of q) found)))
           (Some (mkPagination page (Math_ceil (inject_Z total / inject_Z lim))
                    total (page <? Math_ceil (inject_Z total / inject_Z lim))
                    (1 <? page) lim))), w).
Proof. reflexivity. Qed.

Lemma get_reviews_run (q : ListQuery) (w : World) :
  reviews_get.get q w = list_page q (filter_of q) w.
Proof. unfold reviews_get.get, try_catch. by rewrite list_page_run. Qed.



(** X3. For a page of at least 1 and a limit of at least 1, the pagination
    block of GET /api/reviews is consistent with the matching reviews:
    [totalReviews] counts them, [totalPages] is the least number of pages
    that holds them, [hasNextPage] says exactly that matching reviews remain
    after this page, [hasPrevPage] that the page is not the first, and the
    page holds [limit] reviews, or what is left of them, or none. *)
Theorem listing_pagination_consistent (q : ListQuery) (w : World) :
  let page := or_else (q_page q) 1 in
  let lim := or_else (q_limit q) 10 in
  let total := Z.of_nat (length (List.filter (matches (filter_of q)) (Reviews (db w)))) in
  1 <= page -> 1 <= lim ->
  exists l pg, reviews_get.get q w = (Ok l, w)
    /\ l_pagination l = Some pg
    /\ currentPage pg = page /\ page_limit pg = lim /\ totalReviews pg = total
    /\ (totalPages pg - 1) * lim < total <= totalPages pg * lim
    /\ (hasNextPage pg = true <-> page * lim < total)
    /\ (hasPrevPage pg = true <-> 1 < page)
    /\ Z.of_nat (length (l_reviews l))
       = Z.min lim (Z.max 0 (total - (page - 1) * lim)).
Proof.
  intros page lim total Hp Hl.
  rewrite get_reviews_run, list_page_run. fold page lim total.
  eexists _, _. split; [reflexivity|]. split; [reflexivity|].
  cbn [currentPage page_limit totalReviews totalPages hasNextPage hasPrevPage
       l_reviews].
  pose proof (total_pages_bounds total lim ltac:(lia)) as Hb. cbn in Hb.
  repeat split; try lia.
  - intros H. apply Z.ltb_lt in H. nia.
  - intros H. apply Z.ltb_lt. nia.
  - unfold limit, skip. rewrite length_take, length_drop.
    rewrite (Permutation_length (sort_by_perm _ _)). fold total. nia.
Qed.

Lemma listing_pagination_consistent_witness :
  exists l pg,
    reviews_get.get (mkListQuery (Some 2) (Some 1) None None None None None)
                    (mkWorld (run [alice_reviews; carol_reviews] library) [] [] 9)
    = (Ok l, mkWorld (run [alice_reviews; carol_reviews] library) [] [] 9)
    /\ l_pagination l = Some pg
    /\ totalPages pg = 2 /\ hasNextPage pg = false /\ hasPrevPage pg = true.
Proof.
  destruct (listing_pagination_consistent
              (mkListQuery (Some 2) (Some 1) None None None None None)
              (mkWorld (run [alice_reviews; carol_reviews] library) [] [] 9))
    as (l & pg & H1 & H2 & _ & _ & _ & H6 & H7 & H8 & _); [done | done |].
  exists l, pg. split; [exact H1|]. split; [exact H2|].
  assert (Z.of_nat (length (List.filter
            (matches (filter_of (mkListQuery (Some 2) (Some 1) None None None None None)))
            (Reviews (db (mkWorld (run [alice_reviews; carol_reviews] library) [] [] 9)))))
          = 2) as E by (vm_compute; reflexivity).
  cbn [or_else q_page q_limit] in H6, H7, H8. rewrite E in H6, H7.
  split; [lia|]. split.
  - destruct (hasNextPage pg); [|done]. destruct H7 as [H7 _]. specialize (H7 eq_refl). lia.
  - apply H8. lia.
Defined.

Lemma seqZ_map (m n : Z) :
  seqZ m n = map (fun i => Z.of_nat i + m) (seq 0 (Z.to_nat n)).
Proof.
  unfold seqZ. generalize (seq 0 (Z.to_nat n)). intros l.
  induction l as [|i l IH]; cbn; [done|]. by rewrite IH.
Qed.

Lemma listed_page (q : ListQuery) (p : Z) (s : Store) :
  listed (at_page q p) s
  = limit (or_else (q_limit q) 10)
      (skip ((p - 1) * or_else (q_limit q) 10)
         (sort_by (sort_of q)
            (List.filter (matches (filter_of q)) (Reviews s)))).
Proof. unfold listed, answer. by rewrite get_reviews_run, list_page_run. Qed.

(** X4. Paging through GET /api/reviews with a limit of at least 1, from
    page 1 to the last page the pagination block announces, shows the
    active reviews that match the filter in the order of the sort, each one
    on exactly one page: the pages put end to end are the sorted matches.
    The store is taken to return reviews that compare equal in one fixed
    order, the same for every page. *)
Theorem listing_pages_partition (q : ListQuery) (s : Store) :
  let lim := or_else (q_limit q) 10 in
  let found := List.filter (matches (filter_of q)) (Reviews s) in
  let pages := Math_ceil (inject_Z (Z.of_nat (length found)) / inject_Z lim) in
  1 <= lim ->
  concat (map (fun p => listed (at_page q p) s) (seqZ 1 pages))
  = sort_by (sort_of q) found
  /\ Permutation (concat (map (fun p => listed (at_page q p) s) (seqZ 1 pages)))
                 found.
Proof.
  intros lim found pages Hl.
  assert (concat (map (fun p => listed (at_page q p) s) (seqZ 1 pages))
          = sort_by (sort_of q) found) as E.
  { pose proof (total_pages_bounds (Z.of_nat (length found)) lim ltac:(lia)) as Hb.
    cbn in Hb. fold pages in Hb.
    rewrite seqZ_map, map_map.
    transitivity (concat (map (fun i => take (Z.to_nat lim)
                    (drop (i * Z.to_nat lim) (sort_by (sort_of q) found)))
                    (seq 0 (Z.to_nat pages))));
      [|apply page_slices_concat].
    - f_equal. apply map_ext. intros i. cbv beta. rewrite listed_page.
      fold lim found. unfold limit, skip. do 2 f_equal. nia.
    - lia.
    - rewrite (Permutation_length (sort_by_perm _ _)). nia. }
  split; [exact E|]. rewrite E. apply sort_by_perm.
Qed.

Lemma listing_pages_partition_witness :
  Permutation
    (concat (map (fun p => listed (at_page
                     (mkListQuery None (Some 1) None None None None None) p)
                     (run [alice_reviews; carol_reviews] library))
                 (seqZ 1 2)))
    (Reviews (run [alice_reviews; carol_reviews] library)).
Proof.
  exact (proj2 (listing_pages_partition
                  (mkListQuery None (Some 1) None None None None None)
                  (run [alice_reviews; carol_reviews] library) ltac:(done))).
Defined.

(** ** Sorted output *)









(** ** What a request does to the reviews, in detail *)

Lemma revised_same_row (t : Date) (o doc : ReviewDoc.t) :
  revised t o doc -> same_row o doc.
Proof.
  intros [body Hval| |u|u]; unfold same_row; cbn; repeat split; try done.
Qed.

Lemma change_saved (s : Store) (t : Date) (id : ObjectId) (o doc a : ReviewDoc.t)
    (l : list ReviewDoc.t) :
  review_by_id id s = Some o ->
  ReviewDoc.isActive o = true ->
  ReviewDoc._id doc = ReviewDoc._id o ->
  revised t o (ReviewDoc.set_updatedAt doc t) ->
  (Review.same_fields o doc = true /\ a = doc /\ l = Reviews s
   \/ Review.same_fields o doc = false
      /\ a = ReviewDoc.set_updatedAt doc t
      /\ l = Review.update_first (ReviewDoc._id doc) a (Reviews s)) ->
  change s t l.
Proof.
  intros Hfind Hact Hid Hrev [(_ & _ & ->)|(_ & -> & ->)]; [apply change_none|].
  destruct (find_review_some _ _ _ Hfind) as [E _].
  rewrite Hid, E. by apply (change_update s t id o).
Qed.

Lemma change_put (requester : UserDoc.t) (id : ObjectId) (body : UpdateBody)
    (fs : list bool) (t : Date) (s : Store) :
  change s t (Reviews (after (mkRequest (PutReview requester id body) fs t) s)).
Proof.
  handlers.
  destruct (List.find _ (Reviews s)) as [review|] eqn:Hfind; reduce;
    [|apply change_none].
  destruct (ReviewDoc.isActive review) eqn:Hact; reduce; [|apply change_none].
  destruct (reviews.denied review requester); reduce; [apply change_none|].
  save_step.
  - destruct Hres as (_ & Hval & Hres).
    assert (change s t (Reviews (db w))) as Hch.
    { apply (change_saved s t id review (reviews.assign_allowed body review) a);
        try done. by apply revised_put. }
    destruct (u_rating body); reduce; [|done].
    destruct (List.find _ (Books (db w))); reduce; [|done].
    agg_step; by back_to_save.
  - destruct Hres as [_ ->]. apply change_none.
Qed.

Lemma change_delete (requester : UserDoc.t) (id : ObjectId)
    (fs : list bool) (t : Date) (s : Store) :
  change s t (Reviews (after (mkRequest (DeleteReview requester id) fs t) s)).
Proof.
  handlers.
  destruct (List.find _ (Reviews s)) as [review|] eqn:Hfind; reduce;
    [|apply change_none].
  destruct (ReviewDoc.isActive review) eqn:Hact; reduce; [|apply change_none].
  destruct (reviews.denied review requester); reduce; [apply change_none|].
  save_step.
  - destruct Hres as (_ & _ & Hres).
    assert (change s t (Reviews (db w))) as Hch.
    { apply (change_saved s t id review (ReviewDoc.set_isActive review false) a);
        try done. apply revised_delete. }
    destruct (List.find _ (Books (db w))); reduce.
    + agg_step; try inc_step; by back_to_save.
    + inc_step; done.
  - destruct Hres as [_ ->]. apply change_none.
Qed.

Lemma change_post (requester : UserDoc.t) (oid : ObjectId) (body : CreateBody)
    (fs : list bool) (t : Date) (s : Store) :
  change s t (Reviews (after (mkRequest (PostReview requester oid body) fs t) s)).
Proof.
  handlers.
  destruct (List.find _ (Books s)) as [b|]; reduce; [|apply change_none].
  destruct (BookDoc.isActive b); reduce; [|apply change_none].
  destruct (List.find _ (Reviews s)); reduce; [apply change_none|].
  unfold now. reduce. save_step.
  - destruct Hres as (_ & Hval & -> & Hins & Hclash).
    assert (change s t (Reviews (db w))) as Hch.
    { rewrite Hins. by apply change_insert. }
    clear Hins. agg_step; try inc_step; by back_to_save.
  - destruct Hres as [_ ->]. apply change_none.
Qed.

Lemma change_toggle (requester : UserDoc.t) (id : ObjectId)
    (fs : list bool) (t : Date) (s : Store) :
  change s t (Reviews (after (mkRequest (PostHelpful requester id) fs t) s))
  /\ change s t (Reviews (after (mkRequest (PostLike requester id) fs t) s)).
Proof.
  destruct (review_by_id id s) as [review|] eqn:Hfind.
  - unfold after.
    rewrite (post_helpful_run _ requester _ _ fs t Hfind).
    rewrite (post_like_run _ requester _ _ fs t Hfind).
    destruct (find_review_some _ _ _ Hfind) as [Hid _].
    destruct (ReviewDoc.isActive review) eqn:Hact; reduce;
      [destruct (hd false fs); reduce|]; try (split; apply change_none).
    split.
    + cbn [ReviewDoc._id ReviewDoc.set_updatedAt ReviewDoc.set_helpful].
      rewrite Hid. apply (change_update s t id review); try done.
      apply revised_helpful.
    + cbn [ReviewDoc._id ReviewDoc.set_updatedAt ReviewDoc.set_likes].
      rewrite Hid. apply (change_update s t id review); try done.
      apply revised_like.
  - unfold review_by_id in Hfind. split; handlers; rewrite Hfind; apply change_none.
Qed.

(** Every request changes the Review collection in one of these ways. *)
Lemma change_after (r : Request) (s : Store) :
  change s (req_time r) (Reviews (after r s)).
Proof.
  destruct r as [c fs t]. destruct c as [u o b|u i b|u i|u i|u i|o b|i b|i];
    cbn [req_time].
  - exact (change_post u o b fs t s).
  - exact (change_put u i b fs t s).
  - exact (change_delete u i fs t s).
  - exact (proj1 (change_toggle u i fs t s)).
  - exact (proj2 (change_toggle u i fs t s)).
  - rewrite (footprint_books (PostBook o b) fs t s); [apply change_none | done..].
  - rewrite (footprint_books (PutBook i b) fs t s); [apply change_none | done..].
  - rewrite (footprint_books (DeleteBook i) fs t s); [apply change_none | done..].
Qed.

Lemma find_app_some {A} (p : A -> bool) (l l' : list A) (x : A) :
  List.find p l = Some x -> List.find p (l ++ l') = Some x.
Proof.
  induction l as [|y l IH]; simpl; [done|]. destruct (p y); [done|apply IH].
Qed.

Lemma In_update_first (id : ObjectId) (doc r : ReviewDoc.t) (l : list ReviewDoc.t) :
  In r (Review.update_first id doc l) -> r = doc \/ In r l.
Proof.
  induction l as [|y l IH]; simpl; [done|].
  destruct (N.eqb (ReviewDoc._id y) id); simpl.
  - intros [<-|H]; [by left | right; by right].
  - intros [<-|H]; [right; by left|]. destruct (IH H); [by left | right; by right].
Qed.

Lemma map_update_first {B} (f : ReviewDoc.t -> B) (id : ObjectId)
    (o doc : ReviewDoc.t) (l : list ReviewDoc.t) :
  List.find (fun r => N.eqb (ReviewDoc._id r) id) l = Some o ->
  f doc = f o ->
  map f (Review.update_first id doc l) = map f l.
Proof.
  intros Hfind Hf. induction l as [|y l IH]; simpl in *; [done|].
  destruct (N.eqb (ReviewDoc._id y) id); simpl.
  - injection Hfind as ->. by rewrite Hf.
  - by rewrite IH.
Qed.

(** A soft-deleted review is out of reach of every request. *)
Lemma change_frozen (s : Store) (t : Date) (l : list ReviewDoc.t)
    (id : ObjectId) (o : ReviewDoc.t) :
  change s t l -> review_by_id id s = Some o -> ReviewDoc.isActive o = false ->
  List.find (fun r => N.eqb (ReviewDoc._id r) id) l = Some o.
Proof.
  intros Hch Hfind Hina. destruct Hch as [|oid u body Hval Hclash|id' o' doc Hf' Hact Hrev].
  - exact Hfind.
  - by apply find_app_some.
  - destruct (N.eq_dec id id') as [->|Hne].
    + rewrite Hfind in Hf'. injection Hf' as ->. congruence.
    + rewrite find_update_first_other; [done| |done].
      destruct (find_review_some _ _ _ Hf') as [E _].
      destruct (revised_same_row _ _ _ Hrev) as (Hid & _). congruence.
Qed.

(** Every row stays, as the same row. *)
Lemma change_keeps_rows (s : Store) (t : Date) (l : list ReviewDoc.t)
    (id : ObjectId) (o : ReviewDoc.t) :
  change s t l -> review_by_id id s = Some o ->
  exists o', List.find (fun r => N.eqb (ReviewDoc._id r) id) l = Some o'
             /\ same_row o o'.
Proof.
  assert (same_row o o) as Hrefl by (unfold same_row; repeat split; done).
  intros Hch Hfind. destruct Hch as [|oid u body Hval Hclash|id' o' doc Hf' Hact Hrev].
  - by exists o.
  - exists o. split; [by apply find_app_some | done].
  - destruct (find_review_some _ _ _ Hf') as [E _].
    pose proof (revised_same_row _ _ _ Hrev) as Hrow.
    destruct (N.eq_dec id id') as [->|Hne].
    + rewrite Hfind in Hf'. injection Hf' as ->. exists doc. split; [|done].
      eapply find_update_first; [exact Hfind|]. destruct Hrow as (Hid & _). congruence.
    + exists o. split; [|done]. rewrite find_update_first_other; [done| |done].
      destruct Hrow as (Hid & _). congruence.
Qed.

Lemma index_clash_false (doc : ReviewDoc.t) (l : list ReviewDoc.t) :
  Review.index_clash doc l = false ->
  (ReviewDoc._id doc ∉ map ReviewDoc._id l)
  /\ ((ReviewDoc.user doc, ReviewDoc.book doc)
       ∉ map (fun r => (ReviewDoc.user r, ReviewDoc.book r)) l).
Proof.
  unfold Review.index_clash. intros H.
  assert (forall r, In r l ->
            ReviewDoc._id r <> ReviewDoc._id doc
            /\ ~ (ReviewDoc.user r = ReviewDoc.user doc
                  /\ ReviewDoc.book r = ReviewDoc.book doc)) as Hno.
  { intros r Hr. destruct (existsb _ l) eqn:E; [done|].
    rewrite <- Bool.not_true_iff_false, existsb_exists in E.
    split.
    - intros Hid. apply E. exists r. split; [done|].
      by rewrite Hid, N.eqb_refl.
    - intros [Hu Hb]. apply E. exists r. split; [done|].
      rewrite Hu, Hb, !N.eqb_refl. by rewrite orb_true_r. }
  split; intros Hin; apply list_elem_of_In, in_map_iff in Hin as (r & E & Hr);
    destruct (Hno r Hr) as [H1 H2].
  - by apply H1.
  - apply H2. by injection E.
Qed.

Lemma change_unique (s : Store) (t : Date) (l : list ReviewDoc.t) :
  change s t l -> unique_reviews (Reviews s) -> unique_reviews l.
Proof.
  intros Hch [Hids Hpairs].
  destruct Hch as [|oid u body Hval Hclash|id o doc Hfind Hact Hrev].
  - by split.
  - apply index_clash_false in Hclash as [H1 H2].
    split; rewrite map_app; apply NoDup_app; (split; [done|]);
      (split; [|apply NoDup_singleton]); intros x Hx Hx';
      apply list_elem_of_singleton in Hx'; subst x; done.
  - destruct (revised_same_row _ _ _ Hrev) as (Hid & Hu & Hb & _).
    split.
    + by rewrite (map_update_first ReviewDoc._id id o doc).
    + rewrite (map_update_first _ id o doc); [done | done | congruence].
Qed.

Lemma ledger_ok_empty : ledger_ok (mkVotes 0 []).
Proof. split; [constructor | done]. Qed.

Lemma change_ledgers (s : Store) (t : Date) (l : list ReviewDoc.t) :
  change s t l -> ledgers_ok (Reviews s) -> ledgers_ok l.
Proof.
  intros Hch Hok. destruct Hch as [|oid u body Hval Hclash|id o doc Hfind Hact Hrev].
  - done.
  - intros r Hr. apply in_app_or in Hr as [Hr|[<-|[]]]; [by apply Hok|].
    split; apply ledger_ok_empty.
  - intros r Hr. apply In_update_first in Hr as [->|Hr]; [|by apply Hok].
    destruct (find_review_some _ _ _ Hfind) as [_ Hin].
    destruct (Hok o Hin) as [Hh Hl].
    destruct Hrev as [body Hval| |u|u]; cbn; split; try done;
      by apply toggled_ledger_ok.
Qed.






Lemma change_length (s : Store) (t : Date) (l : list ReviewDoc.t) :
  change s t l ->
  (length (Reviews s) <= length l <= S (length (Reviews s)))%nat.
Proof.
  intros [|oid u body Hval Hclash|id o doc Hfind Hact Hrev].
  - lia.
  - rewrite length_app. simpl. lia.
  - rewrite length_update_first. lia.
Qed.

(** ** Invariants of the Review collection over any run *)

Lemma run_cons (r : Request) (rs : list Request) (s : Store) :
  run (r :: rs) s = run rs (after r s).
Proof. reflexivity. Qed.

Lemma inactive_not_found (s : Store) (id : ObjectId) (o : ReviewDoc.t)
    (requester : UserDoc.t) (body : UpdateBody) (fs : list bool) (t : Date) :
  review_by_id id s = Some o -> ReviewDoc.isActive o = false ->
  serve (mkRequest (PutReview requester id body) fs t) s
  = (mkResponse 404 "Review not found" NoPayload, s, [])
  /\ serve (mkRequest (DeleteReview requester id) fs t) s
     = (mkResponse 404 "Review not found" NoPayload, s, [])
  /\ serve (mkRequest (PostHelpful requester id) fs t) s
     = (mkResponse 404 "Review not found" NoPayload, s, [])
  /\ serve (mkRequest (PostLike requester id) fs t) s
     = (mkResponse 404 "Review not found" NoPayload, s, [])
  /\ forall w, db w = s ->
       reviews_get.get_by_id id w = (Ok (mkResponse 404 "Review not found" NoPayload), w).
Proof.
  intros Hfind Hina. unfold review_by_id in Hfind.
  repeat split; try (handlers; rewrite Hfind, Hina; reflexivity).
  intros w <-. unfold reviews_get.get_by_id. handlers. by rewrite Hfind, Hina.
Qed.

Lemma frozen_run (rs : list Request) (s : Store) (id : ObjectId) (o : ReviewDoc.t) :
  review_by_id id s = Some o -> ReviewDoc.isActive o = false ->
  review_by_id id (run rs s) = Some o.
Proof.
  revert s. induction rs as [|r rs IH]; intros s Hfind Hina; [done|].
  rewrite run_cons. apply IH; [|done].
  exact (change_frozen s _ _ id o (change_after r s) Hfind Hina).
Qed.

(** X6. A soft delete is final. Once a stored review is inactive, no
    sequence of requests, with or without store failures, changes any of its
    fields or brings it back, and in every later state the routes that
    address it by id (GET, PUT, DELETE, helpful, like) answer 404 and write
    nothing, whoever asks; in particular a repeated DELETE cannot decrement
    the author's [reviewsCount] a second time. *)
Theorem soft_delete_is_final
    (s : Store) (id : ObjectId) (o : ReviewDoc.t) (rs : list Request) :
  review_by_id id s = Some o ->
  ReviewDoc.isActive o = false ->
  review_by_id id (run rs s) = Some o
  /\ forall (requester : UserDoc.t) (body : UpdateBody) (fs : list bool) (t : Date),
       let s' := run rs s in
       serve (mkRequest (PutReview requester id body) fs t) s'
       = (mkResponse 404 "Review not found" NoPayload, s', [])
       /\ serve (mkRequest (DeleteReview requester id) fs t) s'
          = (mkResponse 404 "Review not found" NoPayload, s', [])
       /\ serve (mkRequest (PostHelpful requester id) fs t) s'
          = (mkResponse 404 "Review not found" NoPayload, s', [])
       /\ serve (mkRequest (PostLike requester id) fs t) s'
          = (mkResponse 404 "Review not found" NoPayload, s', [])
       /\ forall w, db w = s' ->
            reviews_get.get_by_id id w
            = (Ok (mkResponse 404 "Review not found" NoPayload), w).
Proof.
  intros Hfind Hina. pose proof (frozen_run rs s id o Hfind Hina) as Hrun.
  split; [done|]. intros requester body fs t s'.
  by apply (inactive_not_found s' id o).
Qed.

Lemma soft_delete_is_final_witness :
  serve (request (DeleteReview root 100) 9)
        (run [carol_reviews; request (PutReview root 100 (rate 1)) 7] withdrawn)
  = (mkResponse 404 "Review not found" NoPayload,
     run [carol_reviews; request (PutReview root 100 (rate 1)) 7] withdrawn, []).
Proof.
  destruct (soft_delete_is_final withdrawn 100
              (ReviewDoc.set_isActive
                 (ReviewDoc.set_updatedAt
                    (reviews.new_Review 100 1 (opinion 4) 1) 4) false)
              [carol_reviews; request (PutReview root 100 (rate 1)) 7])
    as [_ H]; [vm_compute; reflexivity | reflexivity |].
  pose proof (H root (rate 1) [] 9%N) as H'. cbv zeta in H'.
  exact (proj1 (proj2 H')).
Defined.

Lemma unique_run (rs : list Request) (s : Store) :
  unique_reviews (Reviews s) -> unique_reviews (Reviews (run rs s)).
Proof.
  revert s. induction rs as [|r rs IH]; intros s H; [done|].
  rewrite run_cons. apply IH. exact (change_unique s _ _ (change_after r s) H).
Qed.

Lemma rows_for_unique (u b : ObjectId) (l : list ReviewDoc.t) :
  NoDup (map (fun r => (ReviewDoc.user r, ReviewDoc.book r)) l) ->
  (length (List.filter
             (fun r => N.eqb (ReviewDoc.user r) u && N.eqb (ReviewDoc.book r) b) l)
   <= 1)%nat.
Proof.
  induction l as [|x l IH]; simpl; [lia|]. intros Hnd.
  apply NoDup_cons in Hnd as [Hx Hnd]. specialize (IH Hnd).
  destruct (N.eqb_spec (ReviewDoc.user x) u) as [Hu|]; simpl; [|done].
  destruct (N.eqb_spec (ReviewDoc.book x) b) as [Hb|]; simpl; [|done].
  destruct (List.filter _ l) as [|y l'] eqn:E; simpl; [lia|]. exfalso.
  assert (In y (List.filter
                  (fun r => N.eqb (ReviewDoc.user r) u && N.eqb (ReviewDoc.book r) b) l))
    as Hy by (rewrite E; by left).
  apply filter_In in Hy as [Hy Hp]. apply andb_prop in Hp as [Hyu Hyb].
  apply N.eqb_eq in Hyu, Hyb. apply Hx. apply list_elem_of_In, in_map_iff.
  exists y. split; [|done]. congruence.
Qed.

(** X7. One review per user and book, as an invariant: from a collection in
    which no two reviews share an id or a (user, book) pair, every sequence
    of requests, with or without store failures, leads to such a collection
    again, so that no pair ever has more than one row, active or not. *)
Theorem reviews_stay_unique (s : Store) (rs : list Request) :
  unique_reviews (Reviews s) ->
  unique_reviews (Reviews (run rs s))
  /\ forall u b, (rows_for u b (run rs s) <= 1)%nat.
Proof.
  intros H. pose proof (unique_run rs s H) as [Hids Hpairs].
  split; [by split|]. intros u b. by apply rows_for_unique.
Qed.

Lemma reviews_stay_unique_witness :
  (rows_for 1 10 (run [alice_reviews; alice_deletes;
                       request (PostReview alice 102 (opinion 5)) 5] library) <= 1)%nat.
Proof.
  apply (reviews_stay_unique library
           [alice_reviews; alice_deletes;
            request (PostReview alice 102 (opinion 5)) 5]).
  split; constructor.
Defined.

Lemma same_row_trans (a b c : ReviewDoc.t) :
  same_row a b -> same_row b c -> same_row a c.
Proof.
  unfold same_row. intros Hab Hbc. destruct_and!.
  repeat apply conj; try congruence. auto.
Qed.

Lemma rows_run (rs : list Request) (s : Store) (id : ObjectId) (o : ReviewDoc.t) :
  review_by_id id s = Some o ->
  exists o', review_by_id id (run rs s) = Some o' /\ same_row o o'.
Proof.
  revert s o. induction rs as [|r rs IH]; intros s o Hfind.
  - exists o. split; [done|]. unfold same_row. repeat split; done.
  - rewrite run_cons.
    destruct (change_keeps_rows s _ _ id o (change_after r s) Hfind) as (o1 & H1 & Hs1).
    destruct (IH (after r s) o1 H1) as (o2 & H2 & Hs2).
    exists o2. split; [done|]. by eapply same_row_trans.
Qed.

Lemma length_run (rs : list Request) (s : Store) :
  (length (Reviews s) <= length (Reviews (run rs s))
   <= length (Reviews s) + length rs)%nat.
Proof.
  revert s. induction rs as [|r rs IH]; intros s; [simpl; lia|].
  rewrite run_cons. specialize (IH (after r s)).
  pose proof (change_length s _ _ (change_after r s)). simpl. lia.
Qed.

(** X8. No route removes a review or rewrites its identity. A review stored
    under some id is still stored under that id after any sequence of
    requests, with or without store failures, with the same author, book
    and creation time, with [isVerified], [tags] and [purchaseSource] as
    they were, and active only if it was active before; and the collection
    never shrinks and grows by at most one review per request. *)
Theorem reviews_are_never_removed
    (s : Store) (rs : list Request) (id : ObjectId) (o : ReviewDoc.t) :
  review_by_id id s = Some o ->
  (exists o', review_by_id id (run rs s) = Some o' /\ same_row o o')
  /\ (length (Reviews s) <= length (Reviews (run rs s))
      <= length (Reviews s) + length rs)%nat.
Proof.
  intros Hfind. split; [by apply rows_run | apply length_run].
Qed.

Lemma reviews_are_never_removed_witness :
  (exists o', review_by_id 100 (run [alice_rates_5; alice_deletes; carol_reviews] voted)
              = Some o'
              /\ same_row voted_review o')
  /\ (length (Reviews voted)
      <= length (Reviews (run [alice_rates_5; alice_deletes; carol_reviews] voted))
      <= length (Reviews voted) + 3)%nat.
Proof.
  apply (reviews_are_never_removed voted
           [alice_rates_5; alice_deletes; carol_reviews] 100 voted_review).
  reflexivity.
Defined.

Lemma ledgers_run (rs : list Request) (s : Store) :
  ledgers_ok (Reviews s) -> ledgers_ok (Reviews (run rs s)).
Proof.
  revert s. induction rs as [|r rs IH]; intros s H; [done|].
  rewrite run_cons. apply IH. exact (change_ledgers s _ _ (change_after r s) H).
Qed.

(** X9. The vote ledgers, as an invariant of the whole API: if in every
    stored review the helpful and like lists hold no user twice and each
    count equals the number of distinct users listed, then the same holds
    after any sequence of requests (creations, edits, deletions and votes,
    with or without store failures), and so no count is ever negative. *)
Theorem ledgers_stay_in_order (s : Store) (rs : list Request) :
  ledgers_ok (Reviews s) ->
  ledgers_ok (Reviews (run rs s))
  /\ forall r, In r (Reviews (run rs s)) ->
       0 <= count (ReviewDoc.helpful r) /\ 0 <= count (ReviewDoc.likes r).
Proof.
  intros H. pose proof (ledgers_run rs s H) as Hrun. split; [done|].
  intros r Hr. destruct (Hrun r Hr) as [[_ Hh] [_ Hl]]. lia.
Qed.

Lemma ledgers_stay_in_order_witness :
  ledgers_ok (Reviews (run [alice_reviews; carol_votes; carol_votes; alice_deletes] library)).
Proof.
  apply (ledgers_stay_in_order library
           [alice_reviews; carol_votes; carol_votes; alice_deletes]).
  intros r [].
Defined.




(** ** The listings of one book and of one user *)

Lemma find_by_id_some {A} (key : A -> ObjectId) (id : ObjectId) (l : list A) (a : A) :
  List.find (fun x => N.eqb (key x) id) l = Some a -> key a = id /\ In a l.
Proof.
  intros H. apply find_some in H as [Hin He]. by apply N.eqb_eq in He.
Qed.

(** X11. GET /api/books/:id/reviews against GET /api/reviews. For a book
    that is stored, the route answers 404 with no reviews when the book is
    inactive, and otherwise chooses the same reviews, in the same order,
    with the same pagination, as GET /api/reviews asked for that [bookId]
    with the same page, limit and sort (reviews that compare equal coming
    from the store in one fixed order); whatever [bookId], [userId] or
    [rating] the query string carries is ignored. GET /api/reviews itself
    never looks at the book, so it goes on listing the reviews of a book
    that was deleted. *)
Theorem book_reviews_agree_with_listing
    (id : ObjectId) (q : ListQuery) (w : World) (b : BookDoc.t) :
  book_by_id id (db w) = Some b ->
  books_get.get_reviews id q w
  = (if BookDoc.isActive b then reviews_get.get (for_book id q) w
     else (Ok (mkListing 404 "Book not found" [] None), w))
  /\ reviews_get.get (for_book id q) w
     = list_page q (mkReviewFilter (Some id) None None) w.
Proof.
  intros Hfind. unfold book_by_id in Hfind. split.
  - rewrite get_reviews_run. unfold books_get.get_reviews, try_catch, Book.findById.
    unfold bind, get_db, ret. cbn [db]. rewrite Hfind.
    destruct (BookDoc.isActive b); cbn [negb]; [|reflexivity].
    by rewrite !list_page_run.
  - by rewrite get_reviews_run.
Qed.

Lemma book_reviews_agree_with_listing_witness :
  books_get.get_reviews 10 (mkListQuery None None (Some 11%N) None (Some 5) None None)
    (mkWorld voted [] [] 0%N)
  = reviews_get.get
      (for_book 10 (mkListQuery None None (Some 11%N) None (Some 5) None None))
      (mkWorld voted [] [] 0%N).
Proof.
  destruct (book_reviews_agree_with_listing 10
              (mkListQuery None None (Some 11%N) None (Some 5) None None)
              (mkWorld voted [] [] 0%N) voted_book) as [H _];
    [vm_compute; reflexivity|].
  unfold voted_book in H. cbn [BookDoc.isActive] in H. exact H.
Defined.


Lemma sumQ_bounds (l : list Q) :
  (forall x, In x l -> 1 <= x <= 5)%Q ->
  (inject_Z (Z.of_nat (length l)) <= sumQ l
   /\ sumQ l <= 5 * inject_Z (Z.of_nat (length l)))%Q.
Proof.
  induction l as [|x l IH]; intros H.
  - split; cbv; discriminate.
  - destruct (H x (or_introl eq_refl)) as [H1 H5].
    destruct IH as [IH1 IH5]; [intros y Hy; apply H; by right|].
    cbn [length sumQ fold_right]. fold (sumQ l).
    rewrite Nat2Z.inj_succ. unfold Z.succ. rewrite inject_Z_plus.
    change (inject_Z 1) with 1%Q. lra.
Qed.

Lemma mean_bounds (l : list Q) :
  l <> [] ->
  (forall x, In x l -> 1 <= x <= 5)%Q ->
  (1 <= sumQ l / inject_Z (Z.of_nat (length l)) <= 5)%Q.
Proof.
  intros Hne H. destruct (sumQ_bounds l H) as [H1 H5].
  assert (0 < inject_Z (Z.of_nat (length l)))%Q as Hpos.
  { change 0%Q with (inject_Z 0). rewrite <- Zlt_Qlt.
    destruct l; [done | cbn [length]; lia]. }
  split.
  - apply Qle_shift_div_l; [done | lra].
  - apply Qle_shift_div_r; [done | lra].
Qed.

Lemma round10_bounds (a : Q) :
  (1 <= a <= 5)%Q ->
  (1 <= inject_Z (Math_round (a * 10)) / 10 <= 5)%Q.
Proof.
  intros [H1 H5]. unfold Math_round.
  assert (10 <= Qfloor (a * 10 + (1 # 2)) <= 50) as [Hlo Hhi].
  { split.
    - assert (Qfloor 10 <= Qfloor (a * 10 + (1 # 2))) as H
        by (apply Qfloor_resp_le; lra).
      exact H.
    - assert (Qfloor (a * 10 + (1 # 2)) <= Qfloor (50 + (1 # 2))) as H
        by (apply Qfloor_resp_le; lra).
      exact H. }
  rewrite Zle_Qle in Hlo, Hhi.
  remember (inject_Z (Qfloor (a * 10 + (1 # 2)))) as f. clear Heqf.
  change (inject_Z 10) with 10%Q in Hlo. change (inject_Z 50) with 50%Q in Hhi.
  split.
  - apply Qle_shift_div_l; lra.
  - apply Qle_shift_div_r; lra.
Qed.






(** ** The book routes that write *)

Lemma book_find_update_first (id : ObjectId) (f : BookDoc.t -> BookDoc.t)
    (l : list BookDoc.t) (b : BookDoc.t) :
  BookDoc._id (f b) = BookDoc._id b ->
  List.find (fun x => N.eqb (BookDoc._id x) id) l = Some b ->
  List.find (fun x => N.eqb (BookDoc._id x) id) (Book.update_first id f l)
  = Some (f b).
Proof.
  intros Hid. induction l as [|x l IH]; simpl; [done|].
  destruct (N.eqb (BookDoc._id x) id) eqn:E; simpl.
  - intros [= ->]. by rewrite Hid, E.
  - rewrite E. exact IH.
Qed.

Lemma book_find_update_first_other (id id' : ObjectId) (f : BookDoc.t -> BookDoc.t)
    (l : list BookDoc.t) :
  (forall b, BookDoc._id (f b) = BookDoc._id b) -> id' <> id ->
  List.find (fun x => N.eqb (BookDoc._id x) id') (Book.update_first id f l)
  = List.find (fun x => N.eqb (BookDoc._id x) id') l.
Proof.
  intros Hid Hne. induction l as [|x l IH]; simpl; [done|].
  destruct (N.eqb_spec (BookDoc._id x) id) as [E|E]; simpl.
  - rewrite Hid. destruct (N.eqb_spec (BookDoc._id x) id'); [congruence | done].
  - by rewrite IH.
Qed.


(** What [save] does for a stored book whose assignments pass validation. *)
Lemma Book_save_update (o doc : BookDoc.t) (w : World) :
  Book.validate (Some o) doc = true ->
  Book.save (Some o) doc w
  = if Book.same_fields o doc
    then (Ok tt, mkWorld (db w) (log w ++ [BookSaved (BookDoc._id doc)])
                   (faults w) (clock w))
    else if hd false (faults w)
    then (Throw WriteError,
          mkWorld (db w) (log w ++ [BookSaveFailed (BookDoc._id doc)])
            (tl (faults w)) (clock w))
    else (Ok tt,
          mkWorld (Book.store_update (BookDoc._id doc) (Book.merge o doc) (db w))
            (log w ++ [BookSaved (BookDoc._id doc)]) (tl (faults w)) (clock w)).
Proof.
  intros Hv. unfold Book.save. rewrite Hv. cbn [negb].
  destruct (Book.same_fields o doc); [by monad|]. by rewrite write_eq.
Qed.



Lemma merge_self (o doc : BookDoc.t) :
  BookDoc._id doc = BookDoc._id o ->
  let m := Book.merge o doc o in
  BookDoc._id m = BookDoc._id doc
  /\ BookDoc.title m = BookDoc.title doc
  /\ BookDoc.author m = BookDoc.author doc
  /\ (BookDoc.averageRating m == BookDoc.averageRating doc)%Q
  /\ BookDoc.totalRatings m = BookDoc.totalRatings doc
  /\ BookDoc.totalReviews m = BookDoc.totalReviews doc
  /\ BookDoc.isActive m = BookDoc.isActive doc.
Proof.
  intros Hid. unfold Book.merge.
  cbn [BookDoc._id BookDoc.title BookDoc.author BookDoc.averageRating
       BookDoc.totalRatings BookDoc.totalReviews BookDoc.isActive].
  repeat apply conj.
  - done.
  - destruct (String.eqb_spec (BookDoc.title o) (BookDoc.title doc)); done.
  - destruct (String.eqb_spec (BookDoc.author o) (BookDoc.author doc)); done.
  - destruct (Qeq_bool _ _) eqn:E; [by apply Qeq_bool_iff | reflexivity].
  - destruct (Z.eqb_spec (BookDoc.totalRatings o) (BookDoc.totalRatings doc)); done.
  - destruct (Z.eqb_spec (BookDoc.totalReviews o) (BookDoc.totalReviews doc)); done.
  - destruct (BookDoc.isActive o), (BookDoc.isActive doc); done.
Qed.

Lemma same_fields_spec (o doc : BookDoc.t) :
  Book.same_fields o doc = true ->
  BookDoc.title o = BookDoc.title doc
  /\ BookDoc.author o = BookDoc.author doc
  /\ (BookDoc.averageRating o == BookDoc.averageRating doc)%Q
  /\ BookDoc.totalRatings o = BookDoc.totalRatings doc
  /\ BookDoc.totalReviews o = BookDoc.totalReviews doc
  /\ BookDoc.isActive o = BookDoc.isActive doc.
Proof.
  unfold Book.same_fields. rewrite !andb_true_iff. intros H. destruct_and!.
  repeat apply conj.
  - by apply String.eqb_eq.
  - by apply String.eqb_eq.
  - by apply Qeq_bool_iff.
  - by apply Z.eqb_eq.
  - by apply Z.eqb_eq.
  - by apply Bool.eqb_prop.
Qed.

Lemma Book_validate_spec (o doc : BookDoc.t) :
  Book.validate (Some o) doc = true <->
  (BookDoc.averageRating doc == BookDoc.averageRating o)%Q
  \/ (0 <= BookDoc.averageRating doc <= 5)%Q.
Proof.
  unfold Book.validate, Book.valid_averageRating.
  rewrite orb_true_iff, andb_true_iff, Qeq_bool_iff, !Qle_bool_iff.
  split; (intros [H|H]; [left; by symmetry | by right]).
Qed.



(** ** The client's copy: reviewsSlice *)

Lemma without_spec {Rest} (id : string) (l : list (reviewsSlice.Review Rest))
    (r : reviewsSlice.Review Rest) :
  In r (reviewsSlice.without id l) <-> In r l /\ reviewsSlice._id r <> id.
Proof.
  unfold reviewsSlice.without. rewrite filter_In, negb_true_iff.
  split; intros [H1 H2]; (split; [done|]).
  - intros E. apply String.eqb_eq in E. congruence.
  - by apply String.eqb_neq.
Qed.

Lemma without_twice {Rest} (id : string) (l : list (reviewsSlice.Review Rest)) :
  reviewsSlice.without id (reviewsSlice.without id l) = reviewsSlice.without id l.
Proof.
  unfold reviewsSlice.without. induction l as [|x l IH]; simpl; [done|].
  destruct (negb (reviewsSlice._id x =? id)%string) eqn:E; simpl; [|done].
  by rewrite E, IH.
Qed.

Lemma without_absent {Rest} (id : string) (l : list (reviewsSlice.Review Rest)) :
  (forall r, In r l -> reviewsSlice._id r <> id) -> reviewsSlice.without id l = l.
Proof.
  unfold reviewsSlice.without. induction l as [|x l IH]; intros H; simpl; [done|].
  destruct (String.eqb_spec (reviewsSlice._id x) id) as [E|E]; simpl.
  - destruct (H x (or_introl eq_refl) E).
  - rewrite IH; [done|]. intros r Hr. apply H. by right.
Qed.

(** X16. [deleteReview.fulfilled] and [removeReview] in the client's store.
    Either action drops from the list every review with the id and keeps
    all others, in their order; it clears [currentReview] exactly if that
    was the review deleted; it leaves filters and pagination as they were,
    so the [totalReviews] of the pagination is not decremented; dispatching
    the action a second time changes nothing more; and deleting a review
    right after [createReview.fulfilled] put it on top of a list that did
    not hold its id gives the list back. *)
Theorem slice_delete_forgets_the_review {Rest}
    (st : reviewsSlice.State Rest) (id : string) (a : reviewsSlice.Action Rest) :
  a = reviewsSlice.deleteReview_fulfilled id \/ a = reviewsSlice.removeReview id ->
  let st' := reviewsSlice.reducer st a in
  (forall r, In r (reviewsSlice.reviews st')
             <-> In r (reviewsSlice.reviews st) /\ reviewsSlice._id r <> id)
  /\ (forall r, reviewsSlice.currentReview st' = Some r
                <-> reviewsSlice.currentReview st = Some r
                    /\ reviewsSlice._id r <> id)
  /\ reviewsSlice.filters st' = reviewsSlice.filters st
  /\ reviewsSlice.pagination st' = reviewsSlice.pagination st
  /\ reviewsSlice.reducer st' a = st'
  /\ (forall p, reviewsSlice._id p = id ->
        (forall r, In r (reviewsSlice.reviews st) -> reviewsSlice._id r <> id) ->
        reviewsSlice.reviews
          (reviewsSlice.reducer
             (reviewsSlice.reducer st (reviewsSlice.createReview_fulfilled p)) a)
        = reviewsSlice.reviews st).
Proof.
  intros Ha st'.
  assert (forall r, reviewsSlice.current_if id (fun _ => None)
                      (reviewsSlice.currentReview st) = Some r
                    <-> reviewsSlice.currentReview st = Some r
                        /\ reviewsSlice._id r <> id) as Hcur.
  { intros r. unfold reviewsSlice.current_if.
    destruct (reviewsSlice.currentReview st) as [c|]; [|split; [done | by intros [? _]]].
    destruct (String.eqb_spec (reviewsSlice._id c) id) as [E|E].
    - split; [done|]. intros [[= ->] Hne]. done.
    - split; [intros [= ->]; done | by intros [? _]]. }
  assert (reviewsSlice.current_if id (fun _ => None)
            (reviewsSlice.current_if id (fun _ => None) (reviewsSlice.currentReview st))
          = reviewsSlice.current_if id (fun _ => None) (reviewsSlice.currentReview st))
    as Hcur2.
  { unfold reviewsSlice.current_if.
    destruct (reviewsSlice.currentReview st) as [c|]; [|done].
    destruct (reviewsSlice._id c =? id)%string eqn:E; [done|]. by rewrite E. }
  assert (forall p, reviewsSlice._id p = id ->
            (forall r, In r (reviewsSlice.reviews st) -> reviewsSlice._id r <> id) ->
            reviewsSlice.without id (p :: reviewsSlice.reviews st)
            = reviewsSlice.reviews st) as Hround.
  { intros p Hp Hfresh. unfold reviewsSlice.without. simpl.
    rewrite Hp, String.eqb_refl. simpl. by apply without_absent. }
  subst st'. destruct Ha as [-> | ->]; cbn [reviewsSlice.reducer];
    cbn [reviewsSlice.reviews reviewsSlice.currentReview reviewsSlice.filters
         reviewsSlice.pagination reviewsSlice.isLoading reviewsSlice.error].
  - split; [intros r; apply without_spec|]. split; [exact Hcur|].
    split; [done|]. split; [done|]. split; [by rewrite without_twice, Hcur2 | exact Hround].
  - split; [intros r; apply without_spec|]. split; [exact Hcur|].
    split; [done|]. split; [done|]. split; [by rewrite without_twice, Hcur2 | exact Hround].
Qed.

Lemma slice_delete_forgets_the_review_witness :
  reviewsSlice.reducer
    (reviewsSlice.reducer shown (reviewsSlice.deleteReview_fulfilled "r1"))
    (reviewsSlice.deleteReview_fulfilled "r1")
  = reviewsSlice.reducer shown (reviewsSlice.deleteReview_fulfilled "r1").
Proof.
  apply (slice_delete_forgets_the_review shown "r1"
           (reviewsSlice.deleteReview_fulfilled "r1")).
  left. reflexivity.
Defined.

Lemma replace_first_ids {Rest} (p : reviewsSlice.Review Rest)
    (l : list (reviewsSlice.Review Rest)) :
  map reviewsSlice._id (reviewsSlice.replace_first p l) = map reviewsSlice._id l.
Proof.
  induction l as [|x l IH]; simpl; [done|].
  destruct (String.eqb_spec (reviewsSlice._id x) (reviewsSlice._id p)) as [E|E]; simpl.
  - by rewrite E.
  - by rewrite IH.
Qed.

Lemma replace_first_absent {Rest} (p : reviewsSlice.Review Rest)
    (l : list (reviewsSlice.Review Rest)) :
  (forall r, In r l -> reviewsSlice._id r <> reviewsSlice._id p) ->
  reviewsSlice.replace_first p l = l.
Proof.
  induction l as [|x l IH]; intros H; simpl; [done|].
  destruct (String.eqb_spec (reviewsSlice._id x) (reviewsSlice._id p)) as [E|E].
  - destruct (H x (or_introl eq_refl) E).
  - rewrite IH; [done|]. intros r Hr. apply H. by right.
Qed.

Lemma replace_first_In {Rest} (p r : reviewsSlice.Review Rest)
    (l : list (reviewsSlice.Review Rest)) :
  NoDup (map reviewsSlice._id l) ->
  In r (reviewsSlice.replace_first p l) <->
  (r = p /\ In (reviewsSlice._id p) (map reviewsSlice._id l))
  \/ (In r l /\ reviewsSlice._id r <> reviewsSlice._id p).
Proof.
  induction l as [|x l IH]; simpl; intros Hnd.
  - split; [done | intros [[_ []]|[[] _]]].
  - apply NoDup_cons in Hnd as [Hx Hnd]. specialize (IH Hnd).
    destruct (String.eqb_spec (reviewsSlice._id x) (reviewsSlice._id p)) as [E|E]; simpl.
    + split.
      * intros [<-|Hr]; [left; split; [done | by left]|].
        right. split; [by right|]. intros E'. apply Hx.
        rewrite E, <- E'. apply list_elem_of_In, in_map, Hr.
      * intros [[-> _]|[[->|Hr] Hne]]; [by left | done | by right].
    + rewrite IH. split.
      * intros [<-|[[-> Hin]|[Hr Hne]]].
        -- right. split; [by left | done].
        -- left. split; [done | by right].
        -- right. split; [by right | done].
      * intros [[-> [Hin|Hin]]|[[->|Hr] Hne]].
        -- done.
        -- right. left. done.
        -- by left.
        -- right. right. done.
Qed.

(** X17. [updateReview.fulfilled] and [updateReviewInList] in the client's
    store. The list keeps its ids, in their order, so its length too; when
    the ids of the list are distinct, the list afterwards holds the payload
    in place of the review with its id and every other review as it was;
    a payload whose id is not in the list is not added; [currentReview]
    becomes the payload exactly if it had the payload's id; filters and
    pagination stay. *)
Theorem slice_update_replaces_in_place {Rest}
    (st : reviewsSlice.State Rest) (p : reviewsSlice.Review Rest)
    (a : reviewsSlice.Action Rest) :
  a = reviewsSlice.updateReview_fulfilled p \/ a = reviewsSlice.updateReviewInList p ->
  let st' := reviewsSlice.reducer st a in
  map reviewsSlice._id (reviewsSlice.reviews st')
  = map reviewsSlice._id (reviewsSlice.reviews st)
  /\ (NoDup (map reviewsSlice._id (reviewsSlice.reviews st)) ->
      forall r, In r (reviewsSlice.reviews st') <->
        (r = p /\ In (reviewsSlice._id p)
                     (map reviewsSlice._id (reviewsSlice.reviews st)))
        \/ (In r (reviewsSlice.reviews st)
            /\ reviewsSlice._id r <> reviewsSlice._id p))
  /\ ((forall r, In r (reviewsSlice.reviews st) ->
         reviewsSlice._id r <> reviewsSlice._id p) ->
      reviewsSlice.reviews st' = reviewsSlice.reviews st)
  /\ (forall c, reviewsSlice.currentReview st = Some c ->
        reviewsSlice.currentReview st'
        = Some (if String.eqb (reviewsSlice._id c) (reviewsSlice._id p) then p else c))
  /\ (reviewsSlice.currentReview st = None -> reviewsSlice.currentReview st' = None)
  /\ reviewsSlice.filters st' = reviewsSlice.filters st
  /\ reviewsSlice.pagination st' = reviewsSlice.pagination st.
Proof.
  intros Ha st'. subst st'.
  destruct Ha as [-> | ->]; cbn [reviewsSlice.reducer];
    cbn [reviewsSlice.reviews reviewsSlice.currentReview reviewsSlice.filters
         reviewsSlice.pagination];
    (split; [apply replace_first_ids|]);
    (split; [intros Hnd r; by apply replace_first_In|]);
    (split; [apply replace_first_absent|]);
    (split; [intros c ->; cbn;
             by destruct (reviewsSlice._id c =? reviewsSlice._id p)%string|]);
    (split; [by intros ->|]); done.
Qed.

Lemma slice_update_replaces_in_place_witness :
  map reviewsSlice._id
    (reviewsSlice.reviews
       (reviewsSlice.reducer shown
          (reviewsSlice.updateReview_fulfilled (seen "r2" 7 []))))
  = map reviewsSlice._id (reviewsSlice.reviews shown).
Proof.
  apply (slice_update_replaces_in_place shown (seen "r2" 7 [])
           (reviewsSlice.updateReview_fulfilled (seen "r2" 7 []))).
  left. reflexivity.
Defined.

Lemma voted_spec (n : Z) (on : bool) (v : reviewsSlice.Votes) :
  reviewsSlice.count (reviewsSlice.voted n on v) = n
  /\ (In "current-user"%string (reviewsSlice.users (reviewsSlice.voted n on v))
      <-> on = true)
  /\ (forall u, u <> "current-user"%string ->
        (In u (reviewsSlice.users (reviewsSlice.voted n on v))
         <-> In u (reviewsSlice.users v)))
  /\ (on = true ->
      length (reviewsSlice.users (reviewsSlice.voted n on v))
      = S (length (reviewsSlice.users v))).
Proof.
  unfold reviewsSlice.voted. cbn [reviewsSlice.count reviewsSlice.users].
  split; [done|]. destruct on.
  - split; [|split].
    + split; [done|]. intros _. apply in_or_app. right. by left.
    + intros u Hu. rewrite in_app_iff. split; [|by left].
      intros [H|[H|[]]]; [done | congruence].
    + intros _. rewrite length_app. simpl. lia.
  - split; [|split].
    + split; [|done]. intros H. apply filter_In in H as [_ H].
      by rewrite String.eqb_refl in H.
    + intros u Hu. rewrite filter_In, negb_true_iff. split; [by intros [? _]|].
      intros H. split; [done|]. by apply String.eqb_neq.
    + done.
Qed.

Lemma change_first_Forall2 {Rest} (id : string)
    (f : reviewsSlice.Review Rest -> reviewsSlice.Review Rest)
    (l : list (reviewsSlice.Review Rest)) :
  NoDup (map reviewsSlice._id l) ->
  Forall2 (fun r r' => if String.eqb (reviewsSlice._id r) id then r' = f r else r' = r)
          l (reviewsSlice.change_first id f l).
Proof.
  induction l as [|x l IH]; simpl; intros Hnd; [constructor|].
  apply NoDup_cons in Hnd as [Hx Hnd].
  destruct (String.eqb_spec (reviewsSlice._id x) id) as [E|E].
  - constructor; [by rewrite <- E, String.eqb_refl|].
    clear IH. induction l as [|y l IH]; [constructor|].
    simpl in Hx, Hnd. apply NoDup_cons in Hnd as [_ Hnd].
    constructor.
    + destruct (String.eqb_spec (reviewsSlice._id y) id) as [Ey|Ey]; [|done].
      exfalso. apply Hx. rewrite elem_of_cons. left. congruence.
    + apply IH; [|done]. intros H. apply Hx. rewrite elem_of_cons. by right.
  - constructor; [|by apply IH].
    by destruct (String.eqb_spec (reviewsSlice._id x) id).
Qed.

Lemma Forall2_weaken {A B} (P Q : A -> B -> Prop) (l : list A) (l' : list B) :
  (forall a b, P a b -> Q a b) -> Forall2 P l l' -> Forall2 Q l l'.
Proof. intros H HF. induction HF; constructor; auto. Qed.

(** X18. [likeReview.fulfilled] and [markHelpful.fulfilled] in the client's
    store, for a list with distinct ids. The review with the answer's id, in
    the list and in [currentReview], takes the count the server sent; the
    placeholder user ['current-user'] is in its voter list afterwards exactly
    if the server answered that the vote is set; every other voter, the
    other ledger and the other fields stay; an answer that the vote is set
    adds one entry even if the placeholder is listed already, so the list
    can hold it twice; every other review and the rest of the state are
    untouched. *)
Theorem slice_vote_takes_server_count {Rest}
    (st : reviewsSlice.State Rest) (id : string) (n : Z) (on : bool) :
  NoDup (map reviewsSlice._id (reviewsSlice.reviews st)) ->
  vote_shown reviewsSlice.likes reviewsSlice.helpful id n on st
    (reviewsSlice.reducer st (reviewsSlice.likeReview_fulfilled id n on))
  /\ vote_shown reviewsSlice.helpful reviewsSlice.likes id n on st
       (reviewsSlice.reducer st (reviewsSlice.markHelpful_fulfilled id n on)).
Proof.
  intros Hnd.
  assert (forall r : reviewsSlice.Review Rest,
            shows_vote reviewsSlice.likes reviewsSlice.helpful n on r
              (reviewsSlice.set_likes n on r)) as Hl.
  { intros r. unfold shows_vote, reviewsSlice.set_likes.
    cbn [reviewsSlice._id reviewsSlice.rest reviewsSlice.helpful reviewsSlice.likes].
    split; [done|]. split; [done|]. split; [done|]. apply voted_spec. }
  assert (forall r : reviewsSlice.Review Rest,
            shows_vote reviewsSlice.helpful reviewsSlice.likes n on r
              (reviewsSlice.set_helpful n on r)) as Hh.
  { intros r. unfold shows_vote, reviewsSlice.set_helpful.
    cbn [reviewsSlice._id reviewsSlice.rest reviewsSlice.helpful reviewsSlice.likes].
    split; [done|]. split; [done|]. split; [done|]. apply voted_spec. }
  split; unfold vote_shown; cbn [reviewsSlice.reducer];
    cbn [reviewsSlice.reviews reviewsSlice.currentReview reviewsSlice.filters
         reviewsSlice.pagination reviewsSlice.isLoading reviewsSlice.error].
  - split.
    + eapply Forall2_weaken; [|by apply change_first_Forall2].
      intros r r'. cbv beta. destruct (reviewsSlice._id r =? id)%string; [|done].
      intros ->. apply Hl.
    + split; [|done]. unfold reviewsSlice.current_if.
      destruct (reviewsSlice.currentReview st) as [c|]; [|done].
      destruct (reviewsSlice._id c =? id)%string eqn:E; cbn; rewrite ?E;
        [apply Hl | done].
  - split.
    + eapply Forall2_weaken; [|by apply change_first_Forall2].
      intros r r'. cbv beta. destruct (reviewsSlice._id r =? id)%string; [|done].
      intros ->. apply Hh.
    + split; [|done]. unfold reviewsSlice.current_if.
      destruct (reviewsSlice.currentReview st) as [c|]; [|done].
      destruct (reviewsSlice._id c =? id)%string eqn:E; cbn; rewrite ?E;
        [apply Hh | done].
Qed.

Lemma slice_vote_takes_server_count_witness :
  vote_shown reviewsSlice.likes reviewsSlice.helpful "r1" 2 true shown
    (reviewsSlice.reducer shown (reviewsSlice.likeReview_fulfilled "r1" 2 true)).
Proof.
  apply (slice_vote_takes_server_count shown "r1" 2 true).
  apply (bool_decide_unpack _). vm_compute. exact I.
Defined.

Lemma reducer_quiet {Rest} (st : reviewsSlice.State Rest)
    (a : reviewsSlice.Action Rest) :
  (reviewsSlice.isLoading st = true -> reviewsSlice.error st = None) ->
  reviewsSlice.isLoading (reviewsSlice.reducer st a) = true ->
  reviewsSlice.error (reviewsSlice.reducer st a) = None.
Proof. intros H. destruct a; cbn; auto; discriminate. Qed.

(** X19. No error while loading, in the client's store. If the state does
    not hold an error while [isLoading] is set, as is the case for the
    initial state, then after any sequence of actions it still does not:
    every pending action clears the error, every rejected action that sets
    one clears [isLoading], and no other action sets one without clearing
    it. *)
Theorem slice_never_loading_with_error {Rest}
    (st : reviewsSlice.State Rest) (actions : list (reviewsSlice.Action Rest)) :
  (reviewsSlice.isLoading st = true -> reviewsSlice.error st = None) ->
  reviewsSlice.isLoading (reviewsSlice.dispatch_all st actions) = true ->
  reviewsSlice.error (reviewsSlice.dispatch_all st actions) = None.
Proof.
  unfold reviewsSlice.dispatch_all. revert st.
  induction actions as [|a actions IH]; intros st H; [exact H|].
  simpl. apply IH. by apply reducer_quiet.
Qed.

Lemma slice_never_loading_with_error_witness :
  reviewsSlice.error
    (reviewsSlice.dispatch_all shown
       [reviewsSlice.deleteReview_rejected "Failed to delete review";
        reviewsSlice.fetchReviews_pending])
  = None.
Proof.
  apply (slice_never_loading_with_error shown
           [reviewsSlice.deleteReview_rejected "Failed to delete review";
            reviewsSlice.fetchReviews_pending]).
  - discriminate.
  - reflexivity.
Defined.

(** ** What the routes keep of books and users *)

Section Keeps.
Variable R : Store -> Store -> Prop.
Hypothesis R_refl : forall s, R s s.
Hypothesis R_trans : forall s1 s2 s3, R s1 s2 -> R s2 s3 -> R s1 s3.

Lemma keeps_ret {A} (a : A) : keeps R (ret a).
Proof. intros w. apply R_refl. Qed.

Lemma keeps_throw {A} (e : Error) : keeps R (@throw A e).
Proof. intros w. apply R_refl. Qed.

Lemma keeps_emit (e : Event) : keeps R (emit e).
Proof. intros w. apply R_refl. Qed.

Lemma keeps_get_db : keeps R get_db.
Proof. intros w. apply R_refl. Qed.

Lemma keeps_now : keeps R now.
Proof. intros w. apply R_refl. Qed.

Lemma keeps_bind {A B} (m : M A) (k : A -> M B) :
  keeps R m -> (forall a, keeps R (k a)) -> keeps R (bind m k).
Proof.
  intros Hm Hk w. unfold bind. specialize (Hm w).
  destruct (m w) as [[a|e] w1]; cbn [snd] in *; [|done].
  eapply R_trans; [exact Hm | apply Hk].
Qed.

Lemma keeps_try_catch {A} (m : M A) (h : Error -> M A) :
  keeps R m -> (forall e, keeps R (h e)) -> keeps R (try_catch m h).
Proof.
  intros Hm Hh w. unfold try_catch. specialize (Hm w).
  destruct (m w) as [[a|e] w1]; cbn [snd] in *; [done|].
  eapply R_trans; [exact Hm | apply Hh].
Qed.

Lemma keeps_write (f : Store -> Store) (ok bad : Event) :
  (forall s, R s (f s)) -> keeps R (write f ok bad).
Proof.
  intros Hf w. rewrite write_eq. destruct (hd false (faults w)); cbn; auto.
Qed.

Lemma keeps_findById_review (id : ObjectId) : keeps R (Review.findById id).
Proof. intros w. apply R_refl. Qed.

Lemma keeps_findOne (u b : ObjectId) : keeps R (Review.findOne u b).
Proof. intros w. apply R_refl. Qed.

Lemma keeps_findById_book (id : ObjectId) : keeps R (Book.findById id).
Proof. intros w. apply R_refl. Qed.

End Keeps.

Lemma book_kept_refl (b : BookDoc.t) : book_kept b b.
Proof. unfold book_kept. repeat split; auto. Qed.

Lemma book_kept_trans (a b c : BookDoc.t) :
  book_kept a b -> book_kept b c -> book_kept a c.
Proof.
  unfold book_kept.
  intros (A1 & A2 & A3 & A4 & A5 & A6 & A7) (B1 & B2 & B3 & B4 & B5 & B6 & B7).
  repeat apply conj; try congruence.
  - destruct B6 as [E|E]; [rewrite E; exact A6 | by right].
  - destruct B7 as [E|E]; [rewrite E; exact A7 | by right].
Qed.

Lemma user_kept_refl (u : UserDoc.t) : user_kept u u.
Proof. unfold user_kept. done. Qed.

Lemma user_kept_trans (a b c : UserDoc.t) :
  user_kept a b -> user_kept b c -> user_kept a c.
Proof. unfold user_kept. intros Hab Hbc. destruct_and!. repeat split; congruence. Qed.

Lemma Forall2_refl_on {A} (P : A -> A -> Prop) (l : list A) :
  (forall a, P a a) -> Forall2 P l l.
Proof. intros H. induction l; constructor; auto. Qed.

Lemma Forall2_trans_on {A} (P : A -> A -> Prop) (l1 l2 l3 : list A) :
  (forall a b c, P a b -> P b c -> P a c) ->
  Forall2 P l1 l2 -> Forall2 P l2 l3 -> Forall2 P l1 l3.
Proof.
  intros H H12. revert l3. induction H12; intros l3 H23; inversion H23; subst;
    constructor; eauto.
Qed.

Lemma catalogue_kept_refl (s : Store) : catalogue_kept s s.
Proof.
  split; apply Forall2_refl_on; [apply book_kept_refl | apply user_kept_refl].
Qed.

Lemma catalogue_kept_trans (s1 s2 s3 : Store) :
  catalogue_kept s1 s2 -> catalogue_kept s2 s3 -> catalogue_kept s1 s3.
Proof.
  intros [B12 U12] [B23 U23]. split.
  - eapply Forall2_trans_on; [apply book_kept_trans | exact B12 | exact B23].
  - eapply Forall2_trans_on; [apply user_kept_trans | exact U12 | exact U23].
Qed.

Lemma book_update_first_Forall2 (P : BookDoc.t -> BookDoc.t -> Prop)
    (id : ObjectId) (f : BookDoc.t -> BookDoc.t) (l : list BookDoc.t) :
  (forall b, P b b) -> (forall b, P b (f b)) ->
  Forall2 P l (Book.update_first id f l).
Proof.
  intros Hrefl Hf. induction l as [|x l IH]; simpl; [constructor|].
  destruct (N.eqb (BookDoc._id x) id); constructor; auto.
  by apply Forall2_refl_on.
Qed.

Lemma user_update_first_Forall2 (P : UserDoc.t -> UserDoc.t -> Prop)
    (id : ObjectId) (f : UserDoc.t -> UserDoc.t) (l : list UserDoc.t) :
  (forall u, P u u) -> (forall u, P u (f u)) ->
  Forall2 P l (User.update_first id f l).
Proof.
  intros Hrefl Hf. induction l as [|x l IH]; simpl; [constructor|].
  destruct (N.eqb (UserDoc._id x) id); constructor; auto.
  by apply Forall2_refl_on.
Qed.

(** The document the aggregator saves, merged into any stored book. *)
Lemma rated_merge_kept (b x : BookDoc.t) (stats : list Stats) :
  Book.validate (Some b) (rated b stats) = true ->
  (forall st, In st stats -> 0 <= totalRatings st) ->
  book_kept x (Book.merge b (rated b stats) x).
Proof.
  intros Hv Hpos.
  assert (BookDoc.title (rated b stats) = BookDoc.title b
          /\ BookDoc.author (rated b stats) = BookDoc.author b
          /\ BookDoc.totalReviews (rated b stats) = BookDoc.totalReviews b
          /\ BookDoc.isActive (rated b stats) = BookDoc.isActive b
          /\ 0 <= BookDoc.totalRatings (rated b stats)) as (Ht & Ha & Hr & Hi & Hn).
  { unfold rated. destruct stats as [|st stats]; cbn; repeat split; try done.
    apply Hpos. by left. }
  apply Book_validate_spec in Hv.
  unfold book_kept, Book.merge.
  cbn [BookDoc._id BookDoc.title BookDoc.author BookDoc.averageRating
       BookDoc.totalRatings BookDoc.totalReviews BookDoc.isActive].
  rewrite Ht, Ha, Hr, Hi, !String.eqb_refl, Z.eqb_refl, Bool.eqb_reflx.
  repeat apply conj; try done.
  - destruct (Qeq_bool _ _) eqn:E; [by left|]. right.
    destruct Hv as [Hv|Hv]; [|done].
    symmetry in Hv. apply Qeq_bool_iff in Hv. congruence.
  - destruct (_ =? _); [by left | by right].
Qed.

Lemma aggregate_counts (rs : list ReviewDoc.t) (id : ObjectId) (st : Stats) :
  In st (aggregate rs id) -> 0 <= totalRatings st.
Proof.
  unfold aggregate, group_stats. destruct (map _ _) as [|q l]; [done|].
  intros [<-|[]]. cbn [totalRatings]. lia.
Qed.

Lemma keeps_updateAverageRating (b : BookDoc.t) :
  keeps catalogue_kept (Book.updateAverageRating b).
Proof.
  intros w. unfold Book.updateAverageRating. unfold bind, emit, get_db.
  cbn [db log faults clock].
  set (stats := aggregate _ _).
  destruct (Book.validate (Some b) (rated b stats)) eqn:Hv.
  - rewrite Book_save_update by done. cbn [db log faults clock].
    destruct (Book.same_fields _ _); [apply catalogue_kept_refl|].
    destruct (hd false (faults w)); [apply catalogue_kept_refl|].
    cbn [snd db]. split; cbn [Books Users Book.store_update].
    + apply book_update_first_Forall2; [apply book_kept_refl|].
      intros x. apply rated_merge_kept; [done|]. apply aggregate_counts.
    + apply Forall2_refl_on, user_kept_refl.
  - unfold Book.save. rewrite Hv. cbn [negb]. monad. apply catalogue_kept_refl.
Qed.

Lemma keeps_inc (id : ObjectId) (d : Z) :
  keeps catalogue_kept (User.findByIdAndUpdate_inc id d).
Proof.
  apply (keeps_write _ catalogue_kept_refl). intros s.
  split; cbn [Books Users User.store_update].
  - apply Forall2_refl_on, book_kept_refl.
  - apply user_update_first_Forall2; [apply user_kept_refl|]. intros u. done.
Qed.

Ltac keeps_step R_refl R_trans :=
  match goal with
  | |- keeps _ (bind _ _) => apply (keeps_bind _ R_trans); [|intros ?]
  | |- keeps _ (try_catch _ _) => apply (keeps_try_catch _ R_trans); [|intros ?]
  | |- keeps _ (ret _) => apply (keeps_ret _ R_refl)
  | |- keeps _ (throw _) => apply (keeps_throw _ R_refl)
  | |- keeps _ (emit _) => apply (keeps_emit _ R_refl)
  | |- keeps _ get_db => apply (keeps_get_db _ R_refl)
  | |- keeps _ now => apply (keeps_now _ R_refl)
  | |- keeps _ (Review.findById _) => apply (keeps_findById_review _ R_refl)
  | |- keeps _ (Review.findOne _ _) => apply (keeps_findOne _ R_refl)
  | |- keeps _ (Book.findById _) => apply (keeps_findById_book _ R_refl)
  | |- keeps _ (reviews.respond _ _) => apply (keeps_ret _ R_refl)
  | |- keeps _ (books.respond _ _) => apply (keeps_ret _ R_refl)
  | |- keeps _ (if ?b then _ else _) => destruct b
  | |- keeps _ (match ?x with _ => _ end) => destruct x
  end.

Lemma keeps_review_write (f : Store -> Store) (ok bad : Event) :
  (forall s, Books (f s) = Books s /\ Users (f s) = Users s) ->
  keeps catalogue_kept (write f ok bad).
Proof.
  intros Hf. apply (keeps_write _ catalogue_kept_refl). intros s.
  destruct (Hf s) as [HB HU]. unfold catalogue_kept. rewrite HB, HU.
  apply catalogue_kept_refl.
Qed.

Lemma keeps_review_save (orig : option ReviewDoc.t) (doc : ReviewDoc.t) :
  keeps catalogue_kept (Review.save orig doc).
Proof.
  unfold Review.save, Review.pre_save.
  repeat first
    [ keeps_step catalogue_kept_refl catalogue_kept_trans
    | apply keeps_updateAverageRating
    | apply keeps_review_write; intros s; split; reflexivity ].
Qed.

Lemma keeps_toggle (review : ReviewDoc.t) (u : ObjectId) :
  keeps catalogue_kept (Review.markHelpful review u)
  /\ keeps catalogue_kept (Review.toggleLike review u).
Proof.
  split; unfold Review.markHelpful, Review.toggleLike; cbv zeta;
    repeat first
      [ keeps_step catalogue_kept_refl catalogue_kept_trans
      | apply keeps_review_save ].
Qed.

(** Every review route keeps the catalogue. *)
Lemma keeps_review_routes (c : Call) :
  is_review_call c = true -> keeps catalogue_kept (handler c).
Proof.
  destruct c; try discriminate; intros _; unfold handler;
    unfold reviews.post, reviews.put, reviews.delete, reviews.post_helpful,
      reviews.post_like;
    repeat first
      [ keeps_step catalogue_kept_refl catalogue_kept_trans
      | apply keeps_updateAverageRating
      | apply keeps_review_save
      | apply keeps_inc
      | apply keeps_toggle ].
Qed.

Lemma after_db (r : Request) (s : Store) :
  after r s
  = db (handler (call r) (mkWorld s [] (req_faults r) (req_time r))).2.
Proof.
  unfold after, serve. by destruct (handler _ _) as [[resp|e] w].
Qed.

Lemma catalogue_run (rs : list Request) (s : Store) :
  Forall (fun r => is_review_call (call r) = true) rs ->
  catalogue_kept s (run rs s).
Proof.
  revert s. induction rs as [|r rs IH]; intros s Hrs; [apply catalogue_kept_refl|].
  apply Forall_cons in Hrs as [Hr Hrs]. rewrite run_cons.
  eapply catalogue_kept_trans; [|by apply IH].
  rewrite after_db.
  exact (keeps_review_routes (call r) Hr (mkWorld s [] (req_faults r) (req_time r))).
Qed.

(** X20. What the review routes leave alone. Through any sequence of
    requests to the review routes (create, update, delete, helpful, like),
    with or without store failures, no book and no user is added or
    removed; every book keeps its id, title, author, [totalReviews] and
    [isActive], so [totalReviews] is never maintained by these routes; an
    [averageRating] that changed is between 0 and 5 and a [totalRatings]
    that changed is not negative; every user keeps its id, role and
    [isActive]. *)
Theorem review_routes_keep_the_catalogue (s : Store) (rs : list Request) :
  Forall (fun r => is_review_call (call r) = true) rs ->
  Forall2 book_kept (Books s) (Books (run rs s))
  /\ Forall2 user_kept (Users s) (Users (run rs s))
  /\ length (Books (run rs s)) = length (Books s)
  /\ length (Users (run rs s)) = length (Users s)
  /\ map BookDoc.totalReviews (Books (run rs s)) = map BookDoc.totalReviews (Books s).
Proof.
  intros Hrs. destruct (catalogue_run rs s Hrs) as [HB HU].
  split; [done|]. split; [done|]. split; [|split].
  - symmetry. by eapply Forall2_length.
  - symmetry. by eapply Forall2_length.
  - clear HU. induction HB as [|b b' l l' Hb HB IH]; [done|].
    simpl. rewrite IH. destruct Hb as (_ & _ & _ & -> & _). done.
Qed.

Lemma review_routes_keep_the_catalogue_witness :
  map BookDoc.totalReviews
    (Books (run [alice_reviews; carol_reviews; alice_deletes; carol_votes] library))
  = map BookDoc.totalReviews (Books library).
Proof.
  apply (review_routes_keep_the_catalogue library
           [alice_reviews; carol_reviews; alice_deletes; carol_votes]).
  repeat constructor.
Defined.

Lemma range_kept_refl (s : Store) : range_kept s s.
Proof. by intros H. Qed.

Lemma range_kept_trans (s1 s2 s3 : Store) :
  range_kept s1 s2 -> range_kept s2 s3 -> range_kept s1 s3.
Proof. unfold range_kept. auto. Qed.

Lemma catalogue_range (s s' : Store) : catalogue_kept s s' -> range_kept s s'.
Proof.
  intros [HB _] Hin. unfold averages_in_range in *.
  induction HB as [|b b' l l' Hb HB IH]; [done|].
  intros x [<-|Hx].
  - destruct Hb as (_ & _ & _ & _ & _ & [E|E] & _); [|done].
    rewrite E. apply Hin. by left.
  - apply IH; [|done]. intros y Hy. apply Hin. by right.
Qed.

Lemma In_book_update_first (id : ObjectId) (f : BookDoc.t -> BookDoc.t)
    (l : list BookDoc.t) (b : BookDoc.t) :
  In b (Book.update_first id f l) -> In b l \/ exists x, In x l /\ b = f x.
Proof.
  induction l as [|x l IH]; simpl; [done|].
  destruct (N.eqb (BookDoc._id x) id); simpl.
  - intros [<-|H]; [right; exists x; split; [by left | done] | left; by right].
  - intros [<-|H]; [left; by left|].
    destruct (IH H) as [H'|(y & Hy & ->)]; [left; by right|].
    right. exists y. split; [by right | done].
Qed.

Lemma keeps_range_Book_save (orig : option BookDoc.t) (doc : BookDoc.t) :
  keeps range_kept (Book.save orig doc).
Proof.
  intros w. destruct (Book.validate orig doc) eqn:Hv.
  - destruct orig as [o|].
    + rewrite Book_save_update by done.
      destruct (Book.same_fields o doc); [apply range_kept_refl|].
      destruct (hd false (faults w)); [apply range_kept_refl|].
      cbn [snd db]. intros Hin b Hb. cbn [Books Book.store_update] in Hb.
      apply In_book_update_first in Hb as [Hb|(x & Hx & ->)]; [by apply Hin|].
      unfold Book.merge. cbn [BookDoc.averageRating].
      destruct (Qeq_bool _ _) eqn:E; [by apply Hin|].
      apply Book_validate_spec in Hv as [Hv|Hv]; [|done].
      symmetry in Hv. apply Qeq_bool_iff in Hv. congruence.
    + unfold Book.save. rewrite Hv. cbn [negb]. unfold bind, get_db. cbn [db].
      destruct (existsb _ _); [monad; apply range_kept_refl|].
      rewrite write_eq. destruct (hd false (faults w)); [apply range_kept_refl|].
      cbn [snd db]. intros Hin b Hb. cbn [Books Book.store_insert] in Hb.
      apply in_app_or in Hb as [Hb|[<-|[]]]; [by apply Hin|].
      unfold Book.validate, Book.valid_averageRating in Hv.
      by rewrite andb_true_iff, !Qle_bool_iff in Hv.
  - unfold Book.save. rewrite Hv. cbn [negb]. monad. apply range_kept_refl.
Qed.

Lemma keeps_range_routes (c : Call) : keeps range_kept (handler c).
Proof.
  destruct (is_review_call c) eqn:Hc.
  - intros w. apply catalogue_range. exact (keeps_review_routes c Hc w).
  - destruct c; try discriminate; unfold handler;
      unfold books.post, books.put, books.delete;
      repeat first
        [ keeps_step range_kept_refl range_kept_trans
        | apply keeps_range_Book_save ].
Qed.

(** X21. The bounds of [averageRating], as an invariant. If every stored
    book has its [averageRating] between 0 and 5, then so has every book
    stored after any sequence of requests to the review routes and the book
    routes, with or without store failures: whatever the aggregator
    computes and whatever an administrator sends is validated before it is
    written, and an invalid value is never stored. *)
Theorem averages_stay_in_range (s : Store) (rs : list Request) :
  averages_in_range s -> averages_in_range (run rs s).
Proof.
  revert s. induction rs as [|r rs IH]; intros s H; [done|].
  rewrite run_cons. apply IH. rewrite after_db.
  by apply (keeps_range_routes (call r) (mkWorld s [] (req_faults r) (req_time r))).
Qed.

Lemma averages_stay_in_range_witness :
  averages_in_range
    (run [alice_reviews; request (PutBook 10 (sends (Some 9%Q) None None None)) 2;
          carol_reviews] library).
Proof.
  apply (averages_stay_in_range library
           [alice_reviews; request (PutBook 10 (sends (Some 9%Q) None None None)) 2;
            carol_reviews]).
  intros b [<-|[]]. split; discriminate.
Defined.

(** ** The review counter of the users *)

Lemma Book_save_users (orig : option BookDoc.t) (doc : BookDoc.t) (w : World) :
  Users (db (Book.save orig doc w).2) = Users (db w).
Proof.
  unfold Book.save. destruct (negb (Book.validate orig doc)); [by monad|].
  destruct orig as [o|].
  - destruct (Book.same_fields o doc); [by monad|].
    rewrite write_eq. by destruct (hd false (faults w)).
  - unfold bind, get_db. reduce. destruct (existsb _ _); [by monad|].
    rewrite write_eq. by destruct (hd false (faults w)).
Qed.

(** X22. The review counter moves with the answer, and only then. Whatever
    the store and the failures of its writes, a request changes the users in
    exactly one of two ways: a create that is answered 201 adds 1 to the
    [reviewsCount] of the requester, and a delete that is answered 200
    subtracts 1 from the [reviewsCount] of the review's author, with no
    test of the value it had; every other request, and every create or
    delete answered otherwise, leaves every user as it was, also when the
    review itself had been written before a later write failed. *)
Theorem review_counter_moves_with_the_answer (r : Request) (s : Store) :
  Users (after r s)
  = match counted (call r) (status (response r s)) s with
    | Some (u, d) => User.update_first u (UserDoc.inc_reviewsCount d) (Users s)
    | None => Users s
    end.
Proof.
  destruct r as [c fs t].
  destruct c as [u oid body|u id body|u id|u id|u id|oid body|id body|id];
    unfold counted; cbn [call].
  - handlers.
    destruct (List.find _ (Books s)) as [b|]; reduce; [|done].
    destruct (BookDoc.isActive b); reduce; [|done].
    destruct (List.find _ (Reviews s)); reduce; [done|].
    unfold now. reduce. save_step; [|cbn; congruence].
    agg_step; [|cbn; congruence]. inc_step; cbn; congruence.
  - handlers.
    destruct (List.find _ (Reviews s)) as [review|]; reduce; [|done].
    destruct (ReviewDoc.isActive review); reduce; [|done].
    destruct (reviews.denied review u); reduce; [done|].
    save_step; [|cbn; congruence].
    destruct (u_rating body); reduce; [|cbn; congruence].
    destruct (List.find _ (Books (db w))); reduce; [|cbn; congruence].
    agg_step; cbn; congruence.
  - unfold review_by_id. handlers.
    destruct (List.find _ (Reviews s)) as [review|] eqn:Hfind; reduce; [|done].
    destruct (ReviewDoc.isActive review); reduce; [|done].
    destruct (reviews.denied review u); reduce; [done|].
    save_step; [|cbn; congruence].
    assert (ReviewDoc.user a = ReviewDoc.user review) as Hu.
    { destruct Hres as (_ & _ & [(_ & -> & _)|(_ & -> & _)]); done. }
    destruct (List.find _ (Books (db w))); reduce.
    + agg_step; [|cbn; congruence]. inc_step; cbn; congruence.
    + inc_step; cbn; congruence.
  - handlers.
    destruct (List.find _ (Reviews s)) as [review|]; reduce; [|done].
    destruct (ReviewDoc.isActive review); reduce; [|done].
    unfold Review.markHelpful. cbv zeta. unfold bind, ret.
    save_step; cbn; congruence.
  - handlers.
    destruct (List.find _ (Reviews s)) as [review|]; reduce; [|done].
    destruct (ReviewDoc.isActive review); reduce; [|done].
    unfold Review.toggleLike. cbv zeta. unfold bind, ret.
    save_step; cbn; congruence.
  - handlers.
    match goal with |- context [Book.save ?o ?d ?w] =>
      pose proof (Book_save_users o d w) as H;
      destruct (Book.save o d w) as [[[]|e] w'] end; by reduce.
  - handlers. destruct (List.find _ (Books s)); reduce; [|done].
    match goal with |- context [Book.save ?o ?d ?w] =>
      pose proof (Book_save_users o d w) as H;
      destruct (Book.save o d w) as [[[]|e] w'] end; by reduce.
  - handlers. destruct (List.find _ (Books s)); reduce; [|done].
    match goal with |- context [Book.save ?o ?d ?w] =>
      pose proof (Book_save_users o d w) as H;
      destruct (Book.save o d w) as [[[]|e] w'] end; by reduce.
Qed.

(** ** The aggregator, on a freshly loaded book *)

Lemma rated_fields (b : BookDoc.t) (stats : list Stats) :
  BookDoc._id (rated b stats) = BookDoc._id b
  /\ BookDoc.title (rated b stats) = BookDoc.title b
  /\ BookDoc.author (rated b stats) = BookDoc.author b
  /\ BookDoc.totalReviews (rated b stats) = BookDoc.totalReviews b
  /\ BookDoc.isActive (rated b stats) = BookDoc.isActive b.
Proof. unfold rated. by destruct stats. Qed.

Lemma rated_aggregate (b : BookDoc.t) (rs : list ReviewDoc.t) :
  (forall r, In r rs -> ReviewDoc.book r = BookDoc._id b ->
             (1 <= ReviewDoc.rating r <= 5)%Q) ->
  let doc := rated b (aggregate rs (BookDoc._id b)) in
  BookDoc.totalRatings doc = Z.of_nat (length (match_book (BookDoc._id b) rs))
  /\ (match_book (BookDoc._id b) rs = [] -> BookDoc.averageRating doc = 0%Q)
  /\ (match_book (BookDoc._id b) rs <> [] ->
      (1 <= BookDoc.averageRating doc <= 5)%Q).
Proof.
  intros Hok doc. subst doc. unfold aggregate, group_stats.
  assert (forall x, In x (map ReviewDoc.rating (match_book (BookDoc._id b) rs)) ->
            (1 <= x <= 5)%Q) as Hall.
  { intros x Hx. apply in_map_iff in Hx as (r & <- & Hr).
    apply filter_In in Hr as [Hin Hb]. apply N.eqb_eq in Hb. by apply Hok. }
  destruct (match_book (BookDoc._id b) rs) as [|r0 l] eqn:E.
  - cbn. repeat split; done.
  - rewrite <- E in *. assert (match_book (BookDoc._id b) rs <> []) as Hne
      by (rewrite E; done).
    destruct (map ReviewDoc.rating (match_book (BookDoc._id b) rs)) as [|q qs] eqn:Em.
    { rewrite E in Em. done. }
    rewrite <- Em in *. unfold rated.
    cbn [BookDoc.set_ratings BookDoc.totalRatings BookDoc.averageRating
         averageRating totalRatings].
    rewrite length_map. split; [done|]. split; [done|]. intros _.
    apply round10_bounds. rewrite <- (length_map ReviewDoc.rating).
    apply mean_bounds; [|done]. rewrite Em. done.
Qed.

(** X23. The aggregator, run on a book as it is stored, with valid ratings
    and no store failure. [updateAverageRating] resolves and touches
    neither reviews nor users nor any other field of the book; the stored
    [totalRatings] becomes the number of all stored reviews of the book,
    inactive ones included, since the [$match] has no [isActive]
    condition; the stored [averageRating] is 0 when there is none and lies
    between 1 and 5 otherwise; and running it again on the book as then
    stored sends no write, so no store failure can make it reject. *)
Theorem aggregator_counts_every_row (w : World) (id : ObjectId) (b : BookDoc.t) :
  book_by_id id (db w) = Some b ->
  faults w = [] ->
  (forall r, In r (Reviews (db w)) -> ReviewDoc.book r = id ->
             (1 <= ReviewDoc.rating r <= 5)%Q) ->
  exists w' b',
    Book.updateAverageRating b w = (Ok tt, w')
    /\ Reviews (db w') = Reviews (db w) /\ Users (db w') = Users (db w)
    /\ book_by_id id (db w') = Some b'
    /\ (forall id', id' <> id -> book_by_id id' (db w') = book_by_id id' (db w))
    /\ BookDoc.totalRatings b' = Z.of_nat (length (match_book id (Reviews (db w))))
    /\ (match_book id (Reviews (db w)) = [] -> (BookDoc.averageRating b' == 0)%Q)
    /\ (match_book id (Reviews (db w)) <> [] ->
        (1 <= BookDoc.averageRating b' <= 5)%Q)
    /\ BookDoc.title b' = BookDoc.title b /\ BookDoc.author b' = BookDoc.author b
    /\ BookDoc.totalReviews b' = BookDoc.totalReviews b
    /\ BookDoc.isActive b' = BookDoc.isActive b
    /\ forall fs, exists l,
         Book.updateAverageRating b' (mkWorld (db w') (log w') fs (clock w'))
         = (Ok tt, mkWorld (db w') l fs (clock w')).
Proof.
  intros Hfind Hfaults Hok. unfold book_by_id in *.
  destruct (find_by_id_some _ _ _ _ Hfind) as [Hid _]. subst id.
  destruct (rated_aggregate b (Reviews (db w)) Hok) as (Hn & H0 & H15).
  destruct (rated_fields b (aggregate (Reviews (db w)) (BookDoc._id b)))
    as (Fi & Ft & Fa & Fr & Fact).
  set (doc := rated b (aggregate (Reviews (db w)) (BookDoc._id b))) in *.
  assert (0 <= BookDoc.averageRating doc <= 5)%Q as Hrange.
  { destruct (match_book (BookDoc._id b) (Reviews (db w))) eqn:E.
    - rewrite H0 by done. split; discriminate.
    - destruct H15 as [H1 H5]; [done|]. split; [|done].
      apply Qle_trans with 1%Q; [discriminate | done]. }
  assert (Book.validate (Some b) doc = true) as Hv
    by (apply Book_validate_spec; by right).
  (* the stored book afterwards *)
  assert (exists w' b',
    Book.updateAverageRating b w = (Ok tt, w')
    /\ Reviews (db w') = Reviews (db w) /\ Users (db w') = Users (db w)
    /\ List.find (fun x => N.eqb (BookDoc._id x) (BookDoc._id b)) (Books (db w'))
       = Some b'
    /\ (forall id', id' <> BookDoc._id b ->
          List.find (fun x => N.eqb (BookDoc._id x) id') (Books (db w'))
          = List.find (fun x => N.eqb (BookDoc._id x) id') (Books (db w)))
    /\ BookDoc._id b' = BookDoc._id b
    /\ BookDoc.title b' = BookDoc.title doc /\ BookDoc.author b' = BookDoc.author doc
    /\ (BookDoc.averageRating b' == BookDoc.averageRating doc)%Q
    /\ BookDoc.totalRatings b' = BookDoc.totalRatings doc
    /\ BookDoc.totalReviews b' = BookDoc.totalReviews doc
    /\ BookDoc.isActive b' = BookDoc.isActive doc) as (w' & b' & Hrun & HR & HU & Hb' & Hothers & Gi & Gt & Ga & Gavg & Gn & Gr & Gact).
  { unfold Book.updateAverageRating, bind, emit, get_db. cbn [db log faults clock].
    fold doc. rewrite Book_save_update by done. cbn [db log faults clock].
    rewrite Hfaults. cbn [hd tl].
    destruct (Book.same_fields b doc) eqn:Hsame.
    - destruct (same_fields_spec _ _ Hsame) as (S1 & S2 & S3 & S4 & S5 & S6).
      eexists _, b. split; [reflexivity|]. cbn [db]. repeat apply conj; done.
    - destruct (merge_self b doc Fi) as (M0 & M1 & M2 & M3 & M4 & M5 & M6).
      eexists _, (Book.merge b doc b). split; [reflexivity|].
      cbn [db Reviews Users Books Book.store_update]. rewrite Fi.
      repeat apply conj; try done.
      + by apply book_find_update_first.
      + intros id' Hne. by apply book_find_update_first_other. }
  exists w', b'. split; [exact Hrun|]. split; [done|]. split; [done|].
  split; [done|]. split; [done|]. split; [congruence|].
  split; [intros E; rewrite Gavg, (H0 E); reflexivity|].
  split; [intros E; rewrite Gavg; by apply H15|].
  split; [congruence|]. split; [congruence|]. split; [congruence|].
  split; [congruence|].
  intros fs. unfold Book.updateAverageRating, bind, emit, get_db.
  cbn [db log faults clock]. rewrite HR, Gi.
  set (doc' := rated b' (aggregate (Reviews (db w)) (BookDoc._id b))).
  assert (BookDoc.averageRating doc' = BookDoc.averageRating doc
          /\ BookDoc.totalRatings doc' = BookDoc.totalRatings doc) as [Eavg En].
  { unfold doc', doc, rated. by destruct (aggregate _ _). }
  destruct (rated_fields b' (aggregate (Reviews (db w)) (BookDoc._id b)))
    as (Fi' & Ft' & Fa' & Fr' & Fact').
  fold doc' in Fi', Ft', Fa', Fr', Fact'.
  assert (Book.same_fields b' doc' = true) as Hsame.
  { unfold Book.same_fields.
    rewrite Ft', Fa', Fr', Fact', Eavg, En, Gn, !String.eqb_refl, !Z.eqb_refl,
      Bool.eqb_reflx.
    apply Qeq_bool_iff in Gavg. by rewrite Gavg. }
  rewrite Book_save_update.
  - rewrite Hsame. cbn [db log faults clock]. eexists. reflexivity.
  - apply Book_validate_spec. left. rewrite Eavg. by symmetry.
Qed.

Lemma aggregator_counts_every_row_witness :
  exists w' b',
    Book.updateAverageRating withdrawn_book (mkWorld withdrawn [] [] 9%N) = (Ok tt, w')
    /\ book_by_id 10 (db w') = Some b'
    /\ BookDoc.totalRatings b' = 1.
Proof.
  destruct (aggregator_counts_every_row (mkWorld withdrawn [] [] 9%N) 10 withdrawn_book)
    as (w' & b' & H1 & _ & _ & H2 & _ & H3 & _).
  - vm_compute. reflexivity.
  - reflexivity.
  - intros r Hr _. vm_compute in Hr. destruct Hr as [<-|[]]. split; discriminate.
  - exists w', b'. split; [exact H1|]. split; [exact H2 | exact H3].
Defined.

(** ** The statistics of the books, when no write fails *)
























(** ** A create that goes through *)





(** ** The order of a listing *)






(** ** An update the schema refuses *)

(** X27. An update the schema refuses is answered as a server error. For an
    active review and its author or an administrator, a PUT whose body
    carries a [rating] outside 1 to 5 that differs from the stored one
    answers 500, not 400, whatever else the body carries: the validation of
    [save] throws before the pre-save hook and before any write, so the
    store is unchanged, the aggregator is not invoked and no store failure
    that was pending is consumed. *)
Theorem update_outside_schema_is_a_server_error
    (s : Store) (requester : UserDoc.t) (id : ObjectId) (body : UpdateBody)
    (o : ReviewDoc.t) (q : Q) (fs : list bool) (t : Date) :
  review_by_id id s = Some o ->
  ReviewDoc.isActive o = true ->
  reviews.denied o requester = false ->
  u_rating body = Some q ->
  ~ (1 <= q <= 5)%Q ->
  ~ (q == ReviewDoc.rating o)%Q ->
  serve (mkRequest (PutReview requester id body) fs t) s
  = (mkResponse 500 "Server error while updating review" NoPayload, s,
     [ReviewSaveFailed id; ConsoleError "Update review error:"]).
Proof.
  intros Hfind Hact Hden Hq Hout Hne. unfold review_by_id in Hfind.
  destruct (find_review_some _ _ _ Hfind) as [Hid _].
  assert (Review.validate (Some o) (reviews.assign_allowed body o) = false) as Hv.
  { cbn [Review.validate]. unfold Review.validate_modified.
    cbn [ReviewDoc.rating reviews.assign_allowed]. rewrite Hq. cbn [reviews.assign].
    assert (Qeq_bool (ReviewDoc.rating o) q = false) as ->.
    { apply not_true_is_false. intros E. apply Qeq_bool_iff in E.
      apply Hne. by symmetry. }
    assert (Review.valid_rating q = false) as ->.
    { apply not_true_is_false. intros E. apply Hout.
      unfold Review.valid_rating in E.
      by rewrite andb_true_iff, !Qle_bool_iff in E. }
    reflexivity. }
  handlers. rewrite Hfind, Hact, Hden. cbn [negb].
  unfold Review.save. rewrite Hv. cbn [negb]. monad.
  cbn [ReviewDoc._id reviews.assign_allowed]. by rewrite Hid.
Qed.

Lemma update_outside_schema_is_a_server_error_witness :
  serve (request (PutReview alice 100 (rate 9)) 7) voted
  = (mkResponse 500 "Server error while updating review" NoPayload, voted,
     [ReviewSaveFailed 100; ConsoleError "Update review error:"]).
Proof.
  apply (update_outside_schema_is_a_server_error voted alice 100 (rate 9)
           voted_review 9 [] 7%N).
  - reflexivity.
  - reflexivity.
  - reflexivity.
  - reflexivity.
  - intros [_ H]. revert H. vm_compute. intros H. by apply H.
  - vm_compute. discriminate.
Defined.

(** ** The aggregator, on a book loaded earlier *)


